(** * The recipe ETL pipeline: the four lambdas

    A shallow embedding of
    [src/lambdas/data_extraction/data_extranction.py],
    [src/lambdas/data_transformation/data_transfromation.py],
    [src/lambdas/notification_handler/notification_handler.py] and
    [src/lambdas/data_loader/data_loader.py],
    followed by the properties proved about them.

    Conventions of the embedding.
    - A Python [str] is a [string]; each [ascii] stands for one code point
      U+0000..U+00FF, classified as Python's [re] classifies it for [str]
      patterns.
    - A Python [int] is a [Z], a [float] is an IEEE-754 binary64 value
      ([spec_float] with precision 53 and exponent bound 1024).
    - A [dict] is the list of its items in insertion order, looked up by
      key.
    - Code that can raise returns a [result]; code that touches the
      file system, S3, SQS, the database, the clock, the log or standard
      output is a function of an explicit [world]. *)

From Stdlib Require Import ZArith List String Ascii Bool Lia SpecFloat.
From stdpp Require Import base option list strings gmap pretty.

Set Warnings "-register-all".

Open Scope string_scope.
Open Scope Z_scope.

(** ** Python values, exceptions and the error monad *)

Module Py.

Inductive exn_class :=
| TypeError | ValueError | KeyError | IndexError | OSError
| FileNotFoundError | ClientError | JSONDecodeError | OverflowError.

(** An exception: its class and the text [str(e)] gives. *)
Inductive exn := Exn (cls : exn_class) (msg : string).

Definition exn_cls (e : exn) : exn_class := let 'Exn c _ := e in c.
Definition str_exn (e : exn) : string := let 'Exn _ m := e in m.

Inductive result (A : Type) :=
| Ok (a : A)
| Raise (e : exn).
Arguments Ok {A} a.
Arguments Raise {A} e.

Definition bind {A B} (r : result A) (k : A -> result B) : result B :=
  match r with
  | Ok a => k a
  | Raise e => Raise e
  end.

Definition raised {A} (r : result A) : bool :=
  match r with Ok _ => false | Raise _ => true end.

(** Values a parsed JSON document or a data-frame cell can hold. *)
Inductive value :=
| VNone
| VBool (b : bool)
| VInt (z : Z)
| VFloat (f : spec_float)
| VStr (s : string)
| VList (l : list value)
| VDict (items : list (string * value)).

Definition type_name (v : value) : string :=
  match v with
  | VNone => "NoneType"
  | VBool _ => "bool"
  | VInt _ => "int"
  | VFloat _ => "float"
  | VStr _ => "str"
  | VList _ => "list"
  | VDict _ => "dict"
  end.

(** [s.find(sub) >= 0], by trying every suffix of [s]. *)
Fixpoint is_substring (sub s : string) : bool :=
  String.prefix sub s ||
  match s with
  | EmptyString => false
  | String _ s' => is_substring sub s'
  end.

(** [key in container] for a [str] key: dict membership is by key, list
    membership by element equality, str membership by substring; the other
    types are not containers. *)
Definition py_in (key : string) (container : value) : result bool :=
  match container with
  | VDict items => Ok (existsb (String.eqb key) (map fst items))
  | VList l =>
      Ok (existsb (fun v => match v with VStr s => String.eqb key s | _ => false end) l)
  | VStr s => Ok (is_substring key s)
  | v => Raise (Exn TypeError ("argument of type '" ++ type_name v ++ "' is not iterable"))
  end.

(** [all(f(x) for x in xs)]: stops at the first false, raises what [f]
    raises. *)
Fixpoint py_all {A} (f : A -> result bool) (xs : list A) : result bool :=
  match xs with
  | [] => Ok true
  | x :: xs' =>
      bind (f x) (fun b => if b then py_all f xs' else Ok false)
  end.

(** [len(v)]. *)
Definition py_len (v : value) : result Z :=
  match v with
  | VStr s => Ok (Z.of_nat (String.length s))
  | VList l => Ok (Z.of_nat (List.length l))
  | VDict items => Ok (Z.of_nat (List.length items))
  | v => Raise (Exn TypeError ("object of type '" ++ type_name v ++ "' has no len()"))
  end.

(** The items a [for] loop over [v] visits. *)
Definition py_iter (v : value) : result (list value) :=
  match v with
  | VList l => Ok l
  | VStr s => Ok (map (fun a => VStr (String a EmptyString)) (list_ascii_of_string s))
  | VDict items => Ok (map (fun kv => VStr (fst kv)) items)
  | v => Raise (Exn TypeError ("'" ++ type_name v ++ "' object is not iterable"))
  end.

(** [os.environ.get(name, default)]: the variable's text when it is set,
    the default object otherwise. No conversion takes place. *)
Definition os_environ_get (environ : gmap string string) (name : string)
    (default : value) : value :=
  match environ !! name with
  | Some s => VStr s
  | None => default
  end.

(** [range(start, stop, step)] on ints, as a list: CPython computes the
    length first and then the items [start + k * step]. *)
Definition range_length (lo hi step : Z) : Z :=
  if 0 <? step then (if lo <? hi then (hi - lo - 1) / step + 1 else 0)
  else (if hi <? lo then (lo - hi - 1) / (- step) + 1 else 0).

Definition as_index (v : value) : result Z :=
  match v with
  | VInt z => Ok z
  | VBool b => Ok (if b then 1 else 0)
  | v => Raise (Exn TypeError
           ("'" ++ type_name v ++ "' object cannot be interpreted as an integer"))
  end.

Definition py_range (start stop step : value) : result (list Z) :=
  bind (as_index start) (fun lo =>
  bind (as_index stop) (fun hi =>
  bind (as_index step) (fun st =>
  if st =? 0 then Raise (Exn ValueError "range() arg 3 must not be zero")
  else Ok (map (fun k => lo + Z.of_nat k * st)
             (seq 0 (Z.to_nat (range_length lo hi st))))))).

(** [i + n] for an int [i]: an int for an int or a bool, a float for a
    float. *)
Definition py_add_int (i : Z) (n : value) : result value :=
  match n with
  | VInt z => Ok (VInt (i + z))
  | VBool b => Ok (VInt (i + if b then 1 else 0))
  | VFloat f =>
      Ok (VFloat (SFadd 53 1024 (binary_normalize 53 1024 i 0 false) f))
  | v => Raise (Exn TypeError
           ("unsupported operand type(s) for +: 'int' and '" ++ type_name v ++ "'"))
  end.

(** [l[i:j]] for int bounds: a negative bound counts from the end, and
    both bounds are clamped to the list. *)
Definition slice_bound (n i : Z) : Z :=
  if i <? 0 then Z.max (i + n) 0 else Z.min i n.

Definition slice {A} (l : list A) (i j : Z) : list A :=
  let n := Z.of_nat (List.length l) in
  let lo := slice_bound n i in
  let hi := slice_bound n j in
  take (Z.to_nat (hi - lo)) (drop (Z.to_nat lo) l).

(** [l[i:j]] for an int [i] and any object [j]. *)
Definition py_slice {A} (l : list A) (i : Z) (j : value) : result (list A) :=
  match j with
  | VInt z => Ok (slice l i z)
  | VBool b => Ok (slice l i (if b then 1 else 0))
  | VNone => Ok (slice l i (Z.of_nat (List.length l)))
  | _ => Raise (Exn TypeError
           "slice indices must be integers or None or have an __index__ method")
  end.

(** [str(v)], as an f-string shows a value. Floats and containers are
    shown by their type only: no text the lambdas print depends on
    them. *)
Definition py_str (v : value) : string :=
  match v with
  | VStr s => s
  | VNone => "None"
  | VBool b => if b then "True" else "False"
  | VInt z => pretty z
  | v => "<" ++ type_name v ++ ">"
  end.

(** [for x in xs: ...] collecting results, in the error monad. *)
Fixpoint mapM {A B} (f : A -> result B) (xs : list A) : result (list B) :=
  match xs with
  | [] => Ok []
  | x :: xs' => bind (f x) (fun y => bind (mapM f xs') (fun ys => Ok (y :: ys)))
  end.

(** [int(s)] for the texts [(\d+)] can capture: a non-empty run of the
    decimal digits 0-9. A text of more than 4300 digits is refused
    ([sys.int_max_str_digits], default 4300). *)
Definition digit_value (a : ascii) : option Z :=
  let n := Z.of_N (N_of_ascii a) in
  if (48 <=? n) && (n <=? 57) then Some (n - 48) else None.

Fixpoint int_digits (acc : Z) (s : string) : result Z :=
  match s with
  | EmptyString => Ok acc
  | String a s' =>
      match digit_value a with
      | Some d => int_digits (10 * acc + d) s'
      | None => Raise (Exn ValueError "invalid literal for int() with base 10")
      end
  end.

Definition int_max_str_digits : nat := 4300.

(** The digits a text starts with. *)
Fixpoint leading_digits (s : string) : nat :=
  match s with
  | EmptyString => O
  | String a s' =>
      match digit_value a with
      | Some _ => S (leading_digits s')
      | None => O
      end
  end.

Definition py_int (s : string) : result Z :=
  match s with
  | EmptyString => Raise (Exn ValueError "invalid literal for int() with base 10")
  | _ =>
      if (int_max_str_digits <? leading_digits s)%nat
      then Raise (Exn ValueError
             ("Exceeds the limit (4300 digits) for integer string conversion: value has "
              ++ pretty (leading_digits s)
              ++ " digits; use sys.set_int_max_str_digits() to increase the limit"))
      else int_digits 0 s
  end.

(** [s.split(sep)] for a one-character separator, and [parts[-1]]. *)
Fixpoint str_split (sep : ascii) (s : string) : list string :=
  match s with
  | EmptyString => [EmptyString]
  | String a s' =>
      if Ascii.eqb a sep then EmptyString :: str_split sep s'
      else match str_split sep s' with
           | [] => [String a EmptyString]
           | p :: ps => String a p :: ps
           end
  end.

Definition last_part (parts : list string) : string := List.last parts EmptyString.

End Py.

(** ** The fragment of Python's [re] the time pattern uses

    [re] matches by backtracking: every quantifier is tried at its
    greediest first and gives characters back one at a time when the rest
    of the pattern fails. [run] lists all the ways a pattern matches a
    prefix of the subject in exactly that order of preference, so the match
    [re] reports is the head of the list. *)

Module Re.

Inductive category := CATEGORY_DIGIT | CATEGORY_SPACE | CATEGORY_WORD.

Definition code (a : ascii) : Z := Z.of_N (N_of_ascii a).

Definition between (lo hi n : Z) : bool := (lo <=? n) && (n <=? hi).

(** [\d]: the decimal digits. Below U+0100 these are 0-9. *)
Definition is_digit (a : ascii) : bool := between 48 57 (code a).

(** [\s]: TAB, LF, VT, FF, CR, the separators U+001C..U+001F, the space,
    NEL (U+0085) and the no-break space (U+00A0). *)
Definition is_space (a : ascii) : bool :=
  let n := code a in
  between 9 13 n || between 28 32 n || (n =? 133) || (n =? 160).

(** Letters below U+0100: A-Z, a-z, the ordinal indicators, the micro sign
    and the Latin-1 letters (all of U+00C0..U+00FF but the two operators
    U+00D7 and U+00F7). *)
Definition is_alpha (a : ascii) : bool :=
  let n := code a in
  between 65 90 n || between 97 122 n || (n =? 170) || (n =? 181) || (n =? 186)
  || between 192 214 n || between 216 246 n || between 248 255 n.

(** Characters with a numeric value below U+0100: 0-9, the superscripts
    1, 2, 3 and the fractions 1/4, 1/2, 3/4. *)
Definition is_numeric (a : ascii) : bool :=
  let n := code a in
  between 48 57 n || (n =? 178) || (n =? 179) || (n =? 185) || between 188 190 n.

(** [\w]: alphanumeric or the underscore. *)
Definition is_word (a : ascii) : bool :=
  is_alpha a || is_numeric a || (code a =? 95).

Definition in_category (c : category) (a : ascii) : bool :=
  match c with
  | CATEGORY_DIGIT => is_digit a
  | CATEGORY_SPACE => is_space a
  | CATEGORY_WORD => is_word a
  end.

Inductive pattern :=
| In (c : category)                    (* one character of a class *)
| MaxRepeat (min : nat) (c : category) (* greedy repetition, at least [min] *)
| Seq (p q : pattern)
| Subpattern (p : pattern).            (* a capturing group *)

(** The suffixes left after a greedy run of class [c]: the longest run
    first, then one character less at a time down to the empty run. *)
Fixpoint greedy (c : category) (s : string) : list string :=
  match s with
  | EmptyString => [s]
  | String a s' => if in_category c a then (greedy c s' ++ [s])%list else [s]
  end.

(** The text consumed between a subject [s] and its suffix [rest]. *)
Definition consumed (s rest : string) : string :=
  String.substring 0 (String.length s - String.length rest) s.

(** All matches of [p] at the start of [s], best first: the text left and
    the groups captured so far. *)
Fixpoint run (p : pattern) (s : string) (groups : list string)
    : list (string * list string) :=
  match p with
  | In c =>
      match s with
      | String a s' => if in_category c a then [(s', groups)] else []
      | EmptyString => []
      end
  | MaxRepeat min c =>
      map (fun rest => (rest, groups))
        (filter (fun rest => (min <=? String.length s - String.length rest)%nat)
           (greedy c s))
  | Seq p q =>
      flat_map (fun st => run q (fst st) (snd st)) (run p s groups)
  | Subpattern p =>
      map (fun st => (fst st, (snd st ++ [consumed s (fst st)])%list)) (run p s groups)
  end.

(** [pattern.match(s)] at the current position. *)
Definition match_here (p : pattern) (s : string) : option (string * list string) :=
  head (run p s []).

(** [pattern.findall(s)]: scan left to right; a match is reported with its
    groups and the scan resumes where it ended. [skip] counts the
    characters of the last match still to be passed over. *)
Fixpoint scan (p : pattern) (s : string) (skip : nat) : list (list string) :=
  match s with
  | EmptyString =>
      match skip, match_here p s with
      | O, Some (_, groups) => [groups]
      | _, _ => []
      end
  | String _ s' =>
      match skip with
      | S k => scan p s' k
      | O =>
          match match_here p s with
          | Some (rest, groups) =>
              groups :: scan p s' (String.length s - String.length rest - 1)
          | None => scan p s' 0
          end
      end
  end.

Definition findall (p : pattern) (s : string) : list (list string) := scan p s 0.

End Re.

(** ** Effects: a state and error monad over an explicit world *)

Module Eff.
Import Py.

Definition M (W A : Type) : Type := W -> result A * W.

Definition ret {W A} (a : A) : M W A := fun w => (Ok a, w).

Definition throw {W A} (e : exn) : M W A := fun w => (Raise e, w).

Definition lift {W A} (r : result A) : M W A := fun w => (r, w).

Definition mbind {W A B} (m : M W A) (k : A -> M W B) : M W B :=
  fun w =>
    match m w with
    | (Ok a, w') => k a w'
    | (Raise e, w') => (Raise e, w')
    end.

(** [try: body  except Exception as e: handler(e)]. The world keeps what
    the body did before it raised. *)
Definition try_except {W A} (body : M W A) (handler : exn -> M W A) : M W A :=
  fun w =>
    match body w with
    | (Ok a, w') => (Ok a, w')
    | (Raise e, w') => handler e w'
    end.

Definition when {W} (b : bool) (m : M W unit) : M W unit :=
  if b then m else ret tt.

(** A loop that collects one result per item, in order. *)
Fixpoint map_each {W A B} (f : A -> M W B) (xs : list A) : M W (list B) :=
  match xs with
  | [] => ret []
  | x :: xs' =>
      mbind (f x) (fun y => mbind (map_each f xs') (fun ys => ret (y :: ys)))
  end.

(** A loop run for its effects. *)
Fixpoint for_each {W A} (f : A -> M W unit) (xs : list A) : M W unit :=
  match xs with
  | [] => ret tt
  | x :: xs' => mbind (f x) (fun _ => for_each f xs')
  end.

End Eff.

Notation "x <~ m ;; k" := (Eff.mbind m (fun x => k))
  (at level 20, m at level 99, k at level 200, only parsing).
Notation "m ;;; k" := (Eff.mbind m (fun _ => k))
  (at level 100, k at level 200, right associativity, only parsing).

(** ** Binary64 arithmetic as Python uses it *)

Module Float.

Definition prec : Z := 53.
Definition emax : Z := 1024.

Definition float := spec_float.

(** [float(z)] for an int, rounded to nearest even. *)
Definition of_int (z : Z) : float := binary_normalize prec emax z 0 false.

Definition mul : float -> float -> float := SFmul prec emax.
Definition add : float -> float -> float := SFadd prec emax.
Definition ltb : float -> float -> bool := SFltb.

(** The literals [0.6] and [0.4]: the doubles 0x1.3333333333333p-1 and
    0x1.999999999999ap-2. *)
Definition lit_0_6 : float := S754_finite false 5404319552844595 (-53).
Definition lit_0_4 : float := S754_finite false 7205759403792794 (-54).

(** [n * x] for an int [n] and a float [x]: the int is converted first;
    an int too large for a double raises. *)
Definition int_times (n : Z) (x : float) : Py.result float :=
  match of_int n with
  | S754_infinity _ => Py.Raise (Py.Exn Py.OverflowError "int too large to convert to float")
  | f => Py.Ok (mul f x)
  end.

(** The exact value of a finite double as a fraction [num / 2^k]. *)
Definition exact (f : float) : option (Z * Z) :=
  match f with
  | S754_zero _ => Some (0, 1)
  | S754_finite s m e =>
      let n := if s then Z.neg m else Z.pos m in
      Some (if 0 <=? e then (n * 2 ^ e, 1) else (n, 2 ^ (- e)))
  | _ => None
  end.

End Float.

(** ** The part of pandas the lambdas rely on

    A frame is its column labels and its rows; a row (the [Series] that
    [apply(axis=1)] hands to the function) is the list of its labelled
    cells. The index is the default range index. *)

Module Pandas.
Import Py.

Definition row := list (string * value).

Record DataFrame := { columns : list string; rows : list row }.

Definition nan : value := VFloat S754_nan.

Fixpoint dict_get (key : string) (items : list (string * value)) : option value :=
  match items with
  | [] => None
  | (k, v) :: rest => if String.eqb key k then Some v else dict_get key rest
  end.

Definition has_label (label : string) (labels : list string) : bool :=
  existsb (String.eqb label) labels.

Definition add_label (labels : list string) (label : string) : list string :=
  if has_label label labels then labels else (labels ++ [label])%list.

(** The labels of a list of mappings: every key, in order of first
    appearance. *)
Definition union_keys (records : list row) : list string :=
  fold_left (fun acc r => fold_left add_label (map fst r) acc) records [].

(** One row laid out on the frame's columns; a missing cell is NaN. *)
Definition align (cols : list string) (r : row) : row :=
  map (fun c => (c, default nan (dict_get c r))) cols.

(** [pd.DataFrame(records)] for a list of dicts. *)
Definition of_records (records : list row) : DataFrame :=
  let cols := union_keys records in
  {| columns := cols; rows := map (align cols) records |}.

(** [row[label]]. *)
Definition row_get (r : row) (label : string) : result value :=
  match dict_get label r with
  | Some v => Ok v
  | None => Raise (Exn KeyError label)
  end.

(** [row[label] = v]: replaces the cell, or appends a new one. *)
Fixpoint row_set (r : row) (label : string) (v : value) : row :=
  match r with
  | [] => [(label, v)]
  | (k, x) :: rest =>
      if String.eqb label k then (k, v) :: rest else (k, x) :: row_set rest label v
  end.

Definition quote_label (label : string) : string := "'" ++ label ++ "'".

(** [df[[c1, ..., cn]]]: every label must be a column. (When none is,
    pandas words the message of the [KeyError] differently.) *)
Definition select (cols : list string) (df : DataFrame) : result DataFrame :=
  match filter (fun c => negb (has_label c (columns df))) cols with
  | [] => Ok {| columns := cols; rows := map (align cols) (rows df) |}
  | missing =>
      Raise (Exn KeyError
        ("[" ++ String.concat ", " (map quote_label missing) ++ "] not in index"))
  end.

(** [df[label]]: the cells of one column. *)
Definition column (label : string) (df : DataFrame) : result (list value) :=
  if has_label label (columns df)
  then Ok (map (fun r => default nan (dict_get label r)) (rows df))
  else Raise (Exn KeyError label).

(** *** The text of a [Series]: what [str(series)] and an f-string give

    pandas prints one line per row, the index label left-aligned and the
    value right-aligned four spaces further, then a footer with the name
    and the dtype. Above [max_rows] rows (60) only the first and the last
    five are shown, around a row of dots, and the footer gives the
    length. *)

Definition newline : string := String (ascii_of_nat 10) EmptyString.

Definition spaces (n : nat) : string := string_of_list_ascii (repeat " "%char n).

Definition ljust (w : nat) (s : string) : string :=
  s ++ spaces (w - String.length s).

Definition rjust (w : nat) (s : string) : string :=
  spaces (w - String.length s) ++ s.

(** [s.center(w)]. *)
Definition center (w : nat) (s : string) : string :=
  let marg := (w - String.length s)%nat in
  let left := (marg / 2 + (if Nat.odd marg && Nat.odd w then 1 else 0))%nat in
  spaces left ++ s ++ spaces (marg - left).

Definition max_width (cells : list string) : nat :=
  fold_right Nat.max 0%nat (map String.length cells).

(** How one cell is shown. *)
Definition str_cell (v : value) : string := py_str v.

Definition max_rows : nat := 60.

Definition series_lines (labels cells : list string) : list string :=
  let wi := max_width labels in
  let wv := max_width cells in
  zip_with (fun i v => ljust wi i ++ "    " ++ rjust wv v) labels cells.

Definition Series_repr (name : string) (values : list value) : string :=
  let n := List.length values in
  let labels := map (fun i : nat => pretty i) (seq 0 n) in
  let cells := map str_cell values in
  match n with
  | O => "Series([], Name: " ++ name ++ ", dtype: object)"
  | _ =>
      if (max_rows <? n)%nat then
        let labels' := (take 5 labels ++ drop (n - 5) labels)%list in
        let cells' := (take 5 cells ++ drop (n - 5) cells)%list in
        let wi := max_width labels' in
        let wv := max_width cells' in
        let dots := ljust wi "" ++ "    " ++ center wv (if (3 <? wv)%nat then "..." else "..") in
        let body := series_lines labels' cells' in
        String.concat newline (take 5 body ++ [dots] ++ drop 5 body)%list
        ++ newline ++ "Name: " ++ name ++ ", Length: " ++ pretty n ++ ", dtype: object"
      else
        String.concat newline (series_lines labels cells)
        ++ newline ++ "Name: " ++ name ++ ", dtype: object"
  end.

End Pandas.

(** ** [data_transfromation.py]: the feature transformer *)

Module Transformation.
Import Py.

Definition TIME_UNITS : gmap string Z :=
  <["second" := 1]> (<["seconds" := 1]> (<["minute" := 60]> (<["minutes" := 60]>
  (<["hour" := 3600]> (<["hours" := 3600]> ∅))))).

Definition get_complexity_score (ingredients directions : value) : result Float.float :=
  bind (py_len directions) (fun nd =>
  bind (Float.int_times nd Float.lit_0_6) (fun a =>
  bind (py_len ingredients) (fun ni =>
  bind (Float.int_times ni Float.lit_0_4) (fun b =>
  Ok (Float.add a b))))).

Definition get_difficulty_flag (complexity_score : Float.float) : string :=
  if Float.ltb complexity_score (Float.of_int 4) then "easy"
  else if Float.ltb complexity_score (Float.of_int 8) then "medium"
  else "hard".

(** [re.compile(r"(\d+)\s*(\w+)")]. *)
Definition time_pattern : Re.pattern :=
  Re.Seq (Re.Subpattern (Re.MaxRepeat 1 Re.CATEGORY_DIGIT))
    (Re.Seq (Re.MaxRepeat 0 Re.CATEGORY_SPACE)
       (Re.Subpattern (Re.MaxRepeat 1 Re.CATEGORY_WORD))).

Definition tuple_item (t : list string) (i : nat) : result string :=
  match t !! i with
  | Some x => Ok x
  | None => Raise (Exn IndexError "tuple index out of range")
  end.

(** The inner loop of [get_time_estimate]: the running total and the
    [any_match] flag after the matches of one direction. *)
Fixpoint matches_loop (matches : list (list string)) (time_estimate : Z)
    (any_match : bool) : result (Z * bool) :=
  match matches with
  | [] => Ok (time_estimate, any_match)
  | m :: rest =>
      bind (tuple_item m 0) (fun number =>
      bind (tuple_item m 1) (fun unit =>
      match TIME_UNITS !! unit with
      | None => matches_loop rest time_estimate any_match
      | Some seconds =>
          bind (py_int number) (fun n =>
          matches_loop rest (time_estimate + n * seconds) true)
      end))
  end.

(** [time_pattern.findall(direction)] wants a [str]. *)
Definition findall_value (direction : value) : result (list (list string)) :=
  match direction with
  | VStr s => Ok (Re.findall time_pattern s)
  | v => Raise (Exn TypeError
           ("expected string or bytes-like object, got '" ++ type_name v ++ "'"))
  end.

(** The outer loop: one direction after the other. *)
Fixpoint directions_loop (directions : list value) (time_estimate : Z) : result Z :=
  match directions with
  | [] => Ok time_estimate
  | direction :: rest =>
      bind (findall_value direction) (fun matches =>
      bind (matches_loop matches time_estimate false) (fun st =>
      directions_loop rest (if snd st then fst st else fst st + 300)))
  end.

Definition get_time_estimate (directions : value) : result Z :=
  bind (py_iter directions) (fun ds => directions_loop ds 0).

(** *** The transformation coordinator *)

Section Coordinator.

Variable environ : gmap string string.

Definition PROCESSED_BUCKET : value :=
  os_environ_get environ "PROCESSED_BUCKET" (VStr "processed-recipes-bucket").

(** The calls that leave the process. *)
Inductive op :=
| GetObject (bucket key : string)
| ReadParquet (bucket key : string)
| ToParquet (df : Pandas.DataFrame)
| PutObject (bucket : value) (key : string).

(** What the run cannot decide: the identifiers [uuid4] hands out and the
    calls that fail. *)
Record oracle := {
  uuid4 : nat -> string;
  raises : op -> option exn
}.

Record world := {
  env : oracle;
  next_uuid : nat;
  s3_objects : gmap (string * string) Pandas.DataFrame;
  stdout : list string
}.

Definition M := Eff.M world.

Definition print (line : string) : M unit :=
  fun w => (Ok tt, {| env := env w; next_uuid := next_uuid w;
                      s3_objects := s3_objects w;
                      stdout := (stdout w ++ [line])%list |}).

(** An external call fails when the oracle says so. *)
Definition external (o : op) : M unit :=
  fun w => match raises (env w) o with
           | Some e => (Raise e, w)
           | None => (Ok tt, w)
           end.

Definition get_recipe_id : M string :=
  fun w => (Ok (uuid4 (env w) (next_uuid w)),
            {| env := env w; next_uuid := S (next_uuid w);
               s3_objects := s3_objects w; stdout := stdout w |}).

Definition transform_row (row : Pandas.row) : M Pandas.row :=
  ingredients <~ Eff.lift (Pandas.row_get row "ingredients") ;;
  directions <~ Eff.lift (Pandas.row_get row "directions") ;;
  complexity_score <~ Eff.lift (get_complexity_score ingredients directions) ;;
  let row := Pandas.row_set row "complexity_score" (VFloat complexity_score) in
  (* row["complexity_score"] reads back the float just stored *)
  let row := Pandas.row_set row "difficulty_flag"
               (VStr (get_difficulty_flag complexity_score)) in
  directions <~ Eff.lift (Pandas.row_get row "directions") ;;
  time_estimate <~ Eff.lift (get_time_estimate directions) ;;
  let row := Pandas.row_set row "time_estimate" (VInt time_estimate) in
  recipe_id <~ get_recipe_id ;;
  Eff.ret (Pandas.row_set row "recipe_id" (VStr recipe_id)).

(** [df.apply(transform_row, axis=1)]: the function runs once per row and
    the returned rows make the new frame; a frame with no row or no column
    comes back as it is (pandas tries the function on a row of NaN and
    drops the exception it raises). *)
Definition apply_rows (f : Pandas.row -> M Pandas.row) (df : Pandas.DataFrame)
    : M Pandas.DataFrame :=
  match Pandas.rows df, Pandas.columns df with
  | [], _ | _, [] => Eff.ret df
  | rs, _ => rows' <~ Eff.map_each f rs ;; Eff.ret (Pandas.of_records rows')
  end.

Definition s3_get_object (bucket key : string) : M Pandas.DataFrame :=
  external (GetObject bucket key) ;;;
  fun w => match s3_objects w !! (bucket, key) with
           | Some df => (Ok df, w)
           | None => (Raise (Exn ClientError "NoSuchKey"), w)
           end.

(** Only a [str] names a bucket. *)
Definition s3_put_object (bucket : value) (key : string) (df : Pandas.DataFrame)
    : M unit :=
  external (ToParquet df) ;;;
  external (PutObject bucket key) ;;;
  match bucket with
  | VStr b =>
      fun w => (Ok tt, {| env := env w; next_uuid := next_uuid w;
                          s3_objects := <[(b, key) := df]> (s3_objects w);
                          stdout := stdout w |})
  | _ => Eff.throw (Exn TypeError "Invalid type for parameter Bucket")
  end.

Definition selected_columns : list string :=
  ["title"; "ingredients"; "directions"; "tags"; "complexity_score";
   "difficulty_flag"; "time_estimate"; "recipe_id"].

(** The key the handler computes for a frame read from [temp_key]. *)
Definition output_key (flags : list value) (temp_key : string) : string :=
  Pandas.Series_repr "difficulty_flag" flags ++ "/" ++ last_part (str_split "/" temp_key).

(** A work notification: [source_bucket], [source_key], [timestamp]. *)
Record notification := {
  source_bucket : string;
  source_key : string;
  timestamp : string
}.

Definition handle_record (record : notification) : M unit :=
  let temp_bucket := source_bucket record in
  let temp_key := source_key record in
  print ("Processing file from " ++ temp_bucket ++ "/" ++ temp_key) ;;;
  df <~ s3_get_object temp_bucket temp_key ;;
  print "<get_object response>" ;;;
  external (ReadParquet temp_bucket temp_key) ;;;
  df <~ apply_rows transform_row df ;;
  df <~ Eff.lift (Pandas.select selected_columns df) ;;
  flags <~ Eff.lift (Pandas.column "difficulty_flag" df) ;;
  s3_put_object PROCESSED_BUCKET (output_key flags temp_key) df.

(** Returns the status code of [{"statusCode": 200}]. *)
Definition lambda_handler (event : list notification) : M Z :=
  Eff.for_each handle_record event ;;;
  Eff.ret 200.

End Coordinator.

End Transformation.

(** ** [data_extranction.py]: validation, batching, artifacts, fan-out *)

Module Extraction.
Import Py.

Definition required_fields : list string := ["title"; "ingredients"; "directions"].

Definition validate_raw_data (recipe : value) : result bool :=
  py_all (fun field => py_in field recipe) required_fields.

(** [[recipes[i : i + BATCH_SIZE] for i in range(0, len(recipes), BATCH_SIZE)]]. *)
Definition make_batches (BATCH_SIZE : value) (recipes : list value)
    : result (list (list value)) :=
  bind (py_range (VInt 0) (VInt (Z.of_nat (List.length recipes))) BATCH_SIZE)
    (fun starts =>
       mapM (fun i => bind (py_add_int i BATCH_SIZE)
                        (fun j => py_slice recipes i j)) starts).

(** The valid / invalid split of [extract_recipe_data]: both lists grow at
    the end, and a record the validator cannot test raises. *)
Fixpoint split_recipes (recipes valid_recipes invalid_recipes : list value)
    : result (list value * list value) :=
  match recipes with
  | [] => Ok (valid_recipes, invalid_recipes)
  | recipe :: rest =>
      bind (validate_raw_data recipe) (fun ok =>
      if ok then split_recipes rest (valid_recipes ++ [recipe])%list invalid_recipes
      else split_recipes rest valid_recipes (invalid_recipes ++ [recipe])%list)
  end.

(** [os.path.dirname]. *)
Fixpoint rstrip_slash_rev (r : list ascii) : list ascii :=
  match r with
  | "/"%char :: r' => rstrip_slash_rev r'
  | _ => r
  end.

Definition rstrip_slash (s : string) : string :=
  string_of_list_ascii (rev (rstrip_slash_rev (rev (list_ascii_of_string s)))).

Definition dirname (path : string) : string :=
  let head := String.concat "" (map (fun p => p ++ "/") (removelast (str_split "/" path))) in
  match rstrip_slash head with
  | EmptyString => head
  | stripped => stripped
  end.

(** A work notification, the body of the queue message. *)
Record message := {
  source_bucket : value;
  source_key : string;
  timestamp : string
}.

(** The calls that leave the process (or touch its disk). *)
Inductive op :=
| Makedirs (path : string)
| ToParquet (recipes : list value) (path : string)
| UploadFile (path : string) (bucket : value) (key : string)
| Remove (path : string)
| SendMessage (queue_url : value) (body : message)
| GetObject (bucket key : string).

(** What the run cannot decide: the clock, the identifiers [uuid4] hands
    out, the raw objects in the source bucket ([None]: no such key,
    [Some None]: a body that is not JSON, [Some (Some l)]: a JSON array),
    the calls that fail, and the status of a queue acknowledgment. *)
Record oracle := {
  strftime_now : string;
  isoformat_now : string;
  uuid4 : nat -> string;
  raw_object : string -> string -> option (option (list value));
  raises : op -> option exn;
  http_status : message -> Z
}.

Record world := {
  env : oracle;
  next_uuid : nat;
  local_dirs : gset string;
  local_files : gmap string (list value);
  s3_objects : gmap (string * string) (list value);
  queue : list message;
  stdout : list string
}.

Definition M := Eff.M world.

Definition set_next_uuid (n : nat) (w : world) : world :=
  {| env := env w; next_uuid := n; local_dirs := local_dirs w;
     local_files := local_files w; s3_objects := s3_objects w;
     queue := queue w; stdout := stdout w |}.

Definition set_local_dirs (d : gset string) (w : world) : world :=
  {| env := env w; next_uuid := next_uuid w; local_dirs := d;
     local_files := local_files w; s3_objects := s3_objects w;
     queue := queue w; stdout := stdout w |}.

Definition set_local_files (f : gmap string (list value)) (w : world) : world :=
  {| env := env w; next_uuid := next_uuid w; local_dirs := local_dirs w;
     local_files := f; s3_objects := s3_objects w;
     queue := queue w; stdout := stdout w |}.

Definition set_s3_objects (o : gmap (string * string) (list value)) (w : world) : world :=
  {| env := env w; next_uuid := next_uuid w; local_dirs := local_dirs w;
     local_files := local_files w; s3_objects := o;
     queue := queue w; stdout := stdout w |}.

Definition set_queue (q : list message) (w : world) : world :=
  {| env := env w; next_uuid := next_uuid w; local_dirs := local_dirs w;
     local_files := local_files w; s3_objects := s3_objects w;
     queue := q; stdout := stdout w |}.

Definition set_stdout (o : list string) (w : world) : world :=
  {| env := env w; next_uuid := next_uuid w; local_dirs := local_dirs w;
     local_files := local_files w; s3_objects := s3_objects w;
     queue := queue w; stdout := o |}.

Definition print (line : string) : M unit :=
  fun w => (Ok tt, set_stdout (stdout w ++ [line])%list w).

Definition external (o : op) : M unit :=
  fun w => match raises (env w) o with
           | Some e => (Raise e, w)
           | None => (Ok tt, w)
           end.

(** [os.makedirs(path, exist_ok=True)]. *)
Definition os_makedirs (path : string) : M unit :=
  external (Makedirs path) ;;;
  match path with
  | EmptyString => Eff.throw (Exn FileNotFoundError "No such file or directory: ''")
  | _ => fun w => (Ok tt, set_local_dirs ({[path]} ∪ local_dirs w) w)
  end.

(** [pd.DataFrame(recipes).to_parquet(path)]: the scratch file holds the
    records; its directory must exist. *)
Definition to_parquet (recipes : list value) (path : string) : M unit :=
  external (ToParquet recipes path) ;;;
  fun w =>
    if decide (dirname path ∈ local_dirs w)
    then (Ok tt, set_local_files (<[path := recipes]> (local_files w)) w)
    else (Raise (Exn OSError "Cannot save file into a non-existent directory"), w).

(** [s3.upload_file(path, bucket, key)]. *)
Definition s3_upload_file (path : string) (bucket : value) (key : string) : M unit :=
  external (UploadFile path bucket key) ;;;
  fun w =>
    match local_files w !! path, bucket with
    | Some content, VStr b =>
        (Ok tt, set_s3_objects (<[(b, key) := content]> (s3_objects w)) w)
    | None, _ => (Raise (Exn FileNotFoundError path), w)
    | _, _ => (Raise (Exn TypeError "Invalid bucket name"), w)
    end.

(** [os.remove(path)]. *)
Definition os_remove (path : string) : M unit :=
  external (Remove path) ;;;
  fun w =>
    match local_files w !! path with
    | Some _ => (Ok tt, set_local_files (delete path (local_files w)) w)
    | None => (Raise (Exn FileNotFoundError path), w)
    end.

(** [sqs.send_message]: the message is on the queue once the call
    returns; the response carries the HTTP status. *)
Definition sqs_send_message (queue_url : value) (body : message) : M Z :=
  external (SendMessage queue_url body) ;;;
  fun w => (Ok (http_status (env w) body), set_queue (queue w ++ [body])%list w).

Section Handler.

Variable environ : gmap string string.

Definition TEMP_BUCKET : value :=
  os_environ_get environ "TEMP_BUCKET" (VStr "temp-recipes-bucket").
Definition FAILED_BUCKET : value :=
  os_environ_get environ "FAILED_BUCKET" (VStr "failed-recipes-bucket").
Definition QUEUE_URL : value :=
  os_environ_get environ "PROCESSING_QUEUE_URL" (VStr "recipe-processing-queue").
Definition BATCH_SIZE : value := os_environ_get environ "BATCH_SIZE" (VInt 100).
Definition MAX_WORKERS : value := os_environ_get environ "MAX_WORKERS" (VInt 10).

Definition create_s3_bucket_key : M string :=
  fun w =>
    let date_path := strftime_now (env w) in
    let file_name := uuid4 (env w) (next_uuid w) ++ ".parquet" in
    (Ok (date_path ++ "/" ++ file_name), set_next_uuid (S (next_uuid w)) w).

Definition create_temp_file (recipes : list value) (bucket_name : value) : M string :=
  temp_key <~ create_s3_bucket_key ;;
  print ("Creating temp file for " ++ py_str bucket_name ++ " at " ++ temp_key) ;;;
  os_makedirs (dirname temp_key) ;;;
  to_parquet recipes temp_key ;;;
  s3_upload_file temp_key bucket_name temp_key ;;;
  os_remove temp_key ;;;
  Eff.ret temp_key.

Definition send_message_to_queue (temp_key : string) : M Z :=
  fun w =>
    sqs_send_message QUEUE_URL
      {| source_bucket := TEMP_BUCKET; source_key := temp_key;
         timestamp := isoformat_now (env w) |} w.

Definition is_empty (s : string) : bool :=
  match s with EmptyString => true | _ => false end.

(** The body of the [try] block. *)
Definition extract_body (recipes : list value) : M (option string) :=
  split <~ Eff.lift (split_recipes recipes [] []) ;;
  let valid_recipes := fst split in
  let invalid_recipes := snd split in
  temp_key <~ create_temp_file valid_recipes TEMP_BUCKET ;;
  Eff.when (negb (Nat.eqb (List.length invalid_recipes) 0))
    (failed_key <~ create_temp_file invalid_recipes FAILED_BUCKET ;;
     Eff.when (negb (is_empty failed_key))
       (print ("Failed recipes saved to " ++ failed_key))) ;;;
  status <~ send_message_to_queue temp_key ;;
  Eff.when (negb (status =? 200))
    (print ("Error sending message to queue for " ++ temp_key ++ ": " ++ pretty status)) ;;;
  Eff.ret (Some temp_key).

(** Returns the key of the primary artifact, or [None]. *)
Definition extract_recipe_data (recipes : list value) : M (option string) :=
  Eff.try_except (extract_body recipes)
    (fun e => print ("Error extracting recipe data: " ++ str_exn e) ;;; Eff.ret None).

(** [ThreadPoolExecutor(max_workers=...)]: [None] asks for the default
    size; anything else is compared with [max_workers <= 0] before a
    thread is started. *)
Definition ThreadPoolExecutor (max_workers : value) : result unit :=
  let too_small := Raise (Exn ValueError "max_workers must be greater than 0") in
  match max_workers with
  | VNone => Ok tt
  | VInt n => if n <=? 0 then too_small else Ok tt
  | VBool b => if b then Ok tt else too_small
  | VFloat f => if SFleb f (S754_zero false) then too_small else Ok tt
  | v => Raise (Exn TypeError
           ("'<=' not supported between instances of '" ++ type_name v ++ "' and 'int'"))
  end.

(** [executor.map] hands back one result per batch, in the order of the
    batches. The batches are run here one after the other; the pool runs
    them on up to [MAX_WORKERS] threads, so that across batches the order
    of the identifiers drawn, the lines printed and the messages published
    is not the one of this run. *)
Definition threaded_extraction (batches : list (list value)) : M (list (option string)) :=
  Eff.lift (ThreadPoolExecutor MAX_WORKERS) ;;;
  Eff.map_each extract_recipe_data batches.

Definition is_None {A} (r : option A) : bool :=
  match r with None => true | Some _ => false end.

Definition summary (n_recipes n_batches n_failed : nat) : string :=
  "A total of " ++ pretty n_recipes ++ " recipes were extracted in " ++ pretty n_batches
  ++ " batches with " ++ pretty n_failed ++ " failed batches".

Definition s3_get_object (bucket key : string) : M (option (list value)) :=
  external (GetObject bucket key) ;;;
  fun w => match raw_object (env w) bucket key with
           | Some body => (Ok body, w)
           | None => (Raise (Exn ClientError "NoSuchKey"), w)
           end.

Definition json_load (body : option (list value)) : result (list value) :=
  match body with
  | Some recipes => Ok recipes
  | None => Raise (Exn JSONDecodeError "Expecting value")
  end.

Definition handle_record (record : string * string) : M unit :=
  let bucket := fst record in
  let key := snd record in
  raw_data <~ s3_get_object bucket key ;;
  recipes <~ Eff.lift (json_load raw_data) ;;
  batches <~ Eff.lift (make_batches BATCH_SIZE recipes) ;;
  results <~ threaded_extraction batches ;;
  let none_results := filter (fun r => is_None r) results in
  Eff.when (negb (Nat.eqb (List.length results) 0))
    (print (summary (List.length recipes) (List.length results) (List.length none_results))).

(** Returns the status code of the response. *)
Definition lambda_handler (event : list (string * string)) : M Z :=
  Eff.for_each handle_record event ;;;
  Eff.ret 200.

End Handler.

End Extraction.

(** ** Subscripts and [get] on parsed JSON *)

Module Subscript.
Import Py.

(** [container[key]] for a str key: a dict gives the value or raises
    [KeyError] (whose text is the key in quotes); nothing else can be
    subscripted by a str. *)
Definition py_getitem (container : value) (key : string) : result value :=
  match container with
  | VDict items =>
      match Pandas.dict_get key items with
      | Some v => Ok v
      | None => Raise (Exn KeyError ("'" ++ key ++ "'"))
      end
  | VList _ => Raise (Exn TypeError "list indices must be integers or slices, not str")
  | VStr _ => Raise (Exn TypeError "string indices must be integers, not 'str'")
  | v => Raise (Exn TypeError ("'" ++ type_name v ++ "' object is not subscriptable"))
  end.

(** [v == s] for a str [s]. *)
Definition py_eq_str (v : value) (s : string) : bool :=
  match v with
  | VStr t => String.eqb t s
  | _ => false
  end.

(** [v in [s1, ..., sn]] for strs. *)
Definition py_in_strs (v : value) (l : list string) : bool := existsb (py_eq_str v) l.

End Subscript.

(** ** [notification_handler.py]: the custom resource that sets bucket
    notifications *)

Module Notification.
Import Py Subscript.

(** [cfnresponse.SUCCESS] and [cfnresponse.FAILED]. *)
Inductive status := SUCCESS | FAILED.

(** The calls that leave the process. *)
Inductive op :=
| PutBucketNotificationConfiguration (Bucket : value) (NotificationConfiguration : value)
| Send (responseStatus : status) (responseData : value).

(** What the run cannot decide: the calls that fail, given the calls that
    have returned so far. *)
Record oracle := { raises : list op -> op -> option exn }.

(** The calls that have returned, in order, and the lines printed. *)
Record world := {
  env : oracle;
  calls : list op;
  stdout : list string
}.

Definition M := Eff.M world.

Definition print (line : string) : M unit :=
  fun w => (Ok tt, {| env := env w; calls := calls w;
                      stdout := (stdout w ++ [line])%list |}).

Definition external (o : op) : M unit :=
  fun w => match raises (env w) (calls w) o with
           | Some e => (Raise e, w)
           | None => (Ok tt, {| env := env w; calls := (calls w ++ [o])%list;
                                stdout := stdout w |})
           end.

Section Handler.

(** The text [json.dumps] gives; the handler only prints it. *)
Variable json_dumps : value -> string.

(** The body of the [if] / [elif]. *)
Definition configure (event : value) : M unit :=
  request_type <~ Eff.lift (py_getitem event "RequestType") ;;
  if py_eq_str request_type "Delete" then
    properties <~ Eff.lift (py_getitem event "ResourceProperties") ;;
    bucket_name <~ Eff.lift (py_getitem properties "BucketName") ;;
    external (PutBucketNotificationConfiguration bucket_name (VDict [])) ;;;
    print ("Removed notification configuration from bucket " ++ py_str bucket_name)
  else
    request_type <~ Eff.lift (py_getitem event "RequestType") ;;
    if py_in_strs request_type ["Create"; "Update"] then
      properties <~ Eff.lift (py_getitem event "ResourceProperties") ;;
      bucket_name <~ Eff.lift (py_getitem properties "BucketName") ;;
      properties <~ Eff.lift (py_getitem event "ResourceProperties") ;;
      notification_config <~ Eff.lift (py_getitem properties "NotificationConfiguration") ;;
      external (PutBucketNotificationConfiguration bucket_name notification_config) ;;;
      print ("Set notification configuration for bucket " ++ py_str bucket_name)
    else Eff.ret tt.

Definition lambda_handler (event : value) : M unit :=
  print ("Received event: " ++ json_dumps event) ;;;
  let response_data := VDict [] in
  Eff.try_except
    (configure event ;;;
     external (Send SUCCESS response_data))
    (fun e =>
       print ("Error: " ++ str_exn e) ;;;
       external (Send FAILED (VDict [("Error", VStr (str_exn e))]))).

End Handler.

End Notification.

(** ** [data_loader.py]: loading processed records into PostgreSQL *)

Module Loader.
Import Py Subscript.

Inductive level := INFO | ERROR.

(** A connection, named by the number of connections opened before it. *)
Definition connection := nat.

(** The three statements the loader sends, by what they are: the schema
    and the table are spliced into their text. *)
Inductive statement :=
| CREATE_SCHEMA_IF_NOT_EXISTS (schema : value)
| CREATE_TABLE_IF_NOT_EXISTS (schema table : value)
| INSERT_ON_CONFLICT_UPDATE (schema table : value).

(** The calls that leave the process. *)
Inductive op :=
| GetObject (Bucket Key : value)
| Connect (host port dbname user password : value)
| Cursor (conn : connection)
| Execute (conn : connection) (query : statement)
| ExecuteValues (conn : connection) (query : statement) (argslist : list (list value))
| Commit (conn : connection)
| Rollback (conn : connection)
| Close (conn : connection).

(** What the run cannot decide: the calls that fail, given the calls that
    have returned so far, and what reading an object, decoding it and
    parsing it as JSON gives (a value, or the exception of the step that
    fails). *)
Record oracle := {
  raises : list op -> op -> option exn;
  json_loads : value -> value -> result value
}.

(** The calls that have returned, in order, and the log. *)
Record world := {
  env : oracle;
  calls : list op;
  log : list (level * string)
}.

Definition M := Eff.M world.

Definition logger (lvl : level) (message : string) : M unit :=
  fun w => (Ok tt, {| env := env w; calls := calls w;
                      log := (log w ++ [(lvl, message)])%list |}).

Definition external (o : op) : M unit :=
  fun w => match raises (env w) (calls w) o with
           | Some e => (Raise e, w)
           | None => (Ok tt, {| env := env w; calls := (calls w ++ [o])%list;
                                log := log w |})
           end.

Definition is_Connect (o : op) : bool :=
  match o with Connect _ _ _ _ _ => true | _ => false end.

(** [psycopg2.connect(...)]: the new connection. *)
Definition connect (host port dbname user password : value) : M connection :=
  fun w =>
    let conn := List.length (List.filter is_Connect (calls w)) in
    match external (Connect host port dbname user password) w with
    | (Ok _, w') => (Ok conn, w')
    | (Raise e, w') => (Raise e, w')
    end.

Section Handler.

Variable environ : gmap string string.

(** The text [json.dumps] gives. *)
Variable json_dumps : value -> string.

(** The class [AttributeError]. The loader never looks at the class of
    an exception. *)
Variable AttributeError : exn_class.

(** [recipe.get(key, default)]: only a dict has [get]. *)
Definition py_get (recipe : value) (key : string) (default : value) : result value :=
  match recipe with
  | VDict items =>
      Ok (match Pandas.dict_get key items with
          | Some v => v
          | None => default
          end)
  | v => Raise (Exn AttributeError ("'" ++ type_name v ++ "' object has no attribute 'get'"))
  end.

Definition get_connection : M connection :=
  Eff.try_except
    (connect (os_environ_get environ "RDS_HOST" (VStr "localhost"))
       (os_environ_get environ "RDS_PORT" (VInt 5432))
       (os_environ_get environ "RDS_DB_NAME" (VStr "postgres"))
       (os_environ_get environ "RDS_USERNAME" (VStr "postgres"))
       (os_environ_get environ "RDS_PASSWORD" (VStr "postgres")))
    (fun e =>
       logger ERROR ("Error connecting to PostgreSQL: " ++ str_exn e) ;;;
       Eff.throw e).

Definition RDS_SCHEMA : value := os_environ_get environ "RDS_SCHEMA" (VStr "public").
Definition RDS_TABLE : value := os_environ_get environ "RDS_TABLE" (VStr "recipes").

Definition create_table_if_not_exists (conn : connection) : M unit :=
  let schema := RDS_SCHEMA in
  let table := RDS_TABLE in
  Eff.try_except
    (external (Cursor conn) ;;;
     external (Execute conn (CREATE_SCHEMA_IF_NOT_EXISTS schema)) ;;;
     external (Execute conn (CREATE_TABLE_IF_NOT_EXISTS schema table)) ;;;
     external (Commit conn) ;;;
     logger INFO ("Table " ++ py_str schema ++ "." ++ py_str table ++ " is ready"))
    (fun e =>
       logger ERROR ("Error creating table: " ++ str_exn e) ;;;
       external (Rollback conn) ;;;
       Eff.throw e).

(** The tuple appended for one recipe. *)
Definition row_values (recipe : value) : result (list value) :=
  bind (py_get recipe "recipe_id" VNone) (fun recipe_id =>
  bind (py_get recipe "name" VNone) (fun name =>
  bind (py_get recipe "description" VNone) (fun description =>
  bind (py_get recipe "difficulty" VNone) (fun difficulty =>
  bind (py_get recipe "prep_time" VNone) (fun prep_time =>
  bind (py_get recipe "cook_time" VNone) (fun cook_time =>
  bind (py_get recipe "servings" VNone) (fun servings =>
  bind (py_get recipe "ingredients" (VList [])) (fun ingredients =>
  bind (py_get recipe "instructions" (VList [])) (fun instructions =>
  bind (py_get recipe "tags" (VList [])) (fun tags =>
  bind (py_get recipe "nutrition_info" (VDict [])) (fun nutrition_info =>
  Ok [recipe_id; name; description; difficulty; prep_time; cook_time; servings;
      VStr (json_dumps ingredients); VStr (json_dumps instructions);
      VStr (json_dumps tags); VStr (json_dumps nutrition_info);
      VStr "CURRENT_TIMESTAMP"]))))))))))).

(** The loop that prepares the values. *)
Definition prepare_values (data : value) : result (list (list value)) :=
  bind (py_iter data) (fun recipes => mapM row_values recipes).

Definition load_data_to_postgres (conn : connection) (data schema table : value) : M unit :=
  Eff.try_except
    (external (Cursor conn) ;;;
     let insert_query := INSERT_ON_CONFLICT_UPDATE schema table in
     values <~ Eff.lift (prepare_values data) ;;
     external (ExecuteValues conn insert_query values) ;;;
     external (Commit conn) ;;;
     logger INFO ("Successfully loaded " ++ pretty (List.length values)
                  ++ " recipes to PostgreSQL"))
    (fun e =>
       logger ERROR ("Error loading data to PostgreSQL: " ++ str_exn e) ;;;
       external (Rollback conn) ;;;
       Eff.throw e).

(** [s3_client.get_object], [read], [decode] and [json.loads]. *)
Definition read_json (bucket key : value) : M value :=
  external (GetObject bucket key) ;;;
  fun w => (json_loads (env w) bucket key, w).

Definition handle_record (record : value) : M unit :=
  s3 <~ Eff.lift (py_getitem record "s3") ;;
  bucket <~ Eff.lift (bind (py_getitem s3 "bucket") (fun b => py_getitem b "name")) ;;
  s3 <~ Eff.lift (py_getitem record "s3") ;;
  key <~ Eff.lift (bind (py_getitem s3 "object") (fun o => py_getitem o "key")) ;;
  logger INFO ("Processing file " ++ py_str key ++ " from bucket " ++ py_str bucket) ;;;
  data <~ read_json bucket key ;;
  conn <~ get_connection ;;
  let schema := RDS_SCHEMA in
  let table := RDS_TABLE in
  create_table_if_not_exists conn ;;;
  load_data_to_postgres conn data schema table ;;;
  external (Close conn) ;;;
  logger INFO ("Successfully processed file " ++ py_str key).

(** The response: its status code and its body. *)
Definition lambda_handler (event : value) : M (Z * string) :=
  Eff.try_except
    (logger INFO ("Processing event: " ++ json_dumps event) ;;;
     records <~ Eff.lift (bind (py_getitem event "Records") py_iter) ;;
     Eff.for_each handle_record records ;;;
     Eff.ret (200, json_dumps (VStr "Data loaded successfully to PostgreSQL")))
    (fun e =>
       logger ERROR ("Error in lambda_handler: " ++ str_exn e) ;;;
       Eff.ret (500, json_dumps (VStr ("Error loading data: " ++ str_exn e)))).

End Handler.

End Loader.

(** * Part II. Vocabulary of the statements, and sample data *)

Import Py.

(** The batches of size [b]: [m] slices taken one after the other. *)
Definition chunks {A} (b m : nat) (l : list A) : list (list A) :=
  map (fun k => take b (drop (k * b) l)) (seq 0 m).

(** An environment that sets the batch size. *)
Definition environ_with_batch_size : gmap string string := {["BATCH_SIZE" := "100"]}.

(** Every character of [s] is in class [c]. *)
Fixpoint all_in (c : Re.category) (s : string) : bool :=
  match s with
  | EmptyString => true
  | String a s' => Re.in_category c a && all_in c s'
  end.

(** The texts a pattern matches, with the groups it captures: the
    declarative reading of the pattern, without the order of preference. *)
Inductive matches : Re.pattern -> string -> list string -> Prop :=
| matches_In c a :
    Re.in_category c a = true -> matches (Re.In c) (String a "") []
| matches_MaxRepeat min c t :
    all_in c t = true -> (min <= String.length t)%nat ->
    matches (Re.MaxRepeat min c) t []
| matches_Seq p q t1 t2 g1 g2 :
    matches p t1 g1 -> matches q t2 g2 ->
    matches (Re.Seq p q) (t1 ++ t2) (g1 ++ g2)%list
| matches_Subpattern p t g :
    matches p t g -> matches (Re.Subpattern p) t (g ++ [t])%list.

(** The longest prefix of [s] in class [c], and what follows it. *)
Fixpoint span (c : Re.category) (s : string) : string * string :=
  match s with
  | EmptyString => ("", "")
  | String a s' =>
      if Re.in_category c a
      then (String a (fst (span c s')), snd (span c s'))
      else ("", s)
  end.

(** A text without its last character, and that character. *)
Fixpoint split_last (s : string) : option (string * ascii) :=
  match s with
  | EmptyString => None
  | String a EmptyString => Some ("", a)
  | String a s' =>
      match split_last s' with
      | Some (t, z) => Some (String a t, z)
      | None => None
      end
  end.

(** The occurrence the scan reports at the start of [s], and the text
    left after it: the longest run of digits, the longest run of white
    space after it and the longest run of word characters after that.
    When no word character follows, a number of two or more digits gives
    its last digit up, and that digit is the word. *)
Definition mention_at (s : string) : option (string * string * string) :=
  let number := fst (span Re.CATEGORY_DIGIT s) in
  let after_number := snd (span Re.CATEGORY_DIGIT s) in
  let after_space := snd (span Re.CATEGORY_SPACE after_number) in
  let word := fst (span Re.CATEGORY_WORD after_space) in
  let rest := snd (span Re.CATEGORY_WORD after_space) in
  match number, word with
  | EmptyString, _ => None
  | _, String _ _ => Some (number, word, rest)
  | _, EmptyString =>
      match split_last number with
      | Some (String a shorter, digit) =>
          Some (String a shorter, String digit "", after_number)
      | _ => None
      end
  end.

(** The occurrences the scan reports in [s], left to right: where one
    starts it is reported and the scan goes on after it, so that no
    reported occurrence overlaps another; elsewhere the scan moves one
    character on. *)
Inductive scanned : string -> list (list string) -> Prop :=
| scanned_end : scanned "" []
| scanned_next a s ms :
    mention_at (String a s) = None -> scanned s ms -> scanned (String a s) ms
| scanned_mention s number word rest ms :
    mention_at s = Some (number, word, rest) -> scanned rest ms ->
    scanned s ([number; word] :: ms).

(** The spec's table of units. *)
Definition unit_seconds (word : string) : option Z :=
  if bool_decide (word = "hour" \/ word = "hours") then Some 3600
  else if bool_decide (word = "minute" \/ word = "minutes") then Some 60
  else if bool_decide (word = "second" \/ word = "seconds") then Some 1
  else None.

(** The number a run of decimal digits denotes. *)
Fixpoint decimal_from (acc : Z) (digits : string) : Z :=
  match digits with
  | EmptyString => acc
  | String a rest => decimal_from (10 * acc + (Re.code a - 48)) rest
  end.

Definition decimal (digits : string) : Z := decimal_from 0 digits.

(** What one occurrence contributes, when its word is a known unit. *)
Definition mention_seconds (m : list string) : option Z :=
  match m with
  | [number; word] => (fun seconds => decimal number * seconds) <$> unit_seconds word
  | _ => None
  end.

Definition sum_Z (l : list Z) : Z := fold_right Z.add 0 l.

(** What one direction contributes, in the spec's words: the sum over its
    recognized mentions, or 300 when it has none. *)
Definition direction_seconds (direction : string) : Z :=
  match omap mention_seconds (Re.findall Transformation.time_pattern direction) with
  | [] => 300
  | recognized => sum_Z recognized
  end.

(** [int] converts the number of the occurrence: the occurrence has a
    word that is no unit, or a number of at most 4300 digits. *)
Definition fits_mention (m : list string) : bool :=
  match m with
  | [number; word] =>
      match unit_seconds word with
      | Some _ => (String.length number <=? 4300)%nat
      | None => true
      end
  | _ => true
  end.

Definition fits (direction : string) : bool :=
  forallb fits_mention (Re.findall Transformation.time_pattern direction).

(** The number written with [n] digits 1. *)
Fixpoint ones (n : nat) : string :=
  match n with
  | O => ""
  | S k => String "1" (ones k)
  end.

Fixpoint has_digit (s : string) : bool :=
  match s with
  | EmptyString => false
  | String a s' => Re.is_digit a || has_digit s'
  end.

(** A tuple of two groups whose first is a run of digits. *)
Definition well_formed (m : list string) : Prop :=
  exists number word,
    m = [number; word] /\ number <> "" /\ all_in Re.CATEGORY_DIGIT number = true.

Definition is_nil {A} (l : list A) : bool :=
  match l with [] => true | _ => false end.

(** [s] is empty or starts with a character outside class [c]. *)
Definition starts_outside (c : Re.category) (s : string) : bool :=
  match s with
  | EmptyString => true
  | String a _ => negb (Re.in_category c a)
  end.

(** The value of the double [f] is below the integer [n]. *)
Definition below (f : Float.float) (n : Z) : Prop :=
  match Float.exact f with
  | Some (num, den) => num < n * den
  | None => False
  end.

(** A finite double in the form every binary64 operation returns. *)
Definition is_finite_double (f : Float.float) : Prop :=
  valid_binary 53 1024 f = true /\ Float.exact f <> None.

(** The double the code computes for [d] directions and [i] ingredients. *)
Definition double_score (d i : Z) : Float.float :=
  Float.add (Float.mul (Float.of_int d) Float.lit_0_6)
            (Float.mul (Float.of_int i) Float.lit_0_4).

(** [f] is exactly the number [tenths / 10]. *)
Definition is_tenths (f : Float.float) (tenths : Z) : Prop :=
  exists num den, Float.exact f = Some (num, den) /\ 10 * num = tenths * den.

(** The flag of the exact score [0.6 d + 0.4 i], given in tenths. *)
Definition exact_flag (tenths : Z) : string :=
  if tenths <? 40 then "easy" else if tenths <? 80 then "medium" else "hard".

(** A record with one ingredient and six directions. *)
Definition one_ingredient : value := VList [VStr "1 egg"].

Definition six_directions : value :=
  VList [VStr "Crack"; VStr "Whisk"; VStr "Heat"; VStr "Pour"; VStr "Fold"; VStr "Serve"].

(** The check behind the bounded part of the theorem: the double is
    finite and within 2^-46 of the exact score, and the two flags agree
    unless the pair is (6, 1) or (12, 2). *)
Definition close_and_agrees (d i : Z) : bool :=
  let score := double_score d i in
  let tenths := 6 * d + 4 * i in
  valid_binary 53 1024 score
  && match Float.exact score with
     | Some (num, den) =>
         (0 <? den) && (2 ^ 46 * Z.abs (10 * num - tenths * den) <=? 10 * den)
     | None => false
     end
  && (String.eqb (Transformation.get_difficulty_flag score) (exact_flag tenths)
      || ((d =? 6) && (i =? 1)) || ((d =? 12) && (i =? 2))).

Section ExtractionVocabulary.
Import Extraction.

(** The key [create_s3_bucket_key] generates in world [w]. *)
Definition next_key (w : world) : string :=
  strftime_now (env w) ++ "/" ++ uuid4 (env w) (next_uuid w) ++ ".parquet".

(** A computation that leaves the queue as it found it. *)
Definition keeps_queue {A} (m : M A) : Prop :=
  forall w r w', m w = (r, w') -> queue w' = queue w.

(** A sample world: uploads to the quarantine bucket are refused, nothing
    else fails. *)
Definition sample_oracle : oracle :=
  {| strftime_now := "2025/02/17";
     isoformat_now := "2025-02-17T12:00:00";
     uuid4 := fun n => "uuid-" ++ pretty n;
     raw_object := fun _ _ => None;
     raises := fun o =>
       match o with
       | UploadFile _ (VStr "failed-recipes-bucket") _ =>
           Some (Exn ClientError "AccessDenied")
       | _ => None
       end;
     http_status := fun _ => 200 |}.

Definition sample_world : world :=
  {| env := sample_oracle; next_uuid := 0; local_dirs := ∅; local_files := ∅;
     s3_objects := ∅; queue := []; stdout := [] |}.

(** A valid record and an invalid one. *)
Definition omelette : value :=
  VDict [("title", VStr "Omelette");
         ("ingredients", VList [VStr "2 eggs"; VStr "butter"]);
         ("directions", VList [VStr "Whisk the eggs"; VStr "Fry for 2 minutes"])].

Definition untitled : value := VDict [("ingredients", VList [VStr "water"])].

End ExtractionVocabulary.

Section TransformationVocabulary.
Import Transformation.

(** Sample rows, with or without a [tags] cell. *)
Definition recipe_row (title : string) (directions : list string) (tags : option value)
    : Pandas.row :=
  ([("title", VStr title);
    ("ingredients", VList [VStr "2 eggs"; VStr "butter"]);
    ("directions", VList (map VStr directions))]
   ++ match tags with Some t => [("tags", t)] | None => [] end)%list.

(** A sample world for the transformation: nothing fails. *)
Definition sample_transformation_oracle : oracle :=
  {| uuid4 := fun n => "id-" ++ pretty n; raises := fun _ => None |}.

(** A world whose temporary bucket holds one artifact made of [records]. *)
Definition world_with (records : list Pandas.row) : world :=
  {| env := sample_transformation_oracle; next_uuid := 0;
     s3_objects :=
       {[ ("temp-recipes-bucket", "2025/02/17/7c9e.parquet") := Pandas.of_records records ]};
     stdout := [] |}.

Definition sample_notification : notification :=
  {| source_bucket := "temp-recipes-bucket";
     source_key := "2025/02/17/7c9e.parquet";
     timestamp := "2024-01-01T00:00:00Z" |}.

Definition tagged_omelette : Pandas.row :=
  recipe_row "Omelette" ["Whisk the eggs"; "Fry for 2 minutes"] (Some (VList [VStr "quick"])).

(** A computation that writes nothing to S3. *)
Definition keeps_s3 {A} (m : M A) : Prop :=
  forall w r w', m w = (r, w') -> s3_objects w' = s3_objects w.

Definition untagged_omelette : Pandas.row :=
  recipe_row "Omelette" ["Whisk the eggs"; "Fry for 2 minutes"] None.

End TransformationVocabulary.

Section ExtractionRunsVocabulary.
Import Extraction.

(** The records [in] can test: a str, a list or a dict. On [None], a bool
    or a number the membership test raises. *)
Definition is_container (v : value) : bool :=
  match v with
  | VStr _ | VList _ | VDict _ => true
  | _ => false
  end.

(** The validator's verdict, where it gives one. *)
Definition is_valid (recipe : value) : bool :=
  match validate_raw_data recipe with
  | Ok b => b
  | Raise _ => false
  end.

(** What [in] raises on a record that is not a container. *)
Definition not_iterable (v : value) : exn :=
  Exn TypeError ("argument of type '" ++ type_name v ++ "' is not iterable").

(** The line a failed batch prints. *)
Definition batch_error_line (e : exn) : string :=
  "Error extracting recipe data: " ++ str_exn e.

(** [c in s] for a character [c]. *)
Fixpoint has_char (c : ascii) (s : string) : bool :=
  match s with
  | EmptyString => false
  | String a s' => Ascii.eqb a c || has_char c s'
  end.

(** The key generated with the [n]-th identifier. *)
Definition key_at (w : world) (n : nat) : string :=
  strftime_now (env w) ++ "/" ++ uuid4 (env w) n ++ ".parquet".

(** No call fails in this run. *)
Definition quiet (w : world) : Prop := forall o, raises (env w) o = None.

(** The line [create_temp_file] prints. *)
Definition creating_line (bucket_name : value) (temp_key : string) : string :=
  "Creating temp file for " ++ py_str bucket_name ++ " at " ++ temp_key.

(** Every run of [m] takes a world to one that [R] relates to it. *)
Definition steps {W A} (R : W -> W -> Prop) (m : Eff.M W A) : Prop :=
  forall w r w', m w = (r, w') -> R w w'.

(** The oracle is the same and no identifier is handed out twice. *)
Definition same_run (w w' : world) : Prop :=
  env w' = env w /\ (next_uuid w <= next_uuid w')%nat.

(** The notification a batch publishes for its primary artifact. *)
Definition notification_for (environ : gmap string string) (w : world) (key : string)
    : message :=
  {| source_bucket := TEMP_BUCKET environ; source_key := key;
     timestamp := isoformat_now (env w) |}.

(** The keys of the batches that succeeded. *)
Definition keys_of (results : list (option string)) : list string := omap id results.

(** The quarantine step of a batch. *)
Definition quarantine (environ : gmap string string) (invalid_recipes : list value)
    : M unit :=
  Eff.when (negb (Nat.eqb (List.length invalid_recipes) 0))
    (failed_key <~ create_temp_file invalid_recipes (FAILED_BUCKET environ) ;;
     Eff.when (negb (is_empty failed_key))
       (print ("Failed recipes saved to " ++ failed_key))).

(** The names of the two buckets. *)
Definition temp_bucket (environ : gmap string string) : string :=
  py_str (TEMP_BUCKET environ).

Definition failed_bucket (environ : gmap string string) : string :=
  py_str (FAILED_BUCKET environ).

(** The lines a batch prints besides those of the artifact writer. *)
Definition saved_line (failed_key : string) : string :=
  "Failed recipes saved to " ++ failed_key.

Definition status_line (temp_key : string) (status : Z) : string :=
  "Error sending message to queue for " ++ temp_key ++ ": " ++ pretty status.

(** A sample world in which no call fails and the queue answers with
    status [status]. *)
Definition quiet_oracle (status : Z) : oracle :=
  {| strftime_now := "2025/02/17";
     isoformat_now := "2025-02-17T12:00:00";
     uuid4 := fun n => "uuid-" ++ pretty n;
     raw_object := fun bucket key =>
       if String.eqb key "empty.json" then Some (Some [])
       else if String.eqb key "recipes.json" then Some (Some [omelette; untitled; omelette])
       else if String.eqb key "broken.json" then Some None
       else None;
     raises := fun _ => None;
     http_status := fun _ => status |}.

Definition quiet_world (status : Z) : world :=
  {| env := quiet_oracle status; next_uuid := 0; local_dirs := ∅; local_files := ∅;
     s3_objects := ∅; queue := []; stdout := [] |}.

(** Reading the raw object of a record and parsing it. *)
Definition read_recipes (bucket key : string) : M (list value) :=
  raw_data <~ s3_get_object bucket key ;;
  Eff.lift (json_load raw_data).

(** Every object the event names can be read and holds a JSON array. *)
Definition readable (w : world) (event : list (string * string)) : Prop :=
  forall bucket key, (bucket, key) ∈ event ->
    raises (env w) (GetObject bucket key) = None
    /\ exists recipes, raw_object (env w) bucket key = Some (Some recipes).

(** Neither the batch size nor the worker count is set. *)
Definition defaults (environ : gmap string string) : Prop :=
  environ !! "BATCH_SIZE" = None /\ environ !! "MAX_WORKERS" = None.




End ExtractionRunsVocabulary.

Section TransformationRunsVocabulary.
Import Transformation.

(** The estimate of a list of strs, as a number. *)
Definition estimate (directions : list string) : Z :=
  sum_Z (map direction_seconds directions).

(** The cell of a record under a label, as the frame shows it: NaN when
    the record has no such field. *)
Definition cell (label : string) (r : Pandas.row) : value :=
  default Pandas.nan (Pandas.dict_get label r).

(** The row [transform_row] returns for a row whose score is [score],
    whose estimate is [seconds] and which gets the identifier [id]. *)
Definition with_features (row : Pandas.row) (score : Float.float) (seconds : Z)
    (id : string) : Pandas.row :=
  Pandas.row_set
    (Pandas.row_set
       (Pandas.row_set
          (Pandas.row_set row "complexity_score" (VFloat score))
          "difficulty_flag" (VStr (get_difficulty_flag score)))
       "time_estimate" (VInt seconds))
    "recipe_id" (VStr id).

(** The world after [n] identifiers have been handed out. *)
Definition after_ids (n : nat) (w : world) : world :=
  {| env := env w; next_uuid := n + next_uuid w;
     s3_objects := s3_objects w; stdout := stdout w |}.

(** The labels [transform_row] writes. *)
Definition derived_labels : list string :=
  ["complexity_score"; "difficulty_flag"; "time_estimate"; "recipe_id"].

(** No call of the coordinator fails in this run. *)
Definition never_fails (w : world) : Prop := forall o, raises (env w) o = None.

(** The name of the output bucket. *)
Definition processed_bucket (environ : gmap string string) : string :=
  py_str (PROCESSED_BUCKET environ).

(** A record whose ingredients and directions the feature functions
    accept. *)
Definition scorable (r : Pandas.row) : Prop :=
  raised (get_complexity_score (cell "ingredients" r) (cell "directions" r)) = false
  /\ raised (get_time_estimate (cell "directions" r)) = false.

(** The score and the estimate of a record. *)
Definition score_of (r : Pandas.row) : Float.float :=
  match get_complexity_score (cell "ingredients" r) (cell "directions" r) with
  | Ok score => score
  | Raise _ => S754_nan
  end.

Definition seconds_of (r : Pandas.row) : Z :=
  match get_time_estimate (cell "directions" r) with
  | Ok seconds => seconds
  | Raise _ => 0
  end.

(** The row stored for the record [r] that gets the identifier [id]. *)
Definition output_row (id : string) (r : Pandas.row) : Pandas.row :=
  [("title", cell "title" r);
   ("ingredients", cell "ingredients" r);
   ("directions", cell "directions" r);
   ("tags", cell "tags" r);
   ("complexity_score", VFloat (score_of r));
   ("difficulty_flag", VStr (get_difficulty_flag (score_of r)));
   ("time_estimate", VInt (seconds_of r));
   ("recipe_id", VStr id)].

(** The frame stored for the records of an artifact read in world [w]. *)
Definition output_frame (w : world) (records : list Pandas.row) : Pandas.DataFrame :=
  {| Pandas.columns := selected_columns;
     Pandas.rows :=
       imap (fun i r => output_row (uuid4 (env w) (next_uuid w + i)) r) records |}.

(** The flags of the records, as the [difficulty_flag] column holds
    them. *)
Definition flags_of (records : list Pandas.row) : list value :=
  map (fun r => VStr (get_difficulty_flag (score_of r))) records.

(** The two lines the coordinator prints for a notification. *)
Definition processing_lines (record : notification) : list string :=
  ["Processing file from " ++ source_bucket record ++ "/" ++ source_key record;
   "<get_object response>"].

(** The rows [apply] returns for the records of an artifact. *)
Definition transformed_rows (w : world) (records : list Pandas.row) : list Pandas.row :=
  imap (fun i r =>
          with_features (Pandas.align (Pandas.union_keys records) r)
            (score_of r) (seconds_of r) (uuid4 (env w) (next_uuid w + i))) records.

(** The world after a notification has been handled: the identifiers
    used, the object stored and the lines printed. *)
Definition handled (environ : gmap string string) (record : notification)
    (records : list Pandas.row) (w : world) : world :=
  {| env := env w;
     next_uuid := length records + next_uuid w;
     s3_objects :=
       <[(processed_bucket environ,
          output_key (flags_of records) (source_key record)) := output_frame w records]>
         (s3_objects w);
     stdout := (stdout w ++ processing_lines record)%list |}.

(** An artifact the coordinator can transform: it has records, each can
    be scored, and some record has a title and some record has tags. *)
Definition transformable (records : list Pandas.row) : Prop :=
  records <> []
  /\ Forall scorable records
  /\ Pandas.has_label "title" (Pandas.union_keys records) = true
  /\ Pandas.has_label "tags" (Pandas.union_keys records) = true.

(** A frame as pandas holds it: the column labels are distinct, and every
    row has one cell for each column, in the order of the columns. *)
Definition rectangular (df : Pandas.DataFrame) : Prop :=
  NoDup (Pandas.columns df)
  /\ Forall (fun r : Pandas.row => map fst r = Pandas.columns df) (Pandas.rows df).

(** A frame as the parquet reader hands it over: a cell that the artifact
    lacks is [None]. *)
Definition frame_read : Pandas.DataFrame :=
  {| Pandas.columns := ["title"; "ingredients"; "directions"; "tags"];
     Pandas.rows :=
       [[("title", VStr "Omelette");
         ("ingredients", VList [VStr "2 eggs"; VStr "butter"]);
         ("directions", VList [VStr "Whisk the eggs"; VStr "Fry for 2 minutes"]);
         ("tags", VList [VStr "quick"])];
        [("title", VNone);
         ("ingredients", VList [VStr "water"]);
         ("directions", VList [VStr "Boil for 10 minutes"]);
         ("tags", VNone)]] |}.

(** A world whose temporary bucket holds the frame [df]. *)
Definition world_reading (df : Pandas.DataFrame) : world :=
  {| env := sample_transformation_oracle; next_uuid := 0;
     s3_objects := {[ ("temp-recipes-bucket", "2025/02/17/7c9e.parquet") := df ]};
     stdout := [] |}.

(** The identifiers handed out for [n] records read in world [w]. *)
Definition fresh_ids (w : world) (n : nat) : list value :=
  map (fun i => VStr (uuid4 (env w) (next_uuid w + i))) (seq 0 n).

(** The feature functions refuse the record. *)
Definition unscorable (r : Pandas.row) : bool :=
  raised (get_complexity_score (cell "ingredients" r) (cell "directions" r))
  || raised (get_time_estimate (cell "directions" r)).

(** A record with every field the validator asks for, whose ingredients
    are [null]. *)
Definition null_ingredients : Pandas.row :=
  [("title", VStr "Soup"); ("ingredients", VNone);
   ("directions", VList [VStr "Boil for 10 minutes"]); ("tags", VList [])].

End TransformationRunsVocabulary.

Section NotificationVocabulary.
Import Subscript Notification.

(** The responses among some calls. *)
Definition responses (l : list op) : list (status * value) :=
  omap (fun o => match o with
                 | Send s d => Some (s, d)
                 | PutBucketNotificationConfiguration _ _ => None
                 end) l.

(** Sending a response never fails in this run. *)
Definition sends (w : world) : Prop :=
  forall history s d, raises (env w) history (Send s d) = None.

(** The world once the event has been printed. *)
Definition received_line (json_dumps : value -> string) (event : value) : string :=
  "Received event: " ++ json_dumps event.

Definition received (json_dumps : value -> string) (event : value) (w : world) : world :=
  {| env := env w; calls := calls w;
     stdout := (stdout w ++ [received_line json_dumps event])%list |}.

(** The response the handler owes for the outcome of [configure]. *)
Definition response_for (outcome : result unit) : op :=
  match outcome with
  | Ok _ => Send SUCCESS (VDict [])
  | Raise e => Send FAILED (VDict [("Error", VStr (str_exn e))])
  end.

(** A sample run: a [Create] request for the bucket of raw recipes. *)
Definition always : oracle := {| raises := fun _ _ => None |}.

Definition create_request : value :=
  VDict [("RequestType", VStr "Create");
         ("ResourceProperties",
          VDict [("BucketName", VStr "raw-recipes-data");
                 ("NotificationConfiguration",
                  VDict [("LambdaFunctionConfigurations", VList [])])])].

Definition delete_request : value :=
  VDict [("RequestType", VStr "Delete");
         ("ResourceProperties", VDict [("BucketName", VStr "raw-recipes-data")])].

Definition initial (o : oracle) : world := {| env := o; calls := []; stdout := [] |}.

End NotificationVocabulary.

Section LoaderVocabulary.
Import Subscript Loader.

Definition is_Close (o : op) : bool :=
  match o with Close _ => true | _ => false end.

Definition is_Commit (o : op) : bool :=
  match o with Commit _ => true | _ => false end.

(** The connections opened and closed by some calls. *)
Definition opened (l : list op) : nat := List.length (List.filter is_Connect l).

Definition closed (l : list op) : nat := List.length (List.filter is_Close l).

(** The run goes on with the same oracle, and every call it adds
    satisfies [P]. *)
Definition adds (P : op -> bool) (w w' : world) : Prop :=
  env w' = env w
  /\ exists new, calls w' = (calls w ++ new)%list /\ forallb P new = true.

(** A call that neither opens nor closes a connection. *)
Definition keeps_connections (o : op) : bool := negb (is_Connect o || is_Close o).

(** A call that commits nothing. *)
Definition commits_nothing (o : op) : bool := negb (is_Commit o).

(** The bodies of the two responses. *)
Definition loaded_body (json_dumps : value -> string) : string :=
  json_dumps (VStr "Data loaded successfully to PostgreSQL").

Definition error_body (json_dumps : value -> string) (e : exn) : string :=
  json_dumps (VStr ("Error loading data: " ++ str_exn e)).

(** A sample run: the object holds one processed recipe, and the insert
    is refused. *)
Definition stored_recipe : value :=
  VDict [("recipe_id", VStr "id-0"); ("title", VStr "Omelette");
         ("ingredients", VList [VStr "2 eggs"; VStr "butter"]);
         ("tags", VList [VStr "quick"])].

Definition refusing_inserts : oracle :=
  {| raises := fun _ o =>
       match o with
       | ExecuteValues _ _ _ => Some (Exn ValueError "null value in column name")
       | _ => None
       end;
     json_loads := fun _ _ => Ok (VList [stored_recipe]) |}.

Definition accepting : oracle :=
  {| raises := fun _ _ => None;
     json_loads := fun _ _ => Ok (VList [stored_recipe]) |}.

Definition unprepared : oracle :=
  {| raises := fun _ _ => None;
     json_loads := fun _ _ => Ok (VList [stored_recipe; VStr "soup"]) |}.

Definition start (o : oracle) : world := {| env := o; calls := []; log := [] |}.

Definition s3_record (bucket key : string) : value :=
  VDict [("s3", VDict [("bucket", VDict [("name", VStr bucket)]);
                       ("object", VDict [("key", VStr key)])])].

(** Every call returns in this run. *)
Definition all_calls_return (w : world) : Prop :=
  forall history o, raises (env w) history o = None.

(** The run of [m] from [w] gives [r] and adds the calls [new]. *)
Definition runs {A} (m : M A) (w : world) (r : result A) (new : list op) : Prop :=
  exists w', m w = (r, w') /\ env w' = env w /\ calls w' = (calls w ++ new)%list.

Definition is_dict (v : value) : bool :=
  match v with VDict _ => true | _ => false end.

(** The exception of [recipe.get] on an object that is no dict. *)
Definition no_get (AttributeError : exn_class) (v : value) : exn :=
  Exn AttributeError ("'" ++ type_name v ++ "' object has no attribute 'get'").

(** The first recipe that is no dict. *)
Definition first_other (recipes : list value) : option value :=
  List.find (fun v => negb (is_dict v)) recipes.

(** The calls of one record, by the connection [c] it opens. *)
Definition connect_call (environ : gmap string string) : op :=
  Connect (os_environ_get environ "RDS_HOST" (VStr "localhost"))
    (os_environ_get environ "RDS_PORT" (VInt 5432))
    (os_environ_get environ "RDS_DB_NAME" (VStr "postgres"))
    (os_environ_get environ "RDS_USERNAME" (VStr "postgres"))
    (os_environ_get environ "RDS_PASSWORD" (VStr "postgres")).

Definition table_calls (environ : gmap string string) (c : connection) : list op :=
  [Cursor c;
   Execute c (CREATE_SCHEMA_IF_NOT_EXISTS (RDS_SCHEMA environ));
   Execute c (CREATE_TABLE_IF_NOT_EXISTS (RDS_SCHEMA environ) (RDS_TABLE environ));
   Commit c].

Definition insert_calls (c : connection) (schema table : value)
    (values : list (list value)) : list op :=
  [Cursor c; ExecuteValues c (INSERT_ON_CONFLICT_UPDATE schema table) values; Commit c].

Definition record_calls (environ : gmap string string) (c : connection)
    (bucket key : string) (values : list (list value)) : list op :=
  (GetObject (VStr bucket) (VStr key) :: connect_call environ :: table_calls environ c
   ++ insert_calls c (RDS_SCHEMA environ) (RDS_TABLE environ) values
   ++ [Close c])%list.

Definition failed_record_calls (environ : gmap string string) (c : connection)
    (bucket key : string) : list op :=
  (GetObject (VStr bucket) (VStr key) :: connect_call environ :: table_calls environ c
   ++ [Cursor c; Rollback c])%list.

(** The values the loader prepares for the object [key] of [bucket]. *)
Definition values_of (json_dumps : value -> string) (AttributeError : exn_class)
    (o : oracle) (object : string * string) : list (list value) :=
  match json_loads o (VStr (fst object)) (VStr (snd object)) with
  | Ok data =>
      match prepare_values json_dumps AttributeError data with
      | Ok values => values
      | Raise _ => []
      end
  | Raise _ => []
  end.

(** An object the loader can read and whose recipes it can prepare. *)
Definition loadable (json_dumps : value -> string) (AttributeError : exn_class)
    (o : oracle) (object : string * string) : Prop :=
  exists data,
    json_loads o (VStr (fst object)) (VStr (snd object)) = Ok data
    /\ raised (prepare_values json_dumps AttributeError data) = false.

(** The event for some objects. *)
Definition event_for (objects : list (string * string)) : value :=
  VDict [("Records", VList (map (fun object => s3_record (fst object) (snd object)) objects))].

End LoaderVocabulary.

(** * Part III. Properties *)

(** ** Batching *)

Section Batches.
Context {A : Type}.
Implicit Types l : list A.

Lemma chunks_S b m l :
  chunks b (S m) l = (chunks b m l ++ [take b (drop (m * b) l)])%list.
Proof. unfold chunks. rewrite seq_S, map_app. reflexivity. Qed.

Lemma concat_chunks b m l : concat (chunks b m l) = take (m * b) l.
Proof.
  induction m as [|m IH].
  - reflexivity.
  - replace (S m * b)%nat with (m * b + b)%nat by lia.
    rewrite chunks_S, concat_app, IH. cbn [concat]. rewrite app_nil_r.
    apply take_take_drop.
Qed.

Lemma chunks_lookup b m l j batch :
  chunks b m l !! j = Some batch -> (j < m)%nat /\ batch = take b (drop (j * b) l).
Proof.
  unfold chunks. rewrite list_lookup_fmap. intros H.
  destruct (seq 0 m !! j) as [k|] eqn:E; [|discriminate].
  apply lookup_seq in E as [-> ?]. simpl in H. inversion H. split; [lia|reflexivity].
Qed.

Lemma slice_chunk l (B : Z) (k : nat) :
  0 < B -> slice l (0 + Z.of_nat k * B) (0 + Z.of_nat k * B + B)
           = take (Z.to_nat B) (drop (k * Z.to_nat B) l).
Proof.
  intros HB. unfold slice, slice_bound.
  set (n := Z.of_nat (length l)).
  assert (Hk : 0 <= Z.of_nat k * B) by nia.
  destruct (Z.ltb_spec (0 + Z.of_nat k * B) 0); [lia|].
  destruct (Z.ltb_spec (0 + Z.of_nat k * B + B) 0); [lia|].
  assert (Hkb : Z.of_nat (k * Z.to_nat B) = Z.of_nat k * B) by nia.
  destruct (Z.le_gt_cases (Z.of_nat k * B) n) as [Hle|Hgt].
  - rewrite (Z.min_l (0 + _ * _)) by lia.
    replace (Z.to_nat (0 + Z.of_nat k * B)) with (k * Z.to_nat B)%nat by lia.
    set (L := drop (k * Z.to_nat B) l).
    assert (HL : Z.of_nat (length L) = n - Z.of_nat k * B).
    { unfold L. rewrite length_drop. subst n. lia. }
    replace (Z.to_nat (Z.min (0 + Z.of_nat k * B + B) n - (0 + Z.of_nat k * B)))
      with (Nat.min (Z.to_nat B) (length L)) by lia.
    rewrite <- take_take. f_equal. apply take_ge. lia.
  - rewrite !Z.min_r by lia. rewrite Z.sub_diag. simpl.
    rewrite (drop_ge l (k * Z.to_nat B)) by (subst n; lia).
    rewrite take_nil. reflexivity.
Qed.

End Batches.

Lemma mapM_Ok {A B} (f : A -> result B) (g : A -> B) xs :
  (forall x, f x = Ok (g x)) -> mapM f xs = Ok (map g xs).
Proof.
  intros H. induction xs as [|x xs IH]; simpl; [reflexivity|].
  rewrite H, IH. reflexivity.
Qed.

Lemma range_length_pos N B :
  0 <= N -> 0 < B -> range_length 0 N B = (N + B - 1) / B.
Proof.
  intros HN HB. unfold range_length.
  destruct (Z.ltb_spec 0 B); [|lia].
  destruct (Z.ltb_spec 0 N).
  - replace (N + B - 1) with (N - 1 + 1 * B) by lia.
    rewrite Z.div_add by lia. replace (N - 0 - 1) with (N - 1) by lia. reflexivity.
  - replace N with 0 by lia. symmetry. apply Z.div_small. lia.
Qed.

(** With an int batch size [B > 0] the comprehension yields the chunks. *)
Lemma make_batches_int (recipes : list value) (B : Z) :
  0 < B ->
  Extraction.make_batches (VInt B) recipes
  = Ok (chunks (Z.to_nat B)
          (Z.to_nat ((Z.of_nat (length recipes) + B - 1) / B)) recipes).
Proof.
  intros HB. unfold Extraction.make_batches, py_range. simpl.
  destruct (Z.eqb_spec B 0); [lia|]. simpl.
  rewrite range_length_pos by lia.
  rewrite (mapM_Ok _ (fun i => slice recipes i (i + B))) by reflexivity.
  rewrite map_map. unfold chunks. f_equal.
  apply map_ext. intros k. apply slice_chunk. assumption.
Qed.

Lemma ceil_div_bounds N B :
  0 <= N -> 0 < B ->
  let m := (N + B - 1) / B in
  0 <= m /\ (m - 1) * B < N + (if N =? 0 then 1 else 0) /\ N <= m * B.
Proof.
  intros HN HB m.
  pose proof (Z.div_mod (N + B - 1) B ltac:(lia)) as E.
  pose proof (Z.mod_pos_bound (N + B - 1) B HB) as R.
  fold m in E. destruct (Z.eqb_spec N 0); nia.
Qed.

Lemma last_batch_length N B J :
  0 < B -> 0 <= J -> J * B < N -> N <= (J + 1) * B ->
  (if N mod B =? 0 then B else N mod B) = N - J * B.
Proof.
  intros HB HJ Hlo Hhi.
  destruct (Z.eq_dec (N - J * B) B) as [E|E].
  - rewrite <- (Z.mod_unique N B (J + 1) 0) by lia. simpl. lia.
  - rewrite <- (Z.mod_unique N B J (N - J * B)) by lia.
    destruct (Z.eqb_spec (N - J * B) 0); lia.
Qed.

(** C2. For a positive batch size [B] the batcher returns ceil(N/B)
    batches; batch [j] is the slice of [B] records starting at [j * B], so
    every batch has [B] records except possibly the last, which has
    [N mod B] (or [B] when that is zero); the batches concatenate to the
    input, and no record gives no batch. *)
Theorem C2_batcher (recipes : list value) (B : Z) (HB : 0 < B) :
  let N := Z.of_nat (length recipes) in
  exists batches,
    Extraction.make_batches (VInt B) recipes = Ok batches /\
    Z.of_nat (length batches) = (N + B - 1) / B /\
    (forall j batch, batches !! j = Some batch ->
       batch = take (Z.to_nat B) (drop (j * Z.to_nat B) recipes) /\
       Z.of_nat (length batch) =
         if decide (S j = length batches)
         then (if N mod B =? 0 then B else N mod B)
         else B) /\
    concat batches = recipes /\
    (recipes = [] -> batches = []).
Proof.
  intros N.
  set (b := Z.to_nat B). set (m := Z.to_nat ((N + B - 1) / B)).
  exists (chunks b m recipes).
  split; [apply make_batches_int; assumption|].
  destruct (ceil_div_bounds N B ltac:(lia) HB) as (Hm0 & Hlo & Hhi).
  assert (Hlen : length (chunks b m recipes) = m).
  { unfold chunks. rewrite length_map, length_seq. reflexivity. }
  assert (HN0 : N = 0 -> m = 0%nat).
  { intros E. subst m. rewrite E. simpl. rewrite Z.div_small by lia. reflexivity. }
  split; [rewrite Hlen; subst m; lia|].
  split; [|split].
  - intros j batch Hj. apply chunks_lookup in Hj as [Hjm ->].
    split; [reflexivity|].
    rewrite length_take, length_drop, Hlen.
    assert (HNpos : 0 < N) by (destruct (Z.eq_dec N 0) as [E|E]; [apply HN0 in E|]; lia).
    destruct (Z.eqb_spec N 0) as [?|_]; [lia|].
    assert (Hjb : Z.of_nat (j * b) = Z.of_nat j * B) by (subst b; nia).
    destruct (decide (S j = m)) as [Hlast|Hnot].
    + assert (HJ : Z.of_nat j + 1 = (N + B - 1) / B) by (subst m; lia).
      rewrite (last_batch_length N B (Z.of_nat j)) by (rewrite ?HJ; lia).
      assert (N <= (Z.of_nat j + 1) * B) by (rewrite HJ; lia).
      subst N b. lia.
    + assert (HJ : Z.of_nat j + 2 <= (N + B - 1) / B) by (subst m; lia).
      assert ((Z.of_nat j + 1) * B <= ((N + B - 1) / B - 1) * B) by nia.
      subst N b. lia.
  - rewrite concat_chunks. apply take_ge. subst N m b. nia.
  - intros ->. rewrite HN0 by reflexivity. reflexivity.
Qed.

Lemma C2_batcher_witness :
  exists batches,
    Extraction.make_batches (VInt 2) [VInt 1; VInt 2; VInt 3; VInt 4; VInt 5] = Ok batches
    /\ Z.of_nat (length batches) = 3
    /\ concat batches = [VInt 1; VInt 2; VInt 3; VInt 4; VInt 5].
Proof.
  destruct (C2_batcher [VInt 1; VInt 2; VInt 3; VInt 4; VInt 5] 2 ltac:(lia))
    as (batches & Hrun & Hlen & _ & Hcat & _).
  exists batches. split; [exact Hrun|]. split; [exact Hlen|exact Hcat].
Defined.

Example batches_of_250 :
  option_map (map (@length value))
    (match Extraction.make_batches (VInt 100) (repeat VNone 250) with
     | Ok batches => Some batches
     | Raise _ => None
     end)
  = Some [100; 100; 50]%nat.
Proof. vm_compute. reflexivity. Qed.

Lemma existsb_eqb_elem (key : string) (keys : list string) :
  existsb (String.eqb key) keys = bool_decide (key ∈ keys).
Proof.
  induction keys as [|k keys IH]; cbn [existsb].
  - symmetry. apply bool_decide_eq_false_2. apply not_elem_of_nil.
  - rewrite IH. destruct (String.eqb_spec key k) as [->|Hne]; cbn [orb].
    + symmetry. apply bool_decide_eq_true_2. apply elem_of_cons. left. reflexivity.
    + apply bool_decide_ext. rewrite elem_of_cons. tauto.
Qed.

(** On a dict the validator tests the three keys and nothing else. *)
Lemma validate_raw_data_dict (items : list (string * value)) :
  Extraction.validate_raw_data (VDict items)
  = Ok (bool_decide ("title" ∈ map fst items /\ "ingredients" ∈ map fst items
                     /\ "directions" ∈ map fst items)).
Proof.
  unfold Extraction.validate_raw_data, Extraction.required_fields.
  cbn [py_all py_in bind]. rewrite !existsb_eqb_elem.
  repeat case_bool_decide; simpl; try reflexivity; tauto.
Qed.

(** C4. On every record (a JSON object) the validator returns, it never
    raises, and it returns true exactly when [title], [ingredients] and
    [directions] are all keys of the record. The answer depends on the
    keys only: no value is looked at, so neither its type nor its
    emptiness matters. The validator is a function of the record alone. *)
Theorem C4_validator (items : list (string * value)) :
  Extraction.validate_raw_data (VDict items)
  = Ok (bool_decide ("title" ∈ map fst items /\ "ingredients" ∈ map fst items
                     /\ "directions" ∈ map fst items))
  /\ (forall items' : list (string * value),
        map fst items' = map fst items ->
        Extraction.validate_raw_data (VDict items')
        = Extraction.validate_raw_data (VDict items))
  /\ (forall title ingredients directions : value,
        Extraction.validate_raw_data
          (VDict [("title", title); ("ingredients", ingredients);
                  ("directions", directions)]) = Ok true).
Proof.
  split; [apply validate_raw_data_dict|]. split.
  - intros items' E. rewrite !validate_raw_data_dict, E. reflexivity.
  - intros. reflexivity.
Qed.

Lemma environ_get_set environ name s default :
  environ !! name = Some s -> os_environ_get environ name default = VStr s.
Proof. intros H. unfold os_environ_get. rewrite H. reflexivity. Qed.

Lemma environ_get_unset environ name default :
  environ !! name = None -> os_environ_get environ name default = default.
Proof. intros H. unfold os_environ_get. rewrite H. reflexivity. Qed.

Lemma make_batches_str (s : string) (recipes : list value) :
  Extraction.make_batches (VStr s) recipes
  = Raise (Exn TypeError "'str' object cannot be interpreted as an integer").
Proof. reflexivity. Qed.

Lemma chunks_bounded {A} b m (l : list A) batch :
  batch ∈ chunks b m l -> (length batch <= b)%nat.
Proof.
  intros H. apply list_elem_of_lookup in H as [j Hj].
  apply chunks_lookup in Hj as [_ ->]. rewrite length_take. lia.
Qed.

(** C10. The batch size and the worker count are taken from the
    environment as they are. When [BATCH_SIZE] is set, the constant is
    the variable's text, [range] refuses it with a [TypeError] for every
    list of records (so for every non-empty one), and the handler raises
    on every event whose first object can be read. When it is not set, the
    constant is the int 100 and batching cuts the records into slices of at
    most 100 that concatenate back to the input. Likewise a set
    [MAX_WORKERS] makes the executor raise a [TypeError] before any batch
    runs, and an unset one gives the int 10, which the executor
    accepts. *)
Theorem C10_batch_size_not_converted (environ : gmap string string) :
  (forall s, environ !! "BATCH_SIZE" = Some s ->
     Extraction.BATCH_SIZE environ = VStr s
     /\ (forall recipes,
           Extraction.make_batches (Extraction.BATCH_SIZE environ) recipes
           = Raise (Exn TypeError "'str' object cannot be interpreted as an integer"))
     /\ (forall w bucket key event recipes,
           Extraction.raises (Extraction.env w) (Extraction.GetObject bucket key) = None ->
           Extraction.raw_object (Extraction.env w) bucket key = Some (Some recipes) ->
           Extraction.lambda_handler environ ((bucket, key) :: event) w
           = (Raise (Exn TypeError "'str' object cannot be interpreted as an integer"), w)))
  /\ (environ !! "BATCH_SIZE" = None ->
      Extraction.BATCH_SIZE environ = VInt 100
      /\ forall recipes, exists batches,
           Extraction.make_batches (Extraction.BATCH_SIZE environ) recipes = Ok batches
           /\ concat batches = recipes
           /\ (forall batch, batch ∈ batches -> (length batch <= 100)%nat))
  /\ (forall s, environ !! "MAX_WORKERS" = Some s ->
      Extraction.MAX_WORKERS environ = VStr s
      /\ forall batches w,
           Extraction.threaded_extraction environ batches w
           = (Raise (Exn TypeError
                "'<=' not supported between instances of 'str' and 'int'"), w))
  /\ (environ !! "MAX_WORKERS" = None ->
      Extraction.MAX_WORKERS environ = VInt 10
      /\ Extraction.ThreadPoolExecutor (Extraction.MAX_WORKERS environ) = Ok tt).
Proof.
  split; [|split; [|split]].
  - intros s Hs.
    assert (E : Extraction.BATCH_SIZE environ = VStr s)
      by (apply environ_get_set; assumption).
    split; [assumption|]. split.
    + intros recipes. rewrite E. apply make_batches_str.
    + intros w bucket key event recipes Hget Hraw.
      unfold Extraction.lambda_handler. cbn [Eff.for_each].
      unfold Eff.mbind at 1 2. unfold Extraction.handle_record.
      cbn [fst snd]. unfold Eff.mbind at 1.
      unfold Extraction.s3_get_object, Eff.mbind at 1, Extraction.external.
      rewrite Hget, Hraw. unfold Eff.mbind at 1. unfold Eff.lift at 1.
      cbn [Extraction.json_load]. unfold Eff.mbind at 1, Eff.lift at 1.
      rewrite E, make_batches_str. reflexivity.
  - intros Hs.
    assert (E : Extraction.BATCH_SIZE environ = VInt 100)
      by (apply environ_get_unset; assumption).
    split; [assumption|]. intros recipes. rewrite E.
    eexists. split; [apply make_batches_int; lia|]. split.
    + rewrite concat_chunks. apply take_ge.
      destruct (ceil_div_bounds (Z.of_nat (length recipes)) 100) as (? & ? & ?); lia.
    + intros batch Hb. apply chunks_bounded in Hb. exact Hb.
  - intros s Hs.
    assert (E : Extraction.MAX_WORKERS environ = VStr s)
      by (apply environ_get_set; assumption).
    split; [assumption|]. intros batches w.
    unfold Extraction.threaded_extraction, Eff.mbind, Eff.lift. rewrite E. reflexivity.
  - intros Hs.
    assert (E : Extraction.MAX_WORKERS environ = VInt 10)
      by (apply environ_get_unset; assumption).
    split; [assumption|]. rewrite E. reflexivity.
Qed.

Lemma C10_batch_size_not_converted_witness :
  Extraction.BATCH_SIZE environ_with_batch_size = VStr "100"
  /\ Extraction.make_batches (Extraction.BATCH_SIZE environ_with_batch_size) [VNone]
     = Raise (Exn TypeError "'str' object cannot be interpreted as an integer").
Proof.
  assert (Hset : environ_with_batch_size !! "BATCH_SIZE" = Some "100")
    by (vm_compute; reflexivity).
  destruct (proj1 (C10_batch_size_not_converted environ_with_batch_size) "100" Hset)
    as (Hconst & Hbatch & _).
  split; [exact Hconst|apply Hbatch].
Defined.

(** ** Strings *)

Section Strings.

Lemma append_cons a (s t : string) : String a s ++ t = String a (s ++ t).
Proof. reflexivity. Qed.

Lemma append_nil_r (s : string) : s ++ "" = s.
Proof. induction s as [|a s IH]; [reflexivity|]. rewrite append_cons, IH. reflexivity. Qed.

Lemma append_assoc (s t u : string) : (s ++ t) ++ u = s ++ (t ++ u).
Proof.
  induction s as [|a s IH]; [reflexivity|]. rewrite !append_cons, IH. reflexivity.
Qed.

Lemma length_append (s t : string) :
  String.length (s ++ t) = (String.length s + String.length t)%nat.
Proof.
  induction s as [|a s IH]; [reflexivity|].
  rewrite append_cons. cbn [String.length]. rewrite IH. reflexivity.
Qed.

Lemma substring_0_length (s t : string) :
  String.substring 0 (String.length s) (s ++ t) = s.
Proof.
  induction s as [|a s IH].
  - destruct t; reflexivity.
  - rewrite append_cons. cbn [String.length String.substring]. rewrite IH. reflexivity.
Qed.

Lemma consumed_append (t rest : string) : Re.consumed (t ++ rest) rest = t.
Proof.
  unfold Re.consumed. rewrite length_append.
  replace (String.length t + String.length rest - String.length rest)%nat
    with (String.length t) by lia.
  apply substring_0_length.
Qed.

Lemma append_cancel_r (s t u : string) : s ++ u = t ++ u -> s = t.
Proof.
  revert t. induction s as [|a s IH]; intros [|b t] H.
  - reflexivity.
  - apply (f_equal String.length) in H. rewrite !length_append in H.
    cbn [String.length] in H. lia.
  - apply (f_equal String.length) in H. rewrite !length_append in H.
    cbn [String.length] in H. lia.
  - rewrite !append_cons in H. inversion H. f_equal. apply IH. assumption.
Qed.

End Strings.

(** ** What the pattern engine finds *)

Lemma greedy_sound c s rest :
  rest ∈ Re.greedy c s -> exists t, s = t ++ rest /\ all_in c t = true.
Proof.
  revert rest. induction s as [|a s IH]; intros rest H; cbn [Re.greedy] in H.
  - apply list_elem_of_singleton in H as ->. exists "". split; reflexivity.
  - destruct (Re.in_category c a) eqn:Ha.
    + apply elem_of_app in H as [H|H].
      * destruct (IH _ H) as (t & -> & Ht). exists (String a t).
        split; [reflexivity|]. cbn [all_in]. rewrite Ha, Ht. reflexivity.
      * apply list_elem_of_singleton in H as ->. exists "". split; reflexivity.
    + apply list_elem_of_singleton in H as ->. exists "". split; reflexivity.
Qed.

Lemma run_sound p : forall s groups rest groups',
  (rest, groups') ∈ Re.run p s groups ->
  exists t g, s = t ++ rest /\ groups' = (groups ++ g)%list /\ matches p t g.
Proof.
  induction p as [c|min c|p IHp q IHq|p IHp]; intros s groups rest groups' H;
    cbn [Re.run] in H.
  - destruct s as [|a s]; [apply elem_of_nil in H; contradiction|].
    destruct (Re.in_category c a) eqn:Ha; [|apply elem_of_nil in H; contradiction].
    apply list_elem_of_singleton in H. inversion H; subst.
    exists (String a ""), []. rewrite app_nil_r.
    repeat split. constructor. assumption.
  - apply list_elem_of_fmap in H as (r & E & H). inversion E; subst.
    apply list_elem_of_filter in H as [Hmin H].
    apply greedy_sound in H as (t & -> & Ht).
    exists t, []. rewrite app_nil_r. repeat split.
    constructor; [assumption|].
    apply Is_true_true in Hmin. apply Nat.leb_le in Hmin.
    rewrite length_append in Hmin. lia.
  - apply list_elem_of_In, in_flat_map in H as ([s1 g1] & H1 & H2).
    apply list_elem_of_In in H1, H2. cbn [fst snd] in H2.
    apply IHp in H1 as (t1 & h1 & -> & -> & M1).
    apply IHq in H2 as (t2 & h2 & -> & -> & M2).
    exists (t1 ++ t2), (h1 ++ h2)%list.
    rewrite append_assoc, app_assoc. repeat split. constructor; assumption.
  - apply list_elem_of_fmap in H as ([s1 g1] & E & H). cbn [fst snd] in E.
    inversion E; subst.
    apply IHp in H as (t & g & -> & -> & M).
    exists t, (g ++ [t])%list. rewrite consumed_append, app_assoc.
    repeat split. constructor. assumption.
Qed.

Lemma match_here_sound p s rest groups :
  Re.match_here p s = Some (rest, groups) ->
  exists t, s = t ++ rest /\ matches p t groups.
Proof.
  unfold Re.match_here. intros H.
  destruct (Re.run p s []) as [|st l] eqn:E; [discriminate|].
  simpl in H. inversion H; subst.
  destruct (run_sound p s [] rest groups) as (t & g & -> & -> & M).
  { rewrite E. apply list_elem_of_here. }
  exists t. split; [reflexivity|exact M].
Qed.

(** Every tuple [findall] reports is the groups of a match of the pattern
    on a piece of the subject. *)
Lemma scan_sound p s : forall skip m,
  m ∈ Re.scan p s skip ->
  exists pre t post, s = pre ++ t ++ post /\ matches p t m.
Proof.
  induction s as [|a s IH]; intros skip m H; cbn [Re.scan] in H.
  - destruct skip; [|apply elem_of_nil in H; contradiction].
    destruct (Re.match_here p "") as [[rest g]|] eqn:E;
      [|apply elem_of_nil in H; contradiction].
    apply list_elem_of_singleton in H as ->.
    apply match_here_sound in E as (t & E & M).
    exists "", t, rest. split; [exact E|exact M].
  - destruct skip as [|k].
    + destruct (Re.match_here p (String a s)) as [[rest g]|] eqn:E.
      * apply elem_of_cons in H as [->|H].
        -- apply match_here_sound in E as (t & E & M).
           exists "", t, rest. split; [exact E|exact M].
        -- apply IH in H as (pre & t & post & -> & M).
           exists (String a pre), t, post. split; [reflexivity|exact M].
      * apply IH in H as (pre & t & post & -> & M).
        exists (String a pre), t, post. split; [reflexivity|exact M].
    + apply IH in H as (pre & t & post & -> & M).
      exists (String a pre), t, post. split; [reflexivity|exact M].
Qed.

(** What a match of the time pattern looks like. *)
Lemma time_pattern_shape t m :
  matches Transformation.time_pattern t m ->
  exists number ws word,
    m = [number; word] /\ t = number ++ ws ++ word
    /\ number <> "" /\ all_in Re.CATEGORY_DIGIT number = true
    /\ all_in Re.CATEGORY_SPACE ws = true
    /\ word <> "" /\ all_in Re.CATEGORY_WORD word = true.
Proof.
  unfold Transformation.time_pattern. intros H.
  inversion H as [| |? ? t1 t23 g1 g23 H1 H23|]; subst.
  inversion H1 as [| | |? ? ? Hd]; subst.
  inversion Hd as [|? ? ? Hdig Hdlen| |]; subst.
  inversion H23 as [| |? ? t2 t3 g2 g3 H2 H3|]; subst.
  inversion H2 as [|? ? ? Hsp _| |]; subst.
  inversion H3 as [| | |? ? ? Hw]; subst.
  inversion Hw as [|? ? ? Hword Hwlen| |]; subst.
  exists t1, t2, t3. cbn [app]. repeat split; try assumption.
  - intros ->. simpl in Hdlen. lia.
  - intros ->. simpl in Hwlen. lia.
Qed.

(** ** The time estimate *)

Lemma TIME_UNITS_lookup word :
  Transformation.TIME_UNITS !! word = unit_seconds word.
Proof.
  unfold Transformation.TIME_UNITS.
  do 6 (rewrite lookup_insert;
        destruct (decide (_ = word)) as [<-|?]; [reflexivity|]).
  rewrite lookup_empty. unfold unit_seconds.
  rewrite !bool_decide_eq_false_2 by (intros [?|?]; congruence). reflexivity.
Qed.

Lemma int_digits_decimal digits : forall acc,
  all_in Re.CATEGORY_DIGIT digits = true ->
  int_digits acc digits = Ok (decimal_from acc digits).
Proof.
  induction digits as [|a s IH]; intros acc H; [reflexivity|].
  cbn [all_in Re.in_category] in H. apply andb_true_iff in H as [Ha Hs].
  cbn [int_digits decimal_from]. unfold digit_value.
  unfold Re.is_digit, Re.between, Re.code in Ha. rewrite Ha.
  apply IH. exact Hs.
Qed.

Lemma leading_digits_all digits :
  all_in Re.CATEGORY_DIGIT digits = true -> leading_digits digits = String.length digits.
Proof.
  induction digits as [|a s IH]; intros H; [reflexivity|].
  cbn [all_in Re.in_category] in H. apply andb_true_iff in H as [Ha Hs].
  cbn [leading_digits String.length]. unfold digit_value.
  unfold Re.is_digit, Re.between, Re.code in Ha. rewrite Ha, IH by exact Hs.
  reflexivity.
Qed.

Lemma py_int_decimal digits :
  digits <> "" -> all_in Re.CATEGORY_DIGIT digits = true ->
  (String.length digits <= 4300)%nat ->
  py_int digits = Ok (decimal digits).
Proof.
  intros Hne H Hlen. destruct digits as [|a s]; [contradiction|].
  unfold py_int, decimal. rewrite leading_digits_all by exact H.
  unfold int_max_str_digits.
  destruct (Nat.ltb_spec 4300 (String.length (String a s))) as [Hlt|_]; [lia|].
  apply int_digits_decimal. exact H.
Qed.

Lemma py_int_exceeds digits :
  all_in Re.CATEGORY_DIGIT digits = true -> (4300 < String.length digits)%nat ->
  exists msg, py_int digits = Raise (Exn ValueError msg).
Proof.
  intros H Hlen. destruct digits as [|a s]; [simpl in Hlen; lia|].
  unfold py_int. rewrite leading_digits_all by exact H.
  unfold int_max_str_digits.
  destruct (Nat.ltb_spec 4300 (String.length (String a s))) as [_|Hle]; [|lia].
  eexists. reflexivity.
Qed.

Lemma findall_well_formed direction :
  Forall well_formed (Re.findall Transformation.time_pattern direction).
Proof.
  apply Forall_forall. intros m H.
  apply scan_sound in H as (pre & t & post & _ & M).
  apply time_pattern_shape in M as (number & ws & word & -> & _ & Hne & Hd & _).
  exists number, word. repeat split; assumption.
Qed.

Lemma omap_cons {A B} (f : A -> option B) x l :
  omap f (x :: l) = match f x with Some y => y :: omap f l | None => omap f l end.
Proof. reflexivity. Qed.

Lemma matches_loop_spec ms : forall time_estimate any_match,
  Forall well_formed ms -> forallb fits_mention ms = true ->
  Transformation.matches_loop ms time_estimate any_match
  = Ok (time_estimate + sum_Z (omap mention_seconds ms),
        any_match || negb (is_nil (omap mention_seconds ms))).
Proof.
  induction ms as [|m ms IH]; intros te any H Hfit.
  - simpl. rewrite Z.add_0_r, orb_false_r. reflexivity.
  - apply Forall_cons in H as [(number & word & -> & Hne & Hd) Hms].
    cbn [forallb] in Hfit. apply andb_true_iff in Hfit as [Hm Hfit].
    cbn [Transformation.matches_loop Transformation.tuple_item lookup list_lookup bind].
    rewrite TIME_UNITS_lookup, omap_cons.
    assert (Hmention : mention_seconds [number; word]
                 = (fun seconds => decimal number * seconds) <$> unit_seconds word)
      by reflexivity.
    rewrite Hmention. clear Hmention. cbn [fits_mention] in Hm.
    destruct (unit_seconds word) as [seconds|]; cbn [fmap option_fmap option_map].
    + apply Nat.leb_le in Hm.
      rewrite py_int_decimal by assumption. cbn [bind].
      rewrite IH by assumption. cbn [sum_Z fold_right is_nil negb].
      rewrite orb_true_r. f_equal. f_equal. unfold sum_Z. lia.
    + apply IH; assumption.
Qed.

Lemma matches_loop_exceeds ms : forall time_estimate any_match,
  Forall well_formed ms -> forallb fits_mention ms = false ->
  exists msg,
    Transformation.matches_loop ms time_estimate any_match = Raise (Exn ValueError msg).
Proof.
  induction ms as [|m ms IH]; intros te any H Hfit; [discriminate Hfit|].
  apply Forall_cons in H as [(number & word & -> & Hne & Hd) Hms].
  cbn [forallb fits_mention] in Hfit.
  cbn [Transformation.matches_loop Transformation.tuple_item lookup list_lookup bind].
  rewrite TIME_UNITS_lookup.
  destruct (unit_seconds word) as [seconds|].
  - destruct (Nat.leb_spec (String.length number) 4300) as [Hle|Hgt].
    + rewrite py_int_decimal by assumption. cbn [bind]. apply IH; assumption.
    + destruct (py_int_exceeds number Hd Hgt) as [msg ->]. exists msg. reflexivity.
  - apply IH; assumption.
Qed.

Lemma direction_seconds_eq direction :
  direction_seconds direction
  = let recognized :=
      omap mention_seconds (Re.findall Transformation.time_pattern direction) in
    if is_nil recognized then 300 else sum_Z recognized.
Proof. unfold direction_seconds. destruct (omap _ _); reflexivity. Qed.

Lemma directions_loop_spec directions : forall time_estimate,
  Forall (fun d => fits d = true) directions ->
  Transformation.directions_loop (map VStr directions) time_estimate
  = Ok (time_estimate + sum_Z (map direction_seconds directions)).
Proof.
  induction directions as [|d ds IH]; intros te Hfit.
  - simpl. rewrite Z.add_0_r. reflexivity.
  - apply Forall_cons in Hfit as [Hd Hds].
    cbn [map Transformation.directions_loop Transformation.findall_value bind].
    rewrite matches_loop_spec by (apply findall_well_formed || exact Hd).
    cbn [bind fst snd orb]. rewrite IH by exact Hds.
    change (sum_Z (direction_seconds d :: map direction_seconds ds))
      with (direction_seconds d + sum_Z (map direction_seconds ds)).
    rewrite direction_seconds_eq. cbn zeta.
    destruct (omap mention_seconds _) as [|x xs];
      cbn [is_nil negb sum_Z fold_right]; f_equal; lia.
Qed.

Lemma directions_loop_exceeds pre d post : forall time_estimate,
  Forall (fun d => fits d = true) pre -> fits d = false ->
  exists msg,
    Transformation.directions_loop (map VStr (pre ++ d :: post)) time_estimate
    = Raise (Exn ValueError msg).
Proof.
  induction pre as [|p pre IH]; intros te Hpre Hd.
  - cbn [app map Transformation.directions_loop Transformation.findall_value bind].
    destruct (matches_loop_exceeds _ te false (findall_well_formed d) Hd) as [msg ->].
    exists msg. reflexivity.
  - apply Forall_cons in Hpre as [Hp Hpre].
    cbn [app map Transformation.directions_loop Transformation.findall_value bind].
    rewrite matches_loop_spec by (apply findall_well_formed || exact Hp).
    cbn [bind]. apply IH; assumption.
Qed.

Lemma match_here_no_digit s :
  match s with String a _ => Re.is_digit a = false | EmptyString => True end ->
  Re.match_here Transformation.time_pattern s = None.
Proof.
  intros H. unfold Re.match_here, Transformation.time_pattern.
  cbn [Re.run]. destruct s as [|a s]; cbn [Re.greedy Re.in_category].
  - reflexivity.
  - rewrite H. cbn [filter list_filter]. rewrite Nat.sub_diag. reflexivity.
Qed.

Lemma scan_no_digit s : forall skip,
  has_digit s = false -> Re.scan Transformation.time_pattern s skip = [].
Proof.
  induction s as [|a s IH]; intros skip H; cbn [Re.scan].
  - rewrite match_here_no_digit by exact I. destruct skip; reflexivity.
  - cbn [has_digit] in H. apply orb_false_iff in H as [Ha Hs].
    destruct skip; [|apply IH; exact Hs].
    rewrite match_here_no_digit by exact Ha. apply IH. exact Hs.
Qed.

Lemma greedy_maximal c t r :
  all_in c t = true -> starts_outside c r = true ->
  exists l, Re.greedy c (t ++ r) = r :: l.
Proof.
  intros Ht Hr. induction t as [|a t IH].
  - exists []. destruct r as [|b r]; [reflexivity|].
    cbn [starts_outside] in Hr. apply negb_true_iff in Hr.
    change ("" ++ String b r) with (String b r). cbn [Re.greedy]. rewrite Hr. reflexivity.
  - cbn [all_in] in Ht. apply andb_true_iff in Ht as [Ha Ht].
    destruct (IH Ht) as [l E]. rewrite append_cons. cbn [Re.greedy].
    rewrite Ha, E. eexists. reflexivity.
Qed.

Lemma run_MaxRepeat_head min c t r groups :
  all_in c t = true -> starts_outside c r = true -> (min <= String.length t)%nat ->
  exists l, Re.run (Re.MaxRepeat min c) (t ++ r) groups = (r, groups) :: l.
Proof.
  intros Ht Hr Hmin. cbn [Re.run].
  destruct (greedy_maximal c t r Ht Hr) as [l ->].
  cbn [filter list_filter]. rewrite length_append.
  destruct (decide _) as [_|Hno].
  - eexists. reflexivity.
  - exfalso. apply Hno. apply Is_true_true, Nat.leb_le. lia.
Qed.

Lemma nonempty_length (s : string) : s <> "" -> (1 <= String.length s)%nat.
Proof. destruct s; [contradiction|]. intros _. simpl. lia. Qed.

(** Where a full run of digits is followed by a full run of white space
    and a full, non-empty run of word characters, the match at that place
    is that number with that word. *)
Lemma match_here_maximal number ws word rest :
  number <> "" -> all_in Re.CATEGORY_DIGIT number = true ->
  all_in Re.CATEGORY_SPACE ws = true ->
  word <> "" -> all_in Re.CATEGORY_WORD word = true ->
  starts_outside Re.CATEGORY_DIGIT (ws ++ word ++ rest) = true ->
  starts_outside Re.CATEGORY_SPACE (word ++ rest) = true ->
  starts_outside Re.CATEGORY_WORD rest = true ->
  Re.match_here Transformation.time_pattern (number ++ ws ++ word ++ rest)
  = Some (rest, [number; word]).
Proof.
  intros Hn Hd Hs Hw Hword Od Os Ow.
  unfold Re.match_here, Transformation.time_pattern.
  cbn [Re.run].
  destruct (run_MaxRepeat_head 1 _ number _ [] Hd Od (nonempty_length _ Hn)) as [l1 E1].
  cbn [Re.run] in E1. rewrite E1. cbn [map flat_map fst snd].
  destruct (run_MaxRepeat_head 0 _ ws _ ([] ++ [Re.consumed (number ++ ws ++ word ++ rest) (ws ++ word ++ rest)])%list Hs Os ltac:(lia)) as [l2 E2].
  cbn [Re.run] in E2. rewrite E2. cbn [map flat_map fst snd].
  destruct (run_MaxRepeat_head 1 _ word _ ([] ++ [Re.consumed (number ++ ws ++ word ++ rest) (ws ++ word ++ rest)])%list Hword Ow (nonempty_length _ Hw)) as [l3 E3].
  cbn [Re.run] in E3. rewrite E3. cbn [map fst snd app head].
  rewrite !consumed_append. reflexivity.
Qed.

(** ** Which occurrences the scan reports *)

Lemma span_spec c s :
  s = fst (span c s) ++ snd (span c s)
  /\ all_in c (fst (span c s)) = true
  /\ starts_outside c (snd (span c s)) = true.
Proof.
  induction s as [|a s (IH1 & IH2 & IH3)]; [repeat split|].
  cbn [span]. destruct (Re.in_category c a) eqn:Ha; cbn [fst snd].
  - split; [rewrite append_cons, <- IH1; reflexivity|].
    split; [cbn [all_in]; rewrite Ha, IH2; reflexivity|exact IH3].
  - split; [reflexivity|]. split; [reflexivity|].
    cbn [starts_outside]. rewrite Ha. reflexivity.
Qed.

Lemma split_last_spec s :
  match split_last s with
  | Some (t, z) => s = t ++ String z ""
  | None => s = ""
  end.
Proof.
  induction s as [|a s IH]; [reflexivity|].
  cbn [split_last]. destruct s as [|b s]; [reflexivity|].
  destruct (split_last (String b s)) as [[t z]|].
  - rewrite IH. reflexivity.
  - discriminate IH.
Qed.

Lemma space_is_no_word a : Re.is_space a = true -> Re.is_word a = false.
Proof.
  destruct a as [[] [] [] [] [] [] [] []]; vm_compute; intros H;
    first [reflexivity | discriminate H].
Qed.

Lemma digit_is_word a : Re.is_digit a = true -> Re.is_word a = true.
Proof.
  destruct a as [[] [] [] [] [] [] [] []]; vm_compute; intros H;
    first [reflexivity | discriminate H].
Qed.

Lemma digit_is_no_space a : Re.is_digit a = true -> Re.is_space a = false.
Proof.
  destruct a as [[] [] [] [] [] [] [] []]; vm_compute; intros H;
    first [reflexivity | discriminate H].
Qed.

Lemma greedy_outside c r : starts_outside c r = true -> Re.greedy c r = [r].
Proof.
  destruct r as [|a r]; [reflexivity|]. cbn [starts_outside Re.greedy].
  intros H. apply negb_true_iff in H. rewrite H. reflexivity.
Qed.

(** The two greediest runs of a class over [t ++ z], before [r]. *)
Lemma greedy_two c t z r :
  all_in c t = true -> Re.in_category c z = true -> starts_outside c r = true ->
  exists l, Re.greedy c (t ++ String z r) = r :: String z r :: l.
Proof.
  intros Ht Hz Hr. induction t as [|a t IH].
  - exists []. change ("" ++ String z r) with (String z r).
    cbn [Re.greedy]. rewrite Hz, (greedy_outside c r Hr). reflexivity.
  - cbn [all_in] in Ht. apply andb_true_iff in Ht as [Ha Ht].
    destruct (IH Ht) as [l E]. rewrite append_cons. cbn [Re.greedy].
    rewrite Ha, E. eexists. reflexivity.
Qed.

Lemma flat_map_all_nil {A B} (f : A -> list B) (l : list A) :
  Forall (fun x => f x = []) l -> flat_map f l = [].
Proof.
  induction 1 as [|x l Hx _ IH]; [reflexivity|]. cbn [flat_map]. rewrite Hx, IH.
  reflexivity.
Qed.

(** No word starts where the white space after the number ends, nor
    anywhere in that white space. *)
Lemma greedy_space_no_word ws r :
  all_in Re.CATEGORY_SPACE ws = true ->
  starts_outside Re.CATEGORY_SPACE r = true ->
  starts_outside Re.CATEGORY_WORD r = true ->
  Forall (fun rest => starts_outside Re.CATEGORY_WORD rest = true)
    (Re.greedy Re.CATEGORY_SPACE (ws ++ r)).
Proof.
  intros Hws Hs Hw. induction ws as [|a ws IH].
  - change ("" ++ r) with r. rewrite (greedy_outside _ r Hs).
    constructor; [exact Hw|constructor].
  - cbn [all_in Re.in_category] in Hws. apply andb_true_iff in Hws as [Ha Hws].
    rewrite append_cons. cbn [Re.greedy Re.in_category]. rewrite Ha.
    apply Forall_app. split; [apply IH; exact Hws|].
    constructor; [|constructor].
    cbn [starts_outside Re.in_category]. rewrite (space_is_no_word a Ha). reflexivity.
Qed.

Lemma run_word_outside r groups :
  starts_outside Re.CATEGORY_WORD r = true ->
  Re.run (Re.Subpattern (Re.MaxRepeat 1 Re.CATEGORY_WORD)) r groups = [].
Proof.
  intros H. cbn [Re.run]. rewrite (greedy_outside _ r H).
  cbn [filter list_filter]. rewrite Nat.sub_diag. reflexivity.
Qed.

(** After white space that no word follows, the rest of the pattern does
    not match. *)
Lemma run_rest_no_word ws r groups :
  all_in Re.CATEGORY_SPACE ws = true ->
  starts_outside Re.CATEGORY_SPACE r = true ->
  starts_outside Re.CATEGORY_WORD r = true ->
  Re.run (Re.Seq (Re.MaxRepeat 0 Re.CATEGORY_SPACE)
            (Re.Subpattern (Re.MaxRepeat 1 Re.CATEGORY_WORD))) (ws ++ r) groups = [].
Proof.
  intros Hws Hs Hw.
  change (Re.run (Re.Seq ?p ?q) ?s ?g)
    with (flat_map (fun st => Re.run q (fst st) (snd st)) (Re.run p s g)).
  apply flat_map_all_nil. cbn [Re.run].
  apply Forall_forall. intros st Hst.
  apply list_elem_of_fmap in Hst as (rest & -> & Hrest). cbn [fst snd].
  apply list_elem_of_filter in Hrest as [_ Hrest].
  pose proof (greedy_space_no_word ws r Hws Hs Hw) as Hall.
  rewrite Forall_forall in Hall. apply run_word_outside, Hall, Hrest.
Qed.

(** After a digit that no word character follows, the rest of the pattern
    matches that digit as the word. *)
Lemma run_rest_digit z r groups :
  Re.is_digit z = true -> starts_outside Re.CATEGORY_WORD r = true ->
  exists l,
    Re.run (Re.Seq (Re.MaxRepeat 0 Re.CATEGORY_SPACE)
              (Re.Subpattern (Re.MaxRepeat 1 Re.CATEGORY_WORD))) (String z r) groups
    = (r, (groups ++ [String z ""])%list) :: l.
Proof.
  intros Hz Hr.
  change (Re.run (Re.Seq ?p ?q) ?s ?g)
    with (flat_map (fun st => Re.run q (fst st) (snd st)) (Re.run p s g)).
  destruct (run_MaxRepeat_head 0 Re.CATEGORY_SPACE "" (String z r) groups
              eq_refl) as [l1 E1].
  { cbn [starts_outside Re.in_category]. rewrite (digit_is_no_space z Hz). reflexivity. }
  { simpl. lia. }
  change ("" ++ String z r) with (String z r) in E1. rewrite E1.
  cbn [flat_map fst snd].
  destruct (run_MaxRepeat_head 1 Re.CATEGORY_WORD (String z "") r groups) as [l2 E2].
  { cbn [all_in Re.in_category]. rewrite (digit_is_word z Hz). reflexivity. }
  { exact Hr. }
  { simpl. lia. }
  change (String z "" ++ r) with (String z r) in E2.
  change (Re.run (Re.Subpattern (Re.MaxRepeat 1 Re.CATEGORY_WORD)) (String z r) groups)
    with (map (fun st => (fst st, (snd st ++ [Re.consumed (String z r) (fst st)])%list))
            (Re.run (Re.MaxRepeat 1 Re.CATEGORY_WORD) (String z r) groups)).
  rewrite E2. cbn [map fst snd app].
  change (String z r) with (String z "" ++ r). rewrite consumed_append.
  eexists. reflexivity.
Qed.

(** The runs of digits the pattern tries first: all of them, then all but
    the last. *)
Lemma run_number_two t z r :
  t <> "" -> all_in Re.CATEGORY_DIGIT t = true -> Re.is_digit z = true ->
  starts_outside Re.CATEGORY_DIGIT r = true ->
  exists l,
    Re.run (Re.Subpattern (Re.MaxRepeat 1 Re.CATEGORY_DIGIT)) (t ++ String z r) []
    = (r, [t ++ String z ""]) :: (String z r, [t]) :: l.
Proof.
  intros Hne Ht Hz Hr.
  destruct (greedy_two Re.CATEGORY_DIGIT t z r Ht Hz Hr) as [l E].
  cbn [Re.run]. rewrite E. cbn [filter list_filter].
  rewrite !length_append. cbn [String.length].
  pose proof (nonempty_length t Hne) as Hlen.
  destruct (decide _) as [_|Hno];
    [|exfalso; apply Hno; apply Is_true_true, Nat.leb_le; lia].
  destruct (decide _) as [_|Hno];
    [|exfalso; apply Hno; apply Is_true_true, Nat.leb_le; lia].
  cbn [map fst snd app].
  replace (Re.consumed (t ++ String z r) r) with (t ++ String z "").
  2:{ replace (t ++ String z r) with ((t ++ String z "") ++ r)
        by (rewrite append_assoc; reflexivity).
      rewrite consumed_append. reflexivity. }
  rewrite consumed_append. eexists. reflexivity.
Qed.

Lemma run_number_one z r :
  Re.is_digit z = true -> starts_outside Re.CATEGORY_DIGIT r = true ->
  Re.run (Re.Subpattern (Re.MaxRepeat 1 Re.CATEGORY_DIGIT)) (String z r) []
  = [(r, [String z ""])].
Proof.
  intros Hz Hr. cbn [Re.run Re.greedy Re.in_category]. rewrite Hz.
  rewrite (greedy_outside _ r Hr). cbn [app filter list_filter String.length].
  rewrite Nat.sub_diag.
  destruct (decide _) as [_|Hno];
    [|exfalso; apply Hno; apply Is_true_true, Nat.leb_le; lia].
  destruct (decide _) as [Hyes|_];
    [apply Is_true_true in Hyes; discriminate Hyes|].
  cbn [map fst snd app].
  change (String z r) with (String z "" ++ r). rewrite consumed_append. reflexivity.
Qed.

(** What the pattern matches at the start of a text is the occurrence
    [mention_at] describes. *)
Lemma match_here_mention s :
  Re.match_here Transformation.time_pattern s
  = match mention_at s with
    | Some (number, word, rest) => Some (rest, [number; word])
    | None => None
    end.
Proof.
  unfold mention_at.
  destruct (span_spec Re.CATEGORY_DIGIT s) as (Es & Hd & Od).
  set (number := fst (span Re.CATEGORY_DIGIT s)) in *.
  set (after_number := snd (span Re.CATEGORY_DIGIT s)) in *.
  destruct (span_spec Re.CATEGORY_SPACE after_number) as (Ea & Hs & Os).
  set (ws := fst (span Re.CATEGORY_SPACE after_number)) in *.
  set (after_space := snd (span Re.CATEGORY_SPACE after_number)) in *.
  destruct (span_spec Re.CATEGORY_WORD after_space) as (Ew & Hw & Ow).
  set (word := fst (span Re.CATEGORY_WORD after_space)) in *.
  set (rest := snd (span Re.CATEGORY_WORD after_space)) in *.
  cbv zeta.
  destruct number as [|a number'] eqn:En.
  - apply match_here_no_digit. rewrite Es. change ("" ++ after_number) with after_number.
    destruct after_number as [|b r]; [exact I|].
    cbn [starts_outside Re.in_category] in Od. apply negb_true_iff, Od.
  - destruct word as [|b word'] eqn:Eword.
    + change ("" ++ rest) with rest in Ew.
      assert (Hrest : starts_outside Re.CATEGORY_WORD after_space = true)
        by (rewrite Ew; exact Ow).
      assert (Hafter : starts_outside Re.CATEGORY_WORD after_number = true).
      { rewrite Ea. destruct ws as [|c ws']; [exact Hrest|].
        cbn [all_in Re.in_category] in Hs. apply andb_true_iff in Hs as [Hc _].
        rewrite append_cons. cbn [starts_outside Re.in_category].
        rewrite (space_is_no_word c Hc). reflexivity. }
      pose proof (split_last_spec (String a number')) as Hsplit.
      destruct (split_last (String a number')) as [[t z]|]; [|discriminate Hsplit].
      assert (Hz : Re.is_digit z = true /\ all_in Re.CATEGORY_DIGIT t = true).
      { rewrite Hsplit in Hd. clear - Hd. induction t as [|c t IH].
        - cbn [append all_in Re.in_category] in Hd.
          apply andb_true_iff in Hd as [Hz _]. split; [exact Hz|reflexivity].
        - rewrite append_cons in Hd. cbn [all_in] in Hd.
          apply andb_true_iff in Hd as [Hc Hd]. destruct (IH Hd) as [Hz Ht].
          split; [exact Hz|]. cbn [all_in]. rewrite Hc, Ht. reflexivity. }
      destruct Hz as [Hz Ht].
      unfold Re.match_here, Transformation.time_pattern.
      change (Re.run (Re.Seq ?p ?q) s [])
        with (flat_map (fun st => Re.run q (fst st) (snd st)) (Re.run p s [])).
      rewrite Es, Hsplit, append_assoc.
      change (String z "" ++ after_number) with (String z after_number).
      destruct t as [|c t'].
      * change ("" ++ String z after_number) with (String z after_number).
        rewrite (run_number_one z after_number Hz Od). cbn [flat_map fst snd].
        rewrite Ea at 1.
        rewrite (run_rest_no_word ws after_space _ Hs Os Hrest). reflexivity.
      * destruct (run_number_two (String c t') z after_number ltac:(discriminate)
                    Ht Hz Od) as [l E].
        rewrite E. cbn [flat_map fst snd].
        rewrite Ea at 1.
        rewrite (run_rest_no_word ws after_space _ Hs Os Hrest). cbn [app].
        destruct (run_rest_digit z after_number [String c t'] Hz Hafter) as [l' E'].
        rewrite E'. reflexivity.
    + rewrite Es, Ea, Ew.
      apply match_here_maximal; try assumption; try discriminate.
      * rewrite <- Ew, <- Ea. exact Od.
      * rewrite <- Ew. exact Os.
Qed.

Lemma scan_skip p t rest :
  Re.scan p (t ++ rest) (String.length t) = Re.scan p rest 0.
Proof.
  induction t as [|a t IH]; [reflexivity|].
  rewrite append_cons. cbn [String.length Re.scan]. exact IH.
Qed.

(** The occurrences [findall] reports are the scanned ones. *)
Lemma findall_scanned s : scanned s (Re.findall Transformation.time_pattern s).
Proof.
  unfold Re.findall.
  remember (String.length s) as n eqn:Hn.
  revert s Hn. induction n as [n IH] using lt_wf_ind. intros s Hn.
  destruct s as [|a s].
  - cbn [Re.scan]. rewrite match_here_no_digit by exact I. constructor.
  - cbn [Re.scan]. pose proof (match_here_mention (String a s)) as Hm.
    destruct (Re.match_here Transformation.time_pattern (String a s))
      as [[rest groups]|] eqn:E.
    + destruct (mention_at (String a s)) as [[[number word] rest']|] eqn:Em;
        [|discriminate Hm].
      injection Hm as -> ->.
      apply match_here_sound in E as (t & Et & M).
      apply time_pattern_shape in M as (nb & ws & wd & _ & Ht & Hne & _).
      destruct t as [|b t].
      { destruct nb; [contradiction|discriminate Ht]. }
      rewrite append_cons in Et. injection Et as <- ->.
      cbn [String.length]. rewrite length_append.
      replace (S (String.length t + String.length rest') - String.length rest' - 1)%nat
        with (String.length t) by lia.
      rewrite scan_skip.
      eapply scanned_mention; [exact Em|].
      eapply IH; [|reflexivity]. subst n. cbn [String.length].
      rewrite length_append. lia.
    + destruct (mention_at (String a s)) as [[[number word] rest']|] eqn:Em;
        [discriminate Hm|].
      apply scanned_next; [exact Em|].
      eapply IH; [|reflexivity]. subst n. cbn [String.length]. lia.
Qed.

(** A direction with one occurrence: a number, white space and a word to
    the end of the text. *)
Lemma scan_skip_all s :
  Re.scan Transformation.time_pattern s (String.length s) = [].
Proof.
  rewrite <- (append_nil_r s) at 1. rewrite scan_skip. cbn [Re.scan].
  rewrite match_here_no_digit by exact I. reflexivity.
Qed.

Lemma findall_one_mention number ws word :
  number <> "" -> all_in Re.CATEGORY_DIGIT number = true ->
  all_in Re.CATEGORY_SPACE ws = true ->
  word <> "" -> all_in Re.CATEGORY_WORD word = true ->
  starts_outside Re.CATEGORY_DIGIT (ws ++ word) = true ->
  starts_outside Re.CATEGORY_SPACE word = true ->
  Re.findall Transformation.time_pattern (number ++ ws ++ word) = [[number; word]].
Proof.
  intros Hn Hd Hs Hw Hword Od Os.
  pose proof (match_here_maximal number ws word "" Hn Hd Hs Hw Hword) as Hm.
  rewrite !append_nil_r in Hm. specialize (Hm Od Os eq_refl).
  unfold Re.findall. destruct (number ++ ws ++ word) as [|a s] eqn:E.
  { destruct number; [contradiction|discriminate E]. }
  cbn [Re.scan]. rewrite Hm. cbn [String.length].
  replace (S (String.length s) - 0 - 1)%nat with (String.length s) by lia.
  rewrite scan_skip_all. reflexivity.
Qed.

Lemma all_in_ones n : all_in Re.CATEGORY_DIGIT (ones n) = true.
Proof. induction n as [|n IH]; [reflexivity|]. cbn [ones all_in]. rewrite IH. reflexivity. Qed.

Lemma length_ones n : String.length (ones n) = n.
Proof. induction n as [|n IH]; [reflexivity|]. cbn [ones String.length]. rewrite IH. reflexivity. Qed.

Lemma ones_nonempty n : ones (S n) <> "".
Proof. discriminate. Qed.

Lemma fits_no_mention direction :
  Forall (fun m => mention_seconds m = None)
    (Re.findall Transformation.time_pattern direction) ->
  fits direction = true.
Proof.
  intros H. unfold fits. apply forallb_forall. intros m Hm.
  rewrite Forall_forall in H. specialize (H m (proj2 (list_elem_of_In _ _) Hm)).
  destruct m as [|number [|word [|x m]]]; try reflexivity.
  cbn [mention_seconds] in H. cbn [fits_mention].
  destruct (unit_seconds word); [discriminate H|reflexivity].
Qed.

(** C1, as stated, fails in two ways. The text "20 minutes" is an
    occurrence of the pattern in "Bake at 350 20 minutes" and its word is a
    unit, worth 1200 seconds; the scan reports the overlapping occurrence
    "350 20" instead, and the direction contributes the default 300. And a
    number of 4301 digits before a unit is not converted: the estimate
    raises a [ValueError]. *)
Lemma C1_unit_occurrence_not_counted :
  matches Transformation.time_pattern "20 minutes" ["20"; "minutes"]
  /\ "Bake at 350 20 minutes" = "Bake at 350 " ++ "20 minutes" ++ ""
  /\ mention_seconds ["20"; "minutes"] = Some 1200
  /\ Re.findall Transformation.time_pattern "Bake at 350 20 minutes" = [["350"; "20"]]
  /\ Transformation.get_time_estimate (VList [VStr "Bake at 350 20 minutes"]) = Ok 300
  /\ (exists msg,
        Transformation.get_time_estimate (VList [VStr (ones 4301 ++ " hours")])
        = Raise (Exn ValueError msg)).
Proof.
  split; [|split; [|split; [|split; [|split]]]].
  - apply (matches_Seq _ _ "20" " minutes" ["20"] ["minutes"]).
    + apply (matches_Subpattern _ "20" []). constructor; [reflexivity|simpl; lia].
    + apply (matches_Seq _ _ " " "minutes" [] ["minutes"]).
      * constructor; [reflexivity|simpl; lia].
      * apply (matches_Subpattern _ "minutes" []). constructor; [reflexivity|simpl; lia].
  - reflexivity.
  - reflexivity.
  - vm_compute. reflexivity.
  - vm_compute. reflexivity.
  - unfold Transformation.get_time_estimate. cbn [py_iter bind].
    apply (directions_loop_exceeds [] (ones 4301 ++ " hours") [] 0); [constructor|].
    unfold fits.
    change (ones 4301 ++ " hours") with (ones 4301 ++ " " ++ "hours").
    rewrite findall_one_mention;
      [|exact (ones_nonempty 4300)|apply all_in_ones|reflexivity|discriminate
       |reflexivity|reflexivity|reflexivity].
    cbn [forallb fits_mention]. change (unit_seconds "hours") with (Some 3600).
    rewrite length_ones. reflexivity.
Qed.

(** C1, amended. The time estimate of a list of direction strings is the
    sum of what each string contributes, as long as every number that
    stands before a unit has at most 4300 digits; with a longer one the
    estimate raises a [ValueError]. The scan of a string reports
    occurrences of digits, optional white space and a word, left to right
    and without overlap: at each place the longest run of digits, the
    longest run of white space and the longest run of word characters
    (letters, digits, the underscore), or, when no word character follows,
    all but the last digit of the number with that digit as the word; an
    occurrence that starts inside a reported one is not reported. A
    reported occurrence whose word is hour(s), minute(s) or second(s)
    contributes the number times 3600, 60 or 1; a string with no such
    occurrence contributes 300, whether or not it has occurrences with
    other words. *)
Theorem C1_time_estimate :
  (forall directions : list string,
     Forall (fun d => fits d = true) directions ->
     Transformation.get_time_estimate (VList (map VStr directions))
     = Ok (sum_Z (map direction_seconds directions)))
  /\ (forall (pre : list string) (d : string) (post : list string),
        Forall (fun d => fits d = true) pre -> fits d = false ->
        exists msg,
          Transformation.get_time_estimate (VList (map VStr (pre ++ d :: post)))
          = Raise (Exn ValueError msg))
  /\ (forall direction, scanned direction (Re.findall Transformation.time_pattern direction))
  /\ (forall direction m,
        m ∈ Re.findall Transformation.time_pattern direction ->
        exists pre number ws word post,
          m = [number; word]
          /\ direction = pre ++ number ++ ws ++ word ++ post
          /\ number <> "" /\ all_in Re.CATEGORY_DIGIT number = true
          /\ all_in Re.CATEGORY_SPACE ws = true
          /\ word <> "" /\ all_in Re.CATEGORY_WORD word = true)
  /\ (forall number ws word rest,
        number <> "" -> all_in Re.CATEGORY_DIGIT number = true ->
        all_in Re.CATEGORY_SPACE ws = true ->
        word <> "" -> all_in Re.CATEGORY_WORD word = true ->
        starts_outside Re.CATEGORY_DIGIT (ws ++ word ++ rest) = true ->
        starts_outside Re.CATEGORY_SPACE (word ++ rest) = true ->
        starts_outside Re.CATEGORY_WORD rest = true ->
        Re.match_here Transformation.time_pattern (number ++ ws ++ word ++ rest)
        = Some (rest, [number; word]))
  /\ (forall word seconds,
        Transformation.TIME_UNITS !! word = Some seconds <->
        ((word = "hour" \/ word = "hours") /\ seconds = 3600)
        \/ ((word = "minute" \/ word = "minutes") /\ seconds = 60)
        \/ ((word = "second" \/ word = "seconds") /\ seconds = 1))
  /\ (forall direction,
        Forall (fun m => mention_seconds m = None)
          (Re.findall Transformation.time_pattern direction) ->
        Transformation.get_time_estimate (VList [VStr direction]) = Ok 300)
  /\ (forall direction,
        has_digit direction = false ->
        Transformation.get_time_estimate (VList [VStr direction]) = Ok 300)
  /\ Transformation.get_time_estimate (VList [VStr "Boil for 10 minutes"]) = Ok 600
  /\ Transformation.get_time_estimate (VList [VStr "Wait 2 hours and 30 minutes"]) = Ok 9000
  /\ Re.findall Transformation.time_pattern "Add 10 dashes" = [["10"; "dashes"]]
  /\ Transformation.get_time_estimate (VList [VStr "Add 10 dashes"]) = Ok 300
  /\ Re.findall Transformation.time_pattern "Bake at 350 20 minutes" = [["350"; "20"]]
  /\ Transformation.get_time_estimate (VList [VStr "Bake at 350 20 minutes"]) = Ok 300
  /\ Re.findall Transformation.time_pattern "Heat to 350." = [["35"; "0"]].
Proof.
  assert (Hsum : forall directions : list string,
     Forall (fun d => fits d = true) directions ->
     Transformation.get_time_estimate (VList (map VStr directions))
     = Ok (sum_Z (map direction_seconds directions))).
  { intros ds Hfit. unfold Transformation.get_time_estimate. cbn [py_iter bind].
    rewrite directions_loop_spec by exact Hfit. reflexivity. }
  split; [exact Hsum|]. split; [|split; [|split; [|split; [|split; [|split; [|split]]]]]].
  - intros pre d post Hpre Hd. unfold Transformation.get_time_estimate.
    cbn [py_iter bind]. apply directions_loop_exceeds; assumption.
  - apply findall_scanned.
  - intros d m H. apply scan_sound in H as (pre & t & post & -> & M).
    apply time_pattern_shape in M as (number & ws & word & -> & -> & ? & ? & ? & ? & ?).
    exists pre, number, ws, word, post. rewrite !append_assoc. repeat split; assumption.
  - apply match_here_maximal.
  - intros word seconds. rewrite TIME_UNITS_lookup. unfold unit_seconds.
    repeat case_bool_decide;
      (split; intros Hx;
       [first [discriminate Hx | injection Hx as <-; tauto]
       |intuition (subst; congruence)]).
  - intros d H. change [VStr d] with (map VStr [d]).
    rewrite Hsum by (constructor; [apply fits_no_mention; exact H|constructor]).
    cbn [map sum_Z fold_right].
    unfold direction_seconds.
    replace (omap mention_seconds (Re.findall Transformation.time_pattern d))
      with (@nil Z); [reflexivity|].
    induction H as [|m ms Hm _ IH]; [reflexivity|].
    rewrite omap_cons, Hm. exact IH.
  - intros d H. change [VStr d] with (map VStr [d]).
    assert (Hnone : Re.findall Transformation.time_pattern d = [])
      by (apply scan_no_digit; exact H).
    rewrite Hsum by (constructor; [unfold fits; rewrite Hnone; reflexivity|constructor]).
    cbn [map sum_Z fold_right].
    unfold direction_seconds. rewrite Hnone. reflexivity.
  - repeat split; vm_compute; reflexivity.
Qed.

(** ** Converting a length to a double *)

Lemma digits2_pos_bounds p :
  2 ^ (Z.pos (digits2_pos p) - 1) <= Z.pos p < 2 ^ Z.pos (digits2_pos p).
Proof.
  induction p as [p IH|p IH|]; cbn [digits2_pos].
  - rewrite Pos2Z.inj_succ.
    replace (Z.succ (Z.pos (digits2_pos p)) - 1) with (Z.succ (Z.pos (digits2_pos p) - 1)) by lia.
    rewrite !Z.pow_succ_r by lia. lia.
  - rewrite Pos2Z.inj_succ.
    replace (Z.succ (Z.pos (digits2_pos p)) - 1) with (Z.succ (Z.pos (digits2_pos p) - 1)) by lia.
    rewrite !Z.pow_succ_r by lia. lia.
  - simpl. lia.
Qed.

Lemma digits2_pos_shift d p :
  digits2_pos (Pos.iter xO p d) = (digits2_pos p + d)%positive.
Proof.
  induction d as [|d IH] using Pos.peano_ind.
  - simpl. lia.
  - rewrite Pos.iter_succ. cbn [digits2_pos]. rewrite IH. lia.
Qed.

Lemma digits2_pos_small p : Z.pos p < 2 ^ 53 -> Z.pos (digits2_pos p) <= 53.
Proof.
  intros H. destruct (Z.le_gt_cases (Z.pos (digits2_pos p)) 53) as [|Hgt]; [assumption|].
  pose proof (digits2_pos_bounds p) as [Hlo _].
  assert (2 ^ 53 <= 2 ^ (Z.pos (digits2_pos p) - 1)) by (apply Z.pow_le_mono_r; lia).
  lia.
Qed.

(** A mantissa of exactly 53 digits with a small exponent is already
    rounded. *)
Lemma binary_round_aux_exact m e :
  digits2_pos m = 53%positive -> -1074 <= e <= 971 ->
  binary_round_aux 53 1024 false (Z.pos m) e loc_Exact = S754_finite false m e.
Proof.
  intros Hd He. unfold binary_round_aux, shr_fexp.
  cbn [Zdigits2 shr_record_of_loc]. rewrite Hd.
  assert (Hf : fexp 53 1024 (53 + e) - e = 0).
  { unfold fexp, emin. lia. }
  rewrite Hf. cbn [shr shr_m loc_of_shr_record round_nearest_even Zdigits2].
  rewrite Hd, Hf. cbn [shr shr_m].
  destruct (Z.leb_spec e (1024 - 53)); [reflexivity|lia].
Qed.

Lemma of_int_small (z : Z) :
  0 <= z < 2 ^ 53 ->
  match Float.of_int z with S754_infinity _ => False | _ => True end.
Proof.
  intros Hz. unfold Float.of_int, binary_normalize.
  destruct z as [|p|p]; [exact I| |lia].
  unfold binary_round, shl_align, Float.prec, Float.emax.
  pose proof (digits2_pos_small p ltac:(lia)) as Hn.
  assert (Hf : fexp 53 1024 (Z.pos (digits2_pos p) + 0) = Z.pos (digits2_pos p) - 53).
  { unfold fexp, emin. lia. }
  rewrite Hf.
  destruct (Z.pos (digits2_pos p) - 53 - 0) as [|q|q] eqn:E.
  - rewrite binary_round_aux_exact; [exact I| |lia]. lia.
  - lia.
  - rewrite binary_round_aux_exact; [exact I| |lia].
    rewrite digits2_pos_shift. lia.
Qed.

Lemma int_times_small (z : Z) (x : Float.float) :
  0 <= z < 2 ^ 53 -> Float.int_times z x = Ok (Float.mul (Float.of_int z) x).
Proof.
  intros Hz. unfold Float.int_times.
  pose proof (of_int_small z Hz) as H.
  destruct (Float.of_int z); try reflexivity. contradiction.
Qed.

(** ** Comparing a double with 4 and with 8 *)

Lemma bounded_shape m e :
  bounded 53 1024 m e = true ->
  -1074 <= e /\ Z.pos m < 2 ^ 53 /\ (-1074 < e -> 2 ^ 52 <= Z.pos m).
Proof.
  unfold bounded, canonical_mantissa, fexp, emin. intros H.
  apply andb_true_iff in H as [H _]. apply Z.eqb_eq in H.
  pose proof (digits2_pos_bounds m) as [Hlo Hhi].
  assert (HD : Z.pos (digits2_pos m) <= 53) by lia.
  split; [lia|]. split.
  - eapply Z.lt_le_trans; [exact Hhi|]. apply Z.pow_le_mono_r; lia.
  - intros He. replace (Z.pos (digits2_pos m)) with 53 in Hlo by lia. exact Hlo.
Qed.

(** [ltb] against the double [2^52 * 2^t] decides the order of the
    values. *)
Lemma ltb_pow2 s m e t :
  bounded 53 1024 m e = true -> -1074 <= t ->
  Float.ltb (S754_finite s m e) (S754_finite false 4503599627370496 t) = true
  <-> (if s then Z.neg m else Z.pos m) * 2 ^ (e + 1074) < 2 ^ 52 * 2 ^ (t + 1074).
Proof.
  intros Hb Ht. destruct (bounded_shape m e Hb) as (He & Hm & Hnorm).
  assert (Ha : 0 < 2 ^ (e + 1074)) by (apply Z.pow_pos_nonneg; lia).
  assert (Hbt : 0 < 2 ^ (t + 1074)) by (apply Z.pow_pos_nonneg; lia).
  unfold Float.ltb, SFltb, SFcompare.
  destruct s.
  - split; [intros _|reflexivity].
    apply Z.lt_trans with 0.
    + apply Z.mul_neg_pos; [reflexivity|exact Ha].
    + apply Z.mul_pos_pos; [apply Z.pow_pos_nonneg; lia|exact Hbt].
  - destruct (Z.compare_spec e t) as [->|Hlt|Hgt].
    + rewrite Pos.compare_cont_spec, Pos2Z.inj_compare.
      change (Z.pos 4503599627370496) with (2 ^ 52).
      destruct (Z.compare_spec (Z.pos m) (2 ^ 52)) as [E|E|E]; cbn [Pos.switch_Eq].
      * split; [discriminate|]. rewrite E. lia.
      * split; [intros _|reflexivity]. apply Z.mul_lt_mono_pos_r; assumption.
      * split; [discriminate|]. intros H.
        apply Z.mul_lt_mono_pos_r in H; [|assumption]. lia.
    + split; [intros _|reflexivity].
      assert (Hpow : 2 * 2 ^ (e + 1074) <= 2 ^ (t + 1074)).
      { replace (2 * 2 ^ (e + 1074)) with (2 ^ (e + 1 + 1074)).
        - apply Z.pow_le_mono_r; lia.
        - replace (e + 1 + 1074) with (Z.succ (e + 1074)) by lia.
          rewrite Z.pow_succ_r by lia. reflexivity. }
      apply Z.lt_le_trans with (2 ^ 52 * (2 * 2 ^ (e + 1074))).
      * replace (2 ^ 52 * (2 * 2 ^ (e + 1074))) with (2 ^ 53 * 2 ^ (e + 1074)).
        -- apply Z.mul_lt_mono_pos_r; assumption.
        -- change (2 ^ 53) with (2 ^ 52 * 2). rewrite Z.mul_assoc. reflexivity.
      * apply Z.mul_le_mono_nonneg_l; [apply Z.pow_nonneg; lia|exact Hpow].
    + split; [discriminate|]. intros H.
      assert (Hpow : 2 ^ (t + 1074) < 2 ^ (e + 1074)) by (apply Z.pow_lt_mono_r; lia).
      specialize (Hnorm ltac:(lia)).
      assert (2 ^ 52 * 2 ^ (t + 1074) < Z.pos m * 2 ^ (e + 1074)).
      { apply Z.lt_le_trans with (2 ^ 52 * 2 ^ (e + 1074)).
        - apply Z.mul_lt_mono_pos_l; [apply Z.pow_pos_nonneg; lia|exact Hpow].
        - apply Z.mul_le_mono_nonneg_r; [lia|exact Hnorm]. }
      lia.
Qed.

Lemma below_scaled s m e t :
  -1074 <= e -> 0 <= t + 52 ->
  below (S754_finite s m e) (2 ^ (t + 52))
  <-> (if s then Z.neg m else Z.pos m) * 2 ^ (e + 1074) < 2 ^ 52 * 2 ^ (t + 1074).
Proof.
  intros He Ht. unfold below. cbn [Float.exact].
  set (n := if s then Z.neg m else Z.pos m).
  replace (2 ^ 52 * 2 ^ (t + 1074)) with (2 ^ (t + 52) * 2 ^ 1074).
  2:{ rewrite <- !Z.pow_add_r by lia. f_equal. lia. }
  generalize (2 ^ (t + 52)). intros N.
  assert (HP : 0 < 2 ^ 1074) by (apply Z.pow_pos_nonneg; lia).
  destruct (Z.leb_spec 0 e) as [Hpos|Hneg].
  - replace (e + 1074) with (e + 1074) by reflexivity.
    rewrite (Z.pow_add_r 2 e 1074) by lia. rewrite Z.mul_assoc, Z.mul_1_r.
    apply Z.mul_lt_mono_pos_r. exact HP.
  - assert (Hq : 0 < 2 ^ (e + 1074)) by (apply Z.pow_pos_nonneg; lia).
    replace (N * 2 ^ 1074) with (N * 2 ^ (- e) * 2 ^ (e + 1074)).
    2:{ rewrite <- Z.mul_assoc, <- Z.pow_add_r by lia. do 2 f_equal. lia. }
    apply Z.mul_lt_mono_pos_r. exact Hq.
Qed.

(** On a finite double, [f < 4] and [f < 8] as the code tests them are the
    order of the values. *)
Lemma ltb_threshold (f : Float.float) (k : Z) :
  is_finite_double f -> k = 2 \/ k = 3 ->
  Float.ltb f (Float.of_int (2 ^ k)) = true <-> below f (2 ^ k).
Proof.
  intros [Hvalid Hfin] Hk.
  assert (Hof : Float.of_int (2 ^ k) = S754_finite false 4503599627370496 (k - 52))
    by (destruct Hk as [-> | ->]; reflexivity).
  rewrite Hof. destruct f as [s|s| |s m e]; try (exfalso; apply Hfin; reflexivity).
  - unfold below. cbn [Float.exact]. split; [intros _|reflexivity].
    destruct Hk as [-> | ->]; reflexivity.
  - cbn [valid_binary] in Hvalid.
    destruct (bounded_shape m e Hvalid) as (He & _).
    rewrite ltb_pow2 by (try assumption; lia).
    replace k with (k - 52 + 52) at 2 by lia.
    rewrite below_scaled by lia. reflexivity.
Qed.

(** The flag of a finite double, by the order of the values. *)
Lemma flag_by_value (score : Float.float) :
  is_finite_double score ->
  (Transformation.get_difficulty_flag score = "easy" <-> below score 4)
  /\ (Transformation.get_difficulty_flag score = "medium"
      <-> ~ below score 4 /\ below score 8)
  /\ (Transformation.get_difficulty_flag score = "hard" <-> ~ below score 8).
Proof.
  intros Hfin.
  pose proof (ltb_threshold score 2 Hfin ltac:(lia)) as H4.
  pose proof (ltb_threshold score 3 Hfin ltac:(lia)) as H8.
  change (2 ^ 2) with 4 in H4. change (2 ^ 3) with 8 in H8.
  assert (H48 : below score 4 -> below score 8).
  { unfold below. destruct (Float.exact score) as [[num den]|] eqn:E; [|tauto].
    assert (0 < den).
    { destruct score as [s|s| |s m e]; cbn [Float.exact] in E; try discriminate.
      - inversion E. lia.
      - destruct (Z.leb_spec 0 e); inversion E; [lia|]. apply Z.pow_pos_nonneg; lia. }
    intros H4'. lia. }
  unfold Transformation.get_difficulty_flag.
  destruct (Float.ltb score (Float.of_int 4)) eqn:E4;
    destruct (Float.ltb score (Float.of_int 8)) eqn:E8;
    repeat split; try discriminate; try tauto;
    intuition (try discriminate; try congruence).
Qed.

(** ** The complexity score and the difficulty flag *)

(** C3, as stated, fails: for six directions and one ingredient the exact
    score is 0.6 * 6 + 0.4 * 1 = 4, which the stated table flags medium;
    the code computes a double just below 4 and flags the record easy. *)
Lemma C3_score_not_exact :
  exists score,
    Transformation.get_complexity_score one_ingredient six_directions = Ok score
    /\ ~ is_tenths score (6 * 6 + 4 * 1)
    /\ Transformation.get_difficulty_flag score = "easy"
    /\ exact_flag (6 * 6 + 4 * 1) = "medium".
Proof.
  eexists. split; [vm_compute; reflexivity|]. split; [|split; vm_compute; reflexivity].
  intros (num & den & E & H). vm_compute in E. inversion E; subst. discriminate H.
Qed.

Lemma close_and_agrees_100 :
  forallb (fun d => forallb (fun i => close_and_agrees (Z.of_nat d) (Z.of_nat i)) (seq 0 101))
    (seq 0 101) = true.
Proof. vm_compute. reflexivity. Qed.

(** C3, amended. The score is the double [(d * 0.6) + (i * 0.4)], each
    operation rounded to nearest, with [0.6] and [0.4] the doubles nearest
    to those numbers; it is computed without error for every record whose
    lists have fewer than 2^53 items. The flag is the function of that
    double given by the two thresholds: easy when its value is below 4,
    medium from 4 up to 8, hard from 8 on, so 4.0 gives medium and 8.0
    gives hard. For up to 100 directions and 100 ingredients the double is
    finite and within 2^-46 of the exact score, and its flag is the flag of
    the exact score except for 6 directions with 1 ingredient and 12
    directions with 2 ingredients. For 6 and 1 the double is 4 - 2^-51
    (3.9999999999999996 to sixteen decimals) and the flag is easy, not
    medium; for 12 and 2 it is 8 - 2^-50 (7.999999999999999 to fifteen
    decimals) and the flag is medium, not hard. *)
Theorem C3_score_and_flag :
  (forall ingredients directions : list value,
     Z.of_nat (length directions) < 2 ^ 53 ->
     Z.of_nat (length ingredients) < 2 ^ 53 ->
     Transformation.get_complexity_score (VList ingredients) (VList directions)
     = Ok (double_score (Z.of_nat (length directions)) (Z.of_nat (length ingredients))))
  /\ (Float.exact Float.lit_0_6 = Some (5404319552844595, 2 ^ 53)
      /\ Z.abs (10 * 5404319552844595 - 6 * 2 ^ 53) <= 5
      /\ Float.exact Float.lit_0_4 = Some (7205759403792794, 2 ^ 54)
      /\ Z.abs (10 * 7205759403792794 - 4 * 2 ^ 54) <= 5)
  /\ (forall score,
        is_finite_double score ->
        (Transformation.get_difficulty_flag score = "easy" <-> below score 4)
        /\ (Transformation.get_difficulty_flag score = "medium"
            <-> ~ below score 4 /\ below score 8)
        /\ (Transformation.get_difficulty_flag score = "hard" <-> ~ below score 8))
  /\ (forall score flag,
        Transformation.get_difficulty_flag score = flag ->
        flag = "easy" \/ flag = "medium" \/ flag = "hard")
  /\ Transformation.get_difficulty_flag (Float.of_int 4) = "medium"
  /\ Transformation.get_difficulty_flag (Float.of_int 8) = "hard"
  /\ double_score 4 4 = Float.of_int 4
  /\ double_score 8 8 = Float.of_int 8
  /\ (forall d i : nat, (d <= 100)%nat -> (i <= 100)%nat ->
        let score := double_score (Z.of_nat d) (Z.of_nat i) in
        let tenths := 6 * Z.of_nat d + 4 * Z.of_nat i in
        is_finite_double score
        /\ (exists num den,
              Float.exact score = Some (num, den) /\ 0 < den
              /\ 2 ^ 46 * Z.abs (10 * num - tenths * den) <= 10 * den)
        /\ (Transformation.get_difficulty_flag score = exact_flag tenths
            \/ (d = 6%nat /\ i = 1%nat) \/ (d = 12%nat /\ i = 2%nat)))
  /\ (Float.exact (double_score 6 1) = Some (2 ^ 53 - 1, 2 ^ 51)
      /\ 2 * Z.abs (10 ^ 16 * (2 ^ 53 - 1) - 39999999999999996 * 2 ^ 51) < 2 ^ 51
      /\ Transformation.get_difficulty_flag (double_score 6 1) = "easy"
      /\ exact_flag (6 * 6 + 4 * 1) = "medium")
  /\ (Float.exact (double_score 12 2) = Some (2 ^ 53 - 1, 2 ^ 50)
      /\ 2 * Z.abs (10 ^ 15 * (2 ^ 53 - 1) - 7999999999999999 * 2 ^ 50) < 2 ^ 50
      /\ Transformation.get_difficulty_flag (double_score 12 2) = "medium"
      /\ exact_flag (6 * 12 + 4 * 2) = "hard").
Proof.
  split; [|split; [|split; [|split; [|split; [|split; [|split; [|split; [|split; [|split]]]]]]]]];
    [| | | | | | | | |repeat split; vm_compute; reflexivity
     |repeat split; vm_compute; reflexivity].
  - intros ingredients directions Hd Hi.
    unfold Transformation.get_complexity_score. cbn [py_len bind].
    rewrite int_times_small by lia. cbn [bind].
    rewrite int_times_small by lia. reflexivity.
  - repeat split; vm_compute; congruence.
  - apply flag_by_value.
  - intros score flag <-. unfold Transformation.get_difficulty_flag.
    destruct (Float.ltb score _); [tauto|]. destruct (Float.ltb score _); tauto.
  - vm_compute. reflexivity.
  - vm_compute. reflexivity.
  - vm_compute. reflexivity.
  - vm_compute. reflexivity.
  - intros d i Hd Hi score tenths.
    pose proof close_and_agrees_100 as H.
    rewrite forallb_forall in H. specialize (H d). rewrite in_seq in H.
    specialize (H ltac:(lia)). rewrite forallb_forall in H.
    specialize (H i). rewrite in_seq in H. specialize (H ltac:(lia)).
    unfold close_and_agrees in H. cbn zeta in H. fold score tenths in H.
    apply andb_true_iff in H as [Hclose Hflag].
    apply andb_true_iff in Hclose as [Hvalid Hclose].
    destruct (Float.exact score) as [[num den]|] eqn:Eexact; [|discriminate].
    split; [|split].
    + split; [exact Hvalid|]. rewrite Eexact. discriminate.
    + apply andb_true_iff in Hclose as [Hden Hclose].
      exists num, den. split; [reflexivity|]. split; [apply Z.ltb_lt, Hden|].
      apply Z.leb_le, Hclose.
    + apply orb_true_iff in Hflag as [Hflag|Hflag].
      * apply orb_true_iff in Hflag as [Hflag|Hflag].
        -- left. apply String.eqb_eq, Hflag.
        -- right. left. apply andb_true_iff in Hflag as [?%Z.eqb_eq ?%Z.eqb_eq]. lia.
      * right. right. apply andb_true_iff in Hflag as [?%Z.eqb_eq ?%Z.eqb_eq]. lia.
Qed.

Lemma C3_score_and_flag_witness :
  Transformation.get_complexity_score one_ingredient six_directions
  = Ok (double_score 6 1).
Proof.
  apply (proj1 C3_score_and_flag [VStr "1 egg"]
           [VStr "Crack"; VStr "Whisk"; VStr "Heat"; VStr "Pour"; VStr "Fold"; VStr "Serve"]);
    simpl; lia.
Defined.

Section ExtractionProperties.
Import Extraction.

(** ** Paths *)

Lemma str_split_nonempty sep s : str_split sep s <> [].
Proof.
  destruct s as [|a s]; cbn [str_split]; [discriminate|].
  destruct (Ascii.eqb a sep); [discriminate|].
  destruct (str_split sep s); discriminate.
Qed.

Lemma str_split_two sep (a b : string) :
  (2 <= length (str_split sep (a ++ String sep b)))%nat.
Proof.
  induction a as [|c a IH].
  - change ("" ++ String sep b) with (String sep b). cbn [str_split].
    rewrite Ascii.eqb_refl. cbn [length].
    pose proof (str_split_nonempty sep b).
    destruct (str_split sep b); [contradiction|]. cbn [length]. lia.
  - rewrite append_cons. cbn [str_split].
    destruct (Ascii.eqb c sep).
    + cbn [length]. pose proof (str_split_nonempty sep (a ++ String sep b)).
      destruct (str_split sep (a ++ String sep b)); [contradiction|]. cbn [length]. lia.
    + destruct (str_split sep (a ++ String sep b)) as [|p ps]; [simpl in IH; lia|].
      exact IH.
Qed.

(** A path with a slash has a directory part. *)
Lemma dirname_nonempty (a b : string) : Extraction.dirname (a ++ "/" ++ b) <> "".
Proof.
  unfold Extraction.dirname.
  change ("/" ++ b) with (String "/" b).
  pose proof (str_split_two "/" a b) as H.
  destruct (str_split "/" (a ++ String "/" b)) as [|p [|q ps]]; [simpl in H; lia..|].
  change (removelast (p :: q :: ps)) with (p :: removelast (q :: ps)).
  cbn [map]. generalize (map (fun p0 : string => p0 ++ "/") (removelast (q :: ps))).
  intros l. set (head := String.concat "" _).
  assert (Hhead : head <> "").
  { subst head. intros E. apply (f_equal String.length) in E.
    destruct l; cbn [String.concat] in E; rewrite ?length_append in E;
      cbn [String.length] in E; lia. }
  destruct (Extraction.rstrip_slash head); [exact Hhead|discriminate].
Qed.

(** ** The artifact writer *)

Lemma keeps_queue_bind {A B} (m : M A) (k : A -> M B) :
  keeps_queue m -> (forall a, keeps_queue (k a)) -> keeps_queue (Eff.mbind m k).
Proof.
  intros Hm Hk w r w' H. unfold Eff.mbind in H.
  destruct (m w) as [[a|e] w1] eqn:E.
  - apply Hk in H. apply Hm in E. congruence.
  - inversion H; subst. apply Hm in E. exact E.
Qed.

Lemma keeps_queue_ret {A} (a : A) : keeps_queue (Eff.ret a).
Proof. intros w r w' H. inversion H. reflexivity. Qed.

Lemma keeps_queue_throw {A} (e : exn) : keeps_queue (@Eff.throw world A e).
Proof. intros w r w' H. inversion H. reflexivity. Qed.

Lemma keeps_queue_print line : keeps_queue (print line).
Proof. intros w r w' H. inversion H. reflexivity. Qed.

Lemma keeps_queue_external o : keeps_queue (external o).
Proof.
  intros w r w' H. unfold external in H.
  destruct (raises (env w) o); inversion H; reflexivity.
Qed.

Lemma keeps_queue_os_makedirs path : keeps_queue (os_makedirs path).
Proof.
  apply keeps_queue_bind; [apply keeps_queue_external|]. intros _.
  destruct path; [apply keeps_queue_throw|].
  intros w r w' H. inversion H. reflexivity.
Qed.

Lemma keeps_queue_to_parquet recipes path : keeps_queue (to_parquet recipes path).
Proof.
  apply keeps_queue_bind; [apply keeps_queue_external|]. intros _ w r w' H.
  destruct (decide _); inversion H; reflexivity.
Qed.

Lemma keeps_queue_upload path bucket key : keeps_queue (s3_upload_file path bucket key).
Proof.
  apply keeps_queue_bind; [apply keeps_queue_external|]. intros _ w r w' H.
  destruct (local_files w !! path), bucket; inversion H; reflexivity.
Qed.

Lemma keeps_queue_os_remove path : keeps_queue (os_remove path).
Proof.
  apply keeps_queue_bind; [apply keeps_queue_external|]. intros _ w r w' H.
  destruct (local_files w !! path); inversion H; reflexivity.
Qed.

Lemma keeps_queue_create_temp_file recipes bucket :
  keeps_queue (create_temp_file recipes bucket).
Proof.
  unfold create_temp_file.
  apply keeps_queue_bind.
  { intros w r w' H. inversion H. reflexivity. }
  intros temp_key.
  apply keeps_queue_bind; [apply keeps_queue_print|intros _].
  apply keeps_queue_bind; [apply keeps_queue_os_makedirs|intros _].
  apply keeps_queue_bind; [apply keeps_queue_to_parquet|intros _].
  apply keeps_queue_bind; [apply keeps_queue_upload|intros _].
  apply keeps_queue_bind; [apply keeps_queue_os_remove|intros _].
  apply keeps_queue_ret.
Qed.

(** The run of [create_temp_file] up to a failing upload: the scratch
    file has been written and nothing removes it. *)
Lemma create_temp_file_upload_raises w recipes bucket e :
  raises (env w) (Makedirs (dirname (next_key w))) = None ->
  raises (env w) (ToParquet recipes (next_key w)) = None ->
  raises (env w) (UploadFile (next_key w) bucket (next_key w)) = Some e ->
  exists w',
    create_temp_file recipes bucket w = (Raise e, w')
    /\ local_files w' = <[next_key w := recipes]> (local_files w)
    /\ s3_objects w' = s3_objects w.
Proof.
  intros Hmk Hpq Hup.
  pose proof (dirname_nonempty (strftime_now (env w))
                (uuid4 (env w) (next_uuid w) ++ ".parquet")) as Hdir.
  fold (next_key w) in Hdir.
  unfold create_temp_file, create_s3_bucket_key, Eff.mbind at 1.
  fold (next_key w).
  unfold Eff.mbind at 1. unfold print at 1.
  unfold Eff.mbind at 1. unfold os_makedirs, Eff.mbind at 1, external at 1.
  simpl env. rewrite Hmk.
  destruct (dirname (next_key w)) as [|c d] eqn:Ed; [contradiction|].
  unfold Eff.mbind at 1. unfold to_parquet, Eff.mbind at 1, external at 1.
  simpl env. rewrite Hpq. rewrite Ed. simpl local_dirs.
  destruct (decide _) as [_|Hnot]; [|exfalso; apply Hnot; set_solver].
  unfold Eff.mbind at 1. unfold s3_upload_file, Eff.mbind at 1, external at 1.
  simpl env. rewrite Hup.
  eexists. split; [reflexivity|]. split; reflexivity.
Qed.

(** The run of [create_temp_file] when nothing fails: the artifact is in
    the bucket and the scratch file is gone. *)
Lemma create_temp_file_succeeds w recipes (bucket : string) :
  raises (env w) (Makedirs (dirname (next_key w))) = None ->
  raises (env w) (ToParquet recipes (next_key w)) = None ->
  raises (env w) (UploadFile (next_key w) (VStr bucket) (next_key w)) = None ->
  raises (env w) (Remove (next_key w)) = None ->
  exists w',
    create_temp_file recipes (VStr bucket) w = (Ok (next_key w), w')
    /\ local_files w' !! next_key w = None
    /\ s3_objects w' !! (bucket, next_key w) = Some recipes.
Proof.
  intros Hmk Hpq Hup Hrm.
  pose proof (dirname_nonempty (strftime_now (env w))
                (uuid4 (env w) (next_uuid w) ++ ".parquet")) as Hdir.
  fold (next_key w) in Hdir.
  unfold create_temp_file, create_s3_bucket_key, Eff.mbind at 1.
  fold (next_key w).
  unfold Eff.mbind at 1. unfold print at 1.
  unfold Eff.mbind at 1. unfold os_makedirs, Eff.mbind at 1, external at 1.
  simpl env. rewrite Hmk.
  destruct (dirname (next_key w)) as [|c d] eqn:Ed; [contradiction|].
  unfold Eff.mbind at 1. unfold to_parquet, Eff.mbind at 1, external at 1.
  simpl env. rewrite Hpq. rewrite Ed. simpl local_dirs.
  destruct (decide _) as [_|Hnot]; [|exfalso; apply Hnot; set_solver].
  unfold Eff.mbind at 1. unfold s3_upload_file, Eff.mbind at 1, external at 1.
  simpl env. rewrite Hup. simpl local_files. rewrite lookup_insert_eq.
  unfold Eff.mbind at 1. unfold os_remove, Eff.mbind at 1, external at 1.
  simpl env. rewrite Hrm. simpl local_files. rewrite lookup_insert_eq.
  eexists. split; [reflexivity|]. split.
  - simpl local_files. apply lookup_delete_eq.
  - simpl s3_objects. apply lookup_insert_eq.
Qed.

(** ** The quarantine write *)

(** C5, as stated, fails: in the sample world the batch has one invalid
    record, the primary artifact is written, the quarantine upload is
    refused, and the batch ends with the sentinel and an empty queue. *)
Lemma C5_quarantine_failure_fails_batch :
  split_recipes [omelette; untitled] [] [] = Ok ([omelette], [untitled])
  /\ (exists w1 w2,
        create_temp_file [omelette] (TEMP_BUCKET ∅) sample_world
        = (Ok "2025/02/17/uuid-0.parquet", w1)
        /\ create_temp_file [untitled] (FAILED_BUCKET ∅) w1
           = (Raise (Exn ClientError "AccessDenied"), w2))
  /\ fst (extract_recipe_data ∅ [omelette; untitled] sample_world) = Ok None
  /\ queue (snd (extract_recipe_data ∅ [omelette; untitled] sample_world)) = [].
Proof.
  split; [reflexivity|]. split; [|split; vm_compute; reflexivity].
  eexists. eexists. split.
  - vm_compute. reflexivity.
  - vm_compute. reflexivity.
Qed.

(** C5, amended. When a batch has invalid records and writing their
    quarantine artifact raises, the exception is caught by the batch's
    handler: it is printed, the batch returns the sentinel, and no work
    notification is published. *)
Theorem C5_quarantine_failure_caught
    (environ : gmap string string) (recipes valid invalid : list value)
    (w w1 w2 : world) (temp_key : string) (e : exn) :
  split_recipes recipes [] [] = Ok (valid, invalid) ->
  invalid <> [] ->
  create_temp_file valid (TEMP_BUCKET environ) w = (Ok temp_key, w1) ->
  create_temp_file invalid (FAILED_BUCKET environ) w1 = (Raise e, w2) ->
  extract_recipe_data environ recipes w
  = (Ok None, snd (print ("Error extracting recipe data: " ++ str_exn e) w2))
  /\ queue (snd (print ("Error extracting recipe data: " ++ str_exn e) w2)) = queue w.
Proof.
  intros Hsplit Hne Hvalid Hinvalid. split.
  - unfold extract_recipe_data, Eff.try_except, extract_body.
    unfold Eff.mbind at 1. unfold Eff.lift at 1. rewrite Hsplit. cbn [fst snd].
    unfold Eff.mbind at 1. rewrite Hvalid.
    unfold Eff.mbind at 1. unfold Eff.when at 1.
    destruct invalid as [|r invalid]; [contradiction|]. cbn [length Nat.eqb negb].
    unfold Eff.mbind at 1. rewrite Hinvalid. reflexivity.
  - apply keeps_queue_create_temp_file in Hvalid, Hinvalid.
    cbn [print snd set_stdout queue]. congruence.
Qed.

Lemma C5_quarantine_failure_caught_witness :
  fst (extract_recipe_data ∅ [omelette; untitled] sample_world) = Ok None.
Proof.
  rewrite (proj1 (C5_quarantine_failure_caught ∅ [omelette; untitled]
                    [omelette] [untitled] sample_world
                    (snd (create_temp_file [omelette] (TEMP_BUCKET ∅) sample_world))
                    (snd (create_temp_file [untitled] (FAILED_BUCKET ∅)
                            (snd (create_temp_file [omelette] (TEMP_BUCKET ∅) sample_world))))
                    "2025/02/17/uuid-0.parquet" (Exn ClientError "AccessDenied")
                    ltac:(reflexivity) ltac:(discriminate)
                    ltac:(vm_compute; reflexivity) ltac:(vm_compute; reflexivity))).
  reflexivity.
Defined.

(** ** The scratch copy *)

(** C6 fails on the code: when the upload raises, [create_temp_file]
    raises with the scratch file still on disk, as it was written. *)
Theorem C6_scratch_file_left_behind (w : world) (recipes : list value)
    (bucket : value) (e : exn) :
  raises (env w) (Makedirs (dirname (next_key w))) = None ->
  raises (env w) (ToParquet recipes (next_key w)) = None ->
  raises (env w) (UploadFile (next_key w) bucket (next_key w)) = Some e ->
  exists w',
    create_temp_file recipes bucket w = (Raise e, w')
    /\ local_files w' !! next_key w = Some recipes.
Proof.
  intros Hmk Hpq Hup.
  destruct (create_temp_file_upload_raises w recipes bucket e Hmk Hpq Hup)
    as (w' & Hrun & Hfiles & _).
  exists w'. split; [exact Hrun|]. rewrite Hfiles. apply lookup_insert_eq.
Qed.

Lemma C6_scratch_file_left_behind_witness :
  exists w',
    create_temp_file [untitled] (VStr "failed-recipes-bucket") sample_world
    = (Raise (Exn ClientError "AccessDenied"), w')
    /\ local_files w' !! "2025/02/17/uuid-0.parquet" = Some [untitled].
Proof.
  exact (C6_scratch_file_left_behind sample_world [untitled]
           (VStr "failed-recipes-bucket") (Exn ClientError "AccessDenied")
           eq_refl eq_refl eq_refl).
Defined.

(** ** Isolation of batch failures *)

Lemma eff_bind_Ok_inv {W A B} (m : Eff.M W A) (k : A -> Eff.M W B) w b w' :
  Eff.mbind m k w = (Ok b, w') ->
  exists a w1, m w = (Ok a, w1) /\ k a w1 = (Ok b, w').
Proof.
  unfold Eff.mbind. destruct (m w) as [[a|e] w1]; [|discriminate].
  intros H. exists a, w1. split; [reflexivity|exact H].
Qed.


(** What [extract_recipe_data] does with the outcome of its body. *)
Lemma extract_recipe_data_unfold environ recipes w :
  extract_recipe_data environ recipes w
  = match extract_body environ recipes w with
    | (Ok r, w') => (Ok r, w')
    | (Raise e, w') =>
        (Ok None, snd (print ("Error extracting recipe data: " ++ str_exn e) w'))
    end.
Proof.
  unfold extract_recipe_data, Eff.try_except.
  destruct (extract_body environ recipes w) as [[r|e] w']; reflexivity.
Qed.

Lemma extract_recipe_data_total environ recipes w :
  exists r w', extract_recipe_data environ recipes w = (Ok r, w').
Proof.
  rewrite extract_recipe_data_unfold.
  destruct (extract_body environ recipes w) as [[r|e] w']; eauto.
Qed.

Lemma map_each_extract environ batches : forall w,
  exists results w',
    Eff.map_each (extract_recipe_data environ) batches w = (Ok results, w')
    /\ length results = length batches.
Proof.
  induction batches as [|batch batches IH]; intros w.
  - exists [], w. split; reflexivity.
  - destruct (extract_recipe_data_total environ batch w) as (r & w1 & Hr).
    destruct (IH w1) as (results & w2 & Hrun & Hlen).
    exists (r :: results), w2. split.
    + cbn [Eff.map_each]. unfold Eff.mbind at 1. rewrite Hr.
      unfold Eff.mbind at 1. rewrite Hrun. reflexivity.
    + cbn [length]. rewrite Hlen. reflexivity.
Qed.


End ExtractionProperties.

Section TransformationProperties.
Import Transformation.

(** ** The output key *)

Lemma Series_repr_long name values :
  (7 <= String.length (Pandas.Series_repr name values))%nat.
Proof.
  unfold Pandas.Series_repr.
  destruct (length values) as [|n] eqn:E.
  - rewrite !length_append. cbn [String.length]. lia.
  - destruct (_ <? _)%nat; rewrite !length_append; cbn [String.length Pandas.newline]; lia.
Qed.

Lemma flag_short flag :
  flag = "easy" \/ flag = "medium" \/ flag = "hard" -> (String.length flag <= 6)%nat.
Proof. intros [-> | [-> | ->]]; simpl; lia. Qed.

Lemma output_key_not_flag flags temp_key flag :
  flag = "easy" \/ flag = "medium" \/ flag = "hard" ->
  Transformation.output_key flags temp_key
  <> flag ++ "/" ++ last_part (str_split "/" temp_key).
Proof.
  intros Hflag E. unfold Transformation.output_key in E.
  apply append_cancel_r in E.
  pose proof (Series_repr_long "difficulty_flag" flags).
  pose proof (flag_short flag Hflag). rewrite E in *. lia.
Qed.

(** C7 fails on the code: the key the handler builds starts with the text
    of the whole [difficulty_flag] column (index, values and footer), never
    with a bare flag. For an artifact of one easy record the output is
    stored under a key of two lines. *)
Theorem C7_output_key_is_not_flag_partitioned :
  (forall flags temp_key,
     let filename := last_part (str_split "/" temp_key) in
     output_key flags temp_key <> "easy" ++ "/" ++ filename
     /\ output_key flags temp_key <> "medium" ++ "/" ++ filename
     /\ output_key flags temp_key <> "hard" ++ "/" ++ filename)
  /\ fst (lambda_handler ∅ [sample_notification] (world_with [tagged_omelette])) = Ok 200
  /\ map fst (map_to_list
       (s3_objects (snd (lambda_handler ∅ [sample_notification]
                           (world_with [tagged_omelette])))))
     = [("temp-recipes-bucket", "2025/02/17/7c9e.parquet");
        ("processed-recipes-bucket",
         "0    easy" ++ Pandas.newline ++ "Name: difficulty_flag, dtype: object/7c9e.parquet")].
Proof.
  split.
  - intros flags temp_key filename.
    repeat split; apply output_key_not_flag; tauto.
  - split; vm_compute; reflexivity.
Qed.

(** ** Columns of a frame *)

Section Labels.

Variable k : string.

Lemma has_label_add_label labels label :
  Pandas.has_label k (Pandas.add_label labels label)
  = Pandas.has_label k labels || String.eqb k label.
Proof.
  unfold Pandas.add_label.
  destruct (Pandas.has_label label labels) eqn:E.
  - destruct (String.eqb_spec k label) as [->|_]; [|rewrite orb_false_r; reflexivity].
    rewrite E. reflexivity.
  - unfold Pandas.has_label. rewrite existsb_app. cbn [existsb].
    rewrite orb_false_r. reflexivity.
Qed.

Lemma has_label_fold_add labels : forall acc,
  Pandas.has_label k (fold_left Pandas.add_label labels acc)
  = Pandas.has_label k acc || Pandas.has_label k labels.
Proof.
  induction labels as [|l labels IH]; intros acc; cbn [fold_left].
  - rewrite orb_false_r. reflexivity.
  - rewrite IH, has_label_add_label. unfold Pandas.has_label at 4.
    cbn [existsb]. rewrite orb_assoc. reflexivity.
Qed.

Lemma has_label_keys (r : Pandas.row) :
  Pandas.dict_get k r = None -> Pandas.has_label k (map fst r) = false.
Proof.
  induction r as [|[k' v] r IH]; intros H; [reflexivity|].
  cbn [Pandas.dict_get] in H. unfold Pandas.has_label. cbn [map fst existsb].
  destruct (String.eqb k k'); [discriminate|]. apply IH. exact H.
Qed.

Lemma has_label_union_keys (records : list Pandas.row) :
  Forall (fun r => Pandas.dict_get k r = None) records ->
  Pandas.has_label k (Pandas.union_keys records) = false.
Proof.
  unfold Pandas.union_keys.
  assert (G : forall acc, Pandas.has_label k acc = false ->
    Forall (fun r => Pandas.dict_get k r = None) records ->
    Pandas.has_label k
      (fold_left (fun acc r => fold_left Pandas.add_label (map fst r) acc) records acc)
    = false).
  { induction records as [|r records IH]; intros acc Hacc H; [exact Hacc|].
    apply Forall_cons in H as [Hr H]. cbn [fold_left]. apply IH; [|exact H].
    rewrite has_label_fold_add, Hacc, has_label_keys by exact Hr. reflexivity. }
  apply G. reflexivity.
Qed.

Lemma dict_get_align cols (r : Pandas.row) :
  Pandas.has_label k cols = false -> Pandas.dict_get k (Pandas.align cols r) = None.
Proof.
  unfold Pandas.align, Pandas.has_label.
  induction cols as [|c cols IH]; intros H; [reflexivity|].
  cbn [existsb] in H. apply orb_false_iff in H as [Hc H].
  cbn [map Pandas.dict_get]. rewrite Hc. apply IH. exact H.
Qed.

Lemma dict_get_row_set (r : Pandas.row) label v :
  String.eqb k label = false ->
  Pandas.dict_get k (Pandas.row_set r label v) = Pandas.dict_get k r.
Proof.
  intros Hne. induction r as [|[k' x] r IH]; cbn [Pandas.row_set Pandas.dict_get].
  - rewrite Hne. reflexivity.
  - destruct (String.eqb_spec label k') as [->|_]; cbn [Pandas.dict_get].
    + rewrite Hne. reflexivity.
    + rewrite IH. reflexivity.
Qed.

End Labels.

(** The selection fails on a frame with no [tags] column. *)
Lemma select_without_tags (df : Pandas.DataFrame) :
  Pandas.has_label "tags" (Pandas.columns df) = false ->
  exists msg, Pandas.select selected_columns df = Raise (Exn KeyError msg).
Proof.
  intros H. unfold Pandas.select.
  assert (Hin : "tags" ∈ filter (fun c => negb (Pandas.has_label c (Pandas.columns df)))
                         selected_columns).
  { apply list_elem_of_filter. split.
    - rewrite H. exact I.
    - unfold selected_columns. set_solver. }
  destruct (filter _ selected_columns) as [|c missing].
  - apply elem_of_nil in Hin. contradiction.
  - eexists. reflexivity.
Qed.

(** ** Running the transformation *)

Lemma keeps_s3_bind {A B} (m : M A) (k : A -> M B) :
  keeps_s3 m -> (forall a, keeps_s3 (k a)) -> keeps_s3 (Eff.mbind m k).
Proof.
  intros Hm Hk w r w' H. unfold Eff.mbind in H.
  destruct (m w) as [[a|e] w1] eqn:E.
  - apply Hk in H. apply Hm in E. congruence.
  - inversion H; subst. apply Hm in E. exact E.
Qed.

Lemma keeps_s3_ret {A} (a : A) : keeps_s3 (Eff.ret a).
Proof. intros w r w' H. inversion H. reflexivity. Qed.

Lemma keeps_s3_lift {A} (x : result A) : keeps_s3 (Eff.lift x).
Proof. intros w r w' H. inversion H. reflexivity. Qed.

Lemma keeps_s3_print line : keeps_s3 (print line).
Proof. intros w r w' H. inversion H. reflexivity. Qed.

Lemma keeps_s3_external o : keeps_s3 (external o).
Proof.
  intros w r w' H. unfold external in H.
  destruct (raises (env w) o); inversion H; reflexivity.
Qed.

Lemma keeps_s3_get_recipe_id : keeps_s3 get_recipe_id.
Proof. intros w r w' H. inversion H. reflexivity. Qed.

Lemma keeps_s3_transform_row row : keeps_s3 (transform_row row).
Proof.
  unfold transform_row.
  repeat (apply keeps_s3_bind; [first [apply keeps_s3_lift|apply keeps_s3_get_recipe_id]|intros ?]).
  apply keeps_s3_ret.
Qed.

Lemma keeps_s3_map_each {A B} (f : A -> M B) xs :
  (forall x, keeps_s3 (f x)) -> keeps_s3 (Eff.map_each f xs).
Proof.
  intros Hf. induction xs as [|x xs IH]; cbn [Eff.map_each].
  - apply keeps_s3_ret.
  - apply keeps_s3_bind; [apply Hf|intros y].
    apply keeps_s3_bind; [exact IH|intros ys]. apply keeps_s3_ret.
Qed.

Lemma keeps_s3_apply_rows df : keeps_s3 (apply_rows transform_row df).
Proof.
  unfold apply_rows.
  destruct (Pandas.rows df) as [|r rs]; [apply keeps_s3_ret|].
  destruct (Pandas.columns df) as [|c cs]; [apply keeps_s3_ret|].
  apply keeps_s3_bind; [|intros ?; apply keeps_s3_ret].
  apply keeps_s3_map_each. apply keeps_s3_transform_row.
Qed.

(** [transform_row] adds four cells, none of them labelled [tags]. *)
Lemma transform_row_no_tags row w row' w' :
  transform_row row w = (Ok row', w') ->
  Pandas.dict_get "tags" row = None -> Pandas.dict_get "tags" row' = None.
Proof.
  unfold transform_row. intros H Htags.
  apply eff_bind_Ok_inv in H as (ingredients & w1 & _ & H).
  apply eff_bind_Ok_inv in H as (directions & w2 & _ & H).
  apply eff_bind_Ok_inv in H as (score & w3 & _ & H).
  apply eff_bind_Ok_inv in H as (directions' & w4 & _ & H).
  apply eff_bind_Ok_inv in H as (time_estimate & w5 & _ & H).
  apply eff_bind_Ok_inv in H as (recipe_id & w6 & _ & H).
  inversion H. rewrite !dict_get_row_set by reflexivity. exact Htags.
Qed.

Lemma map_each_no_tags rows : forall w rows' w',
  Eff.map_each transform_row rows w = (Ok rows', w') ->
  Forall (fun r => Pandas.dict_get "tags" r = None) rows ->
  Forall (fun r => Pandas.dict_get "tags" r = None) rows'.
Proof.
  induction rows as [|r rows IH]; intros w rows' w' H Hrows; cbn [Eff.map_each] in H.
  - inversion H. constructor.
  - apply Forall_cons in Hrows as [Hr Hrows].
    apply eff_bind_Ok_inv in H as (r' & w1 & Hrow & H).
    apply eff_bind_Ok_inv in H as (rs' & w2 & Hrest & H).
    inversion H; subst. constructor.
    + eapply transform_row_no_tags; eassumption.
    + eapply IH; eassumption.
Qed.

Lemma of_records_no_tags (records : list Pandas.row) :
  Forall (fun r => Pandas.dict_get "tags" r = None) records ->
  Pandas.has_label "tags" (Pandas.columns (Pandas.of_records records)) = false
  /\ Forall (fun r => Pandas.dict_get "tags" r = None)
       (Pandas.rows (Pandas.of_records records)).
Proof.
  intros H. pose proof (has_label_union_keys "tags" records H) as Hcols.
  split; [exact Hcols|]. cbn [Pandas.of_records Pandas.rows].
  apply Forall_fmap, Forall_forall. intros r _. cbn [compose].
  apply dict_get_align. exact Hcols.
Qed.

Lemma apply_rows_no_tags (records : list Pandas.row) w df' w' :
  Forall (fun r => Pandas.dict_get "tags" r = None) records ->
  apply_rows transform_row (Pandas.of_records records) w = (Ok df', w') ->
  Pandas.has_label "tags" (Pandas.columns df') = false.
Proof.
  intros Hrec H. destruct (of_records_no_tags records Hrec) as [Hcols Hrows].
  unfold apply_rows in H.
  destruct (Pandas.rows (Pandas.of_records records)) as [|r rs] eqn:E.
  - inversion H; subst. exact Hcols.
  - destruct (Pandas.columns (Pandas.of_records records)) as [|c cs] eqn:Ec.
    + inversion H; subst. rewrite Ec. reflexivity.
    + apply eff_bind_Ok_inv in H as (rows' & w1 & Hmap & H). inversion H; subst.
      apply of_records_no_tags. eapply map_each_no_tags; eassumption.
Qed.

(** A notification whose artifact has no [tags] makes the handler raise,
    and nothing is written. *)
Lemma handle_record_without_tags environ (record : notification)
    (records : list Pandas.row) (w : world) :
  s3_objects w !! (source_bucket record, source_key record)
  = Some (Pandas.of_records records) ->
  Forall (fun r => Pandas.dict_get "tags" r = None) records ->
  exists e w',
    handle_record environ record w = (Raise e, w')
    /\ s3_objects w' = s3_objects w.
Proof.
  intros Hobj Hrec. unfold handle_record.
  unfold Eff.mbind at 1. unfold print at 1.
  set (w1 := {| env := env w; next_uuid := next_uuid w; s3_objects := s3_objects w;
                stdout := (stdout w ++ [_])%list |}).
  unfold Eff.mbind at 1. unfold s3_get_object, Eff.mbind at 1, external at 1.
  destruct (raises (env w1) _) as [e|]; [exists e, w1; split; reflexivity|].
  change (s3_objects w1) with (s3_objects w). rewrite Hobj.
  unfold Eff.mbind at 1. unfold print at 1.
  set (w2 := {| env := env w1; next_uuid := next_uuid w1; s3_objects := s3_objects w1;
                stdout := (stdout w1 ++ [_])%list |}).
  unfold Eff.mbind at 1. unfold external at 1.
  destruct (raises (env w2) _) as [e|]; [exists e, w2; split; reflexivity|].
  unfold Eff.mbind at 1.
  destruct (apply_rows transform_row (Pandas.of_records records) w2)
    as [[df'|e] w3] eqn:Happly.
  - pose proof (keeps_s3_apply_rows _ _ _ _ Happly) as Hs3.
    apply apply_rows_no_tags in Happly; [|exact Hrec].
    destruct (select_without_tags df' Happly) as [msg Hsel].
    unfold Eff.mbind at 1, Eff.lift at 1. rewrite Hsel.
    eexists. exists w3. split; [reflexivity|exact Hs3].
  - pose proof (keeps_s3_apply_rows _ _ _ _ Happly) as Hs3.
    exists e, w3. split; [reflexivity|exact Hs3].
Qed.

(** C9, as stated, fails: the selection does not need every record to
    carry [tags]. An artifact of one record with [tags] and one without has
    a [tags] column (the cell of the second record is NaN), and the handler
    transforms it and stores the output. *)
Lemma C9_mixed_artifact_is_transformed :
  Pandas.dict_get "tags" untagged_omelette = None
  /\ Pandas.columns (Pandas.of_records [tagged_omelette; untagged_omelette])
     = ["title"; "ingredients"; "directions"; "tags"]
  /\ fst (lambda_handler ∅ [sample_notification]
            (world_with [tagged_omelette; untagged_omelette])) = Ok 200
  /\ length (map_to_list
       (s3_objects (snd (lambda_handler ∅ [sample_notification]
                           (world_with [tagged_omelette; untagged_omelette])))))
     = 2%nat.
Proof. repeat split; vm_compute; reflexivity. Qed.

(** C9, amended. The column selection names [tags], so the frame must
    have a [tags] column: whenever no record of the artifact carries a
    [tags] field, the handler raises on that notification and writes no
    output. The validator does not ask for [tags]: a record with [title],
    [ingredients] and [directions] and no [tags] is valid. For an artifact
    of one such record the error is the [KeyError] of the selection. *)
Theorem C9_tags_required (environ : gmap string string) :
  (forall (record : notification) (event : list notification)
          (records : list Pandas.row) (w : world),
     s3_objects w !! (source_bucket record, source_key record)
     = Some (Pandas.of_records records) ->
     Forall (fun r => Pandas.dict_get "tags" r = None) records ->
     exists e w',
       lambda_handler environ (record :: event) w = (Raise e, w')
       /\ s3_objects w' = s3_objects w)
  /\ (forall items : list (string * value),
        "title" ∈ map fst items -> "ingredients" ∈ map fst items ->
        "directions" ∈ map fst items -> Pandas.dict_get "tags" items = None ->
        Extraction.validate_raw_data (VDict items) = Ok true)
  /\ Extraction.validate_raw_data (VDict untagged_omelette) = Ok true
  /\ fst (lambda_handler environ [sample_notification] (world_with [untagged_omelette]))
     = Raise (Exn KeyError "['tags'] not in index").
Proof.
  split; [|split; [|split]].
  - intros record event records w Hobj Hrec.
    destruct (handle_record_without_tags environ record records w Hobj Hrec)
      as (e & w' & Hrun & Hs3).
    exists e, w'. split; [|exact Hs3].
    unfold lambda_handler. cbn [Eff.for_each].
    unfold Eff.mbind at 1 2. rewrite Hrun. reflexivity.
  - intros items Ht Hi Hd _. rewrite validate_raw_data_dict.
    rewrite bool_decide_eq_true_2 by tauto. reflexivity.
  - reflexivity.
  - vm_compute. reflexivity.
Qed.

Lemma C9_tags_required_witness :
  exists e w',
    lambda_handler ∅ [sample_notification] (world_with [untagged_omelette]) = (Raise e, w')
    /\ s3_objects w' = s3_objects (world_with [untagged_omelette]).
Proof.
  apply (proj1 (C9_tags_required ∅) sample_notification [] [untagged_omelette]
           (world_with [untagged_omelette])).
  - vm_compute. reflexivity.
  - repeat constructor.
Defined.

End TransformationProperties.

Section ExtractionRunsProperties.
Import Extraction.

(** ** The valid / invalid split *)

Lemma validate_container (v : value) :
  is_container v = true -> validate_raw_data v = Ok (is_valid v).
Proof.
  intros H. unfold is_valid.
  destruct v; try discriminate H; unfold validate_raw_data, required_fields;
    cbn [py_all py_in bind];
    repeat match goal with
           | |- context [if ?b then _ else _] => destruct b; cbn [bind]
           end; reflexivity.
Qed.

Lemma validate_scalar (v : value) :
  is_container v = false -> validate_raw_data v = Raise (not_iterable v).
Proof. intros H. destruct v; try discriminate H; reflexivity. Qed.

Lemma split_recipes_containers recipes : forall valid_recipes invalid_recipes,
  Forall (fun r => is_container r = true) recipes ->
  split_recipes recipes valid_recipes invalid_recipes
  = Ok ((valid_recipes ++ filter (fun r => is_valid r) recipes)%list,
        (invalid_recipes ++ filter (fun r => negb (is_valid r)) recipes)%list).
Proof.
  induction recipes as [|r recipes IH]; intros va ia H; cbn [split_recipes].
  - rewrite !filter_nil, !app_nil_r. reflexivity.
  - apply Forall_cons in H as [Hr H].
    rewrite (validate_container r Hr). cbn [bind].
    rewrite !filter_cons. destruct (is_valid r) eqn:E.
    + rewrite IH by exact H.
      rewrite decide_True by exact I. rewrite decide_False by (cbn; tauto).
      rewrite <- app_assoc. reflexivity.
    + rewrite IH by exact H.
      rewrite decide_False by (cbn; tauto). rewrite decide_True by exact I.
      rewrite <- app_assoc. reflexivity.
Qed.

(** The split stops at the first record the validator cannot test. *)
Lemma split_recipes_scalar recipes : forall valid_recipes invalid_recipes,
  Exists (fun r => is_container r = false) recipes ->
  exists v, v ∈ recipes /\ is_container v = false
    /\ split_recipes recipes valid_recipes invalid_recipes = Raise (not_iterable v).
Proof.
  induction recipes as [|r recipes IH]; intros va ia H.
  - apply Exists_nil in H. contradiction.
  - destruct (is_container r) eqn:Hr.
    + apply Exists_cons in H as [H|H]; [congruence|].
      cbn [split_recipes]. rewrite (validate_container r Hr). cbn [bind].
      destruct (is_valid r).
      * destruct (IH (va ++ [r])%list ia H) as (v & Hin & Hv & Hrun).
        exists v. split; [right; exact Hin|]. split; [exact Hv|exact Hrun].
      * destruct (IH va (ia ++ [r])%list H) as (v & Hin & Hv & Hrun).
        exists v. split; [right; exact Hin|]. split; [exact Hv|exact Hrun].
    + exists r. split; [left|]. split; [exact Hr|].
      cbn [split_recipes]. rewrite (validate_scalar r Hr). reflexivity.
Qed.

(** X1. The loop that sorts a batch keeps the order of the records: when
    every record is a container, the valid list is the records the
    validator accepts and the invalid list the records it rejects, each in
    the order of the batch. *)
Theorem X1_split_keeps_order (recipes : list value) :
  Forall (fun r => is_container r = true) recipes ->
  split_recipes recipes [] []
  = Ok (filter (fun r => is_valid r) recipes, filter (fun r => negb (is_valid r)) recipes).
Proof. intros H. apply (split_recipes_containers recipes [] [] H). Qed.

Lemma X1_split_keeps_order_witness :
  split_recipes [omelette; untitled; omelette] [] [] = Ok ([omelette; omelette], [untitled]).
Proof.
  exact (X1_split_keeps_order [omelette; untitled; omelette]
           ltac:(repeat constructor)).
Defined.

(** X2. A record that is no container ([None], a bool, a number) fails
    its whole batch before anything is written: the batch returns the
    sentinel, and the world is the one it started in but for the line that
    reports the [TypeError]. *)
Theorem X2_scalar_record_fails_batch (environ : gmap string string)
    (recipes : list value) (r : value) (w : world) :
  r ∈ recipes -> is_container r = false ->
  exists v, v ∈ recipes /\ is_container v = false
    /\ extract_recipe_data environ recipes w
       = (Ok None,
          set_stdout (stdout w ++ [batch_error_line (not_iterable v)])%list w).
Proof.
  intros Hin Hr.
  assert (H : Exists (fun r => is_container r = false) recipes).
  { apply Exists_exists. exists r. split; assumption. }
  destruct (split_recipes_scalar recipes [] [] H) as (v & Hv & Hc & Hrun).
  exists v. split; [exact Hv|]. split; [exact Hc|].
  rewrite extract_recipe_data_unfold. unfold extract_body.
  unfold Eff.mbind at 1, Eff.lift at 1. rewrite Hrun. reflexivity.
Qed.

Lemma X2_scalar_record_fails_batch_witness :
  exists v, v ∈ [omelette; VNone; untitled] /\ is_container v = false
    /\ extract_recipe_data ∅ [omelette; VNone; untitled] sample_world
       = (Ok None,
          set_stdout (stdout sample_world ++ [batch_error_line (not_iterable v)])%list
            sample_world).
Proof.
  apply (X2_scalar_record_fails_batch ∅ [omelette; VNone; untitled] VNone sample_world).
  - set_solver.
  - reflexivity.
Defined.

(** ** Keys, directories and file names *)

Lemma has_char_append c (s t : string) :
  has_char c (s ++ t) = has_char c s || has_char c t.
Proof.
  induction s as [|a s IH]; [reflexivity|].
  rewrite append_cons. cbn [has_char]. rewrite IH, orb_assoc. reflexivity.
Qed.

Lemma append_cancel_l (s t u : string) : s ++ t = s ++ u -> t = u.
Proof.
  induction s as [|a s IH]; intros H; [exact H|].
  rewrite !append_cons in H. injection H as H. apply IH. exact H.
Qed.

Lemma str_split_no_sep sep (s : string) :
  has_char sep s = false -> str_split sep s = [s].
Proof.
  induction s as [|a s IH]; intros H; [reflexivity|].
  cbn [has_char] in H. apply orb_false_iff in H as [Ha H].
  cbn [str_split]. rewrite Ha, (IH H). reflexivity.
Qed.

(** Splitting at a separator splits the parts before and after it. *)
Lemma str_split_app sep (a b : string) :
  str_split sep (a ++ String sep b) = (str_split sep a ++ str_split sep b)%list.
Proof.
  induction a as [|c a IH].
  - change ("" ++ String sep b) with (String sep b). cbn [str_split].
    rewrite Ascii.eqb_refl. reflexivity.
  - rewrite append_cons. cbn [str_split]. rewrite IH.
    destruct (Ascii.eqb c sep); [reflexivity|].
    pose proof (str_split_nonempty sep a) as Hne.
    destruct (str_split sep a) as [|p ps]; [contradiction|]. reflexivity.
Qed.

Lemma concat_empty_cons (x : string) (l : list string) :
  String.concat "" (x :: l) = x ++ String.concat "" l.
Proof.
  destruct l as [|y l]; cbn [String.concat].
  - rewrite append_nil_r. reflexivity.
  - reflexivity.
Qed.

(** Joining the parts of a path, each followed by a slash, gives the path
    and a slash. *)
Lemma join_split_slash (a : string) :
  String.concat "" (map (fun p => p ++ "/") (str_split "/" a)) = a ++ "/".
Proof.
  induction a as [|c a IH]; [reflexivity|].
  cbn [str_split]. destruct (Ascii.eqb_spec c "/") as [->|Hc].
  - cbn [map]. rewrite concat_empty_cons, IH. reflexivity.
  - pose proof (str_split_nonempty "/" a) as Hne.
    destruct (str_split "/" a) as [|p ps]; [contradiction|].
    cbn [map] in *. rewrite concat_empty_cons in *.
    rewrite !append_cons, <- IH, append_assoc. reflexivity.
Qed.

Lemma list_ascii_of_string_append (s t : string) :
  list_ascii_of_string (s ++ t)
  = (list_ascii_of_string s ++ list_ascii_of_string t)%list.
Proof.
  induction s as [|a s IH]; [reflexivity|].
  rewrite append_cons. cbn [list_ascii_of_string]. rewrite IH. reflexivity.
Qed.

Lemma rstrip_slash_rev_other (c : ascii) (r : list ascii) :
  c <> "/"%char -> rstrip_slash_rev (c :: r) = c :: r.
Proof.
  intros Hc. destruct c as [[] [] [] [] [] [] [] []];
    first [reflexivity | exfalso; apply Hc; reflexivity].
Qed.

(** Stripping the slashes that end a path with one slash after a name. *)
Lemma rstrip_slash_one (d : string) (c : ascii) :
  c <> "/"%char -> rstrip_slash ((d ++ String c "") ++ "/") = d ++ String c "".
Proof.
  intros Hc. unfold rstrip_slash.
  rewrite !list_ascii_of_string_append. cbn [list_ascii_of_string].
  rewrite !rev_app_distr. cbn [rev app].
  change (rstrip_slash_rev ("/"%char :: c :: rev (list_ascii_of_string d)))
    with (rstrip_slash_rev (c :: rev (list_ascii_of_string d))).
  rewrite rstrip_slash_rev_other by exact Hc.
  cbn [rev]. rewrite rev_involutive.
  change [c] with (list_ascii_of_string (String c "")).
  rewrite <- list_ascii_of_string_append.
  apply string_of_list_ascii_of_string.
Qed.

Lemma dirname_of_file (d : string) (c : ascii) (file : string) :
  c <> "/"%char -> has_char "/" file = false ->
  dirname ((d ++ String c "") ++ "/" ++ file) = d ++ String c "".
Proof.
  intros Hc Hfile. unfold dirname.
  change ("/" ++ file) with (String "/" file).
  rewrite str_split_app, (str_split_no_sep "/" file Hfile).
  rewrite removelast_last, join_split_slash, rstrip_slash_one by exact Hc.
  destruct d; reflexivity.
Qed.

Lemma last_part_of_file (a file : string) :
  has_char "/" file = false ->
  last_part (str_split "/" (a ++ "/" ++ file)) = file.
Proof.
  intros Hfile. unfold last_part.
  change ("/" ++ file) with (String "/" file).
  rewrite str_split_app, (str_split_no_sep "/" file Hfile).
  apply last_last.
Qed.

(** X3. The key of an artifact is the date path, a slash and the file
    name [<uuid>.parquet]: when the identifier has no slash and the date
    path does not end with one, the directory the writer creates for the
    scratch file is the date path, and the last part of the key split at
    the slashes (the file name the transformation stage keeps) is
    [<uuid>.parquet]. *)
Theorem X3_key_directory_and_file_name (w : world) (d : string) (c : ascii) :
  strftime_now (env w) = d ++ String c "" -> c <> "/"%char ->
  has_char "/" (uuid4 (env w) (next_uuid w)) = false ->
  exists key,
    fst (create_s3_bucket_key w) = Ok key
    /\ key = strftime_now (env w) ++ "/" ++ uuid4 (env w) (next_uuid w) ++ ".parquet"
    /\ dirname key = strftime_now (env w)
    /\ last_part (str_split "/" key) = uuid4 (env w) (next_uuid w) ++ ".parquet".
Proof.
  intros Hdate Hc Huuid.
  assert (Hfile : has_char "/" (uuid4 (env w) (next_uuid w) ++ ".parquet") = false).
  { rewrite has_char_append, Huuid. reflexivity. }
  eexists. split; [reflexivity|]. split; [reflexivity|]. split.
  - rewrite Hdate. apply dirname_of_file; assumption.
  - apply last_part_of_file. exact Hfile.
Qed.

Lemma X3_key_directory_and_file_name_witness :
  exists key,
    fst (create_s3_bucket_key sample_world) = Ok key
    /\ key = "2025/02/17/uuid-0.parquet"
    /\ dirname key = "2025/02/17"
    /\ last_part (str_split "/" key) = "uuid-0.parquet".
Proof.
  exact (X3_key_directory_and_file_name sample_world "2025/02/1" "7"
           eq_refl ltac:(discriminate) eq_refl).
Defined.

(** ** What a successful artifact write changes *)

Lemma delete_insert_same {V} (m : gmap string V) k v : delete k (<[k := v]> m) = delete k m.
Proof.
  apply map_eq. intros i. destruct (decide (i = k)) as [->|Hne].
  - rewrite !lookup_delete_eq. reflexivity.
  - rewrite !lookup_delete_ne, lookup_insert_ne by congruence. reflexivity.
Qed.

(** The run of [create_temp_file] when its four calls succeed, field by
    field. *)
Lemma create_temp_file_run w recipes (bucket : string) :
  raises (env w) (Makedirs (dirname (next_key w))) = None ->
  raises (env w) (ToParquet recipes (next_key w)) = None ->
  raises (env w) (UploadFile (next_key w) (VStr bucket) (next_key w)) = None ->
  raises (env w) (Remove (next_key w)) = None ->
  exists w',
    create_temp_file recipes (VStr bucket) w = (Ok (next_key w), w')
    /\ env w' = env w
    /\ next_uuid w' = S (next_uuid w)
    /\ s3_objects w' = <[(bucket, next_key w) := recipes]> (s3_objects w)
    /\ local_files w' = delete (next_key w) (local_files w)
    /\ local_dirs w' = {[dirname (next_key w)]} ∪ local_dirs w
    /\ queue w' = queue w
    /\ stdout w' = (stdout w ++ [creating_line (VStr bucket) (next_key w)])%list.
Proof.
  intros Hmk Hpq Hup Hrm.
  pose proof (dirname_nonempty (strftime_now (env w))
                (uuid4 (env w) (next_uuid w) ++ ".parquet")) as Hdir.
  fold (next_key w) in Hdir.
  unfold create_temp_file, create_s3_bucket_key, Eff.mbind at 1.
  fold (next_key w).
  unfold Eff.mbind at 1. unfold print at 1.
  unfold Eff.mbind at 1. unfold os_makedirs, Eff.mbind at 1, external at 1.
  simpl env. rewrite Hmk.
  destruct (dirname (next_key w)) as [|c d] eqn:Ed; [contradiction|].
  unfold Eff.mbind at 1. unfold to_parquet, Eff.mbind at 1, external at 1.
  simpl env. rewrite Hpq. rewrite Ed. simpl local_dirs.
  destruct (decide _) as [_|Hnot]; [|exfalso; apply Hnot; set_solver].
  unfold Eff.mbind at 1. unfold s3_upload_file, Eff.mbind at 1, external at 1.
  simpl env. rewrite Hup. simpl local_files. rewrite lookup_insert_eq.
  unfold Eff.mbind at 1. unfold os_remove, Eff.mbind at 1, external at 1.
  simpl env. rewrite Hrm. simpl local_files. rewrite lookup_insert_eq.
  eexists. split; [reflexivity|].
  repeat split; try reflexivity.
  simpl local_files. apply delete_insert_same.
Qed.

(** X4. When its four calls succeed, [create_temp_file] returns the key
    it generated, stores the records it was given under that key in the
    bucket it was given and changes no other object, leaves no scratch file
    under the key, leaves the scratch directory in place, and publishes
    nothing. *)
Theorem X4_artifact_write_effect (w : world) (recipes : list value) (bucket : string) :
  raises (env w) (Makedirs (dirname (next_key w))) = None ->
  raises (env w) (ToParquet recipes (next_key w)) = None ->
  raises (env w) (UploadFile (next_key w) (VStr bucket) (next_key w)) = None ->
  raises (env w) (Remove (next_key w)) = None ->
  exists w',
    create_temp_file recipes (VStr bucket) w = (Ok (next_key w), w')
    /\ s3_objects w' = <[(bucket, next_key w) := recipes]> (s3_objects w)
    /\ local_files w' = delete (next_key w) (local_files w)
    /\ dirname (next_key w) ∈ local_dirs w'
    /\ queue w' = queue w.
Proof.
  intros Hmk Hpq Hup Hrm.
  destruct (create_temp_file_run w recipes bucket Hmk Hpq Hup Hrm)
    as (w' & Hrun & _ & _ & Hs3 & Hfiles & Hdirs & Hq & _).
  exists w'. split; [exact Hrun|]. split; [exact Hs3|]. split; [exact Hfiles|].
  split; [|exact Hq]. rewrite Hdirs. apply elem_of_union_l, elem_of_singleton. reflexivity.
Qed.

Lemma X4_artifact_write_effect_witness :
  exists w',
    create_temp_file [omelette] (VStr "temp-recipes-bucket") sample_world
    = (Ok "2025/02/17/uuid-0.parquet", w')
    /\ s3_objects w'
       = <[("temp-recipes-bucket", "2025/02/17/uuid-0.parquet") := [omelette]]>
           (s3_objects sample_world)
    /\ local_files w' = delete "2025/02/17/uuid-0.parquet" (local_files sample_world)
    /\ dirname "2025/02/17/uuid-0.parquet" ∈ local_dirs w'
    /\ queue w' = queue sample_world.
Proof.
  exact (X4_artifact_write_effect sample_world [omelette] "temp-recipes-bucket"
           eq_refl eq_refl eq_refl eq_refl).
Defined.

(** ** What every step of the extraction keeps *)

Lemma eff_bind_inv {W A B} (m : Eff.M W A) (k : A -> Eff.M W B) w r w' :
  Eff.mbind m k w = (r, w') ->
  (exists a w1, m w = (Ok a, w1) /\ k a w1 = (r, w'))
  \/ (exists e, m w = (Raise e, w') /\ r = Raise e).
Proof.
  unfold Eff.mbind. destruct (m w) as [[a|e] w1]; intros H.
  - left. exists a, w1. split; [reflexivity|exact H].
  - right. inversion H; subst. exists e. split; reflexivity.
Qed.

Section Steps.

Context {W : Type}.
Variable R : W -> W -> Prop.
Hypothesis R_refl : forall w, R w w.
Hypothesis R_trans : forall w1 w2 w3, R w1 w2 -> R w2 w3 -> R w1 w3.

Lemma steps_ret {A} (a : A) : steps R (@Eff.ret W A a).
Proof. intros w r w' H. inversion H; subst. apply R_refl. Qed.

Lemma steps_throw {A} (e : exn) : steps R (@Eff.throw W A e).
Proof. intros w r w' H. inversion H; subst. apply R_refl. Qed.

Lemma steps_lift {A} (x : result A) : steps R (@Eff.lift W A x).
Proof. intros w r w' H. inversion H; subst. apply R_refl. Qed.

Lemma steps_bind {A B} (m : Eff.M W A) (k : A -> Eff.M W B) :
  steps R m -> (forall a, steps R (k a)) -> steps R (Eff.mbind m k).
Proof.
  intros Hm Hk w r w' H.
  apply eff_bind_inv in H as [(a & w1 & Ha & H)|(e & He & _)].
  - eapply R_trans; [eapply Hm; exact Ha|eapply Hk; exact H].
  - eapply Hm. exact He.
Qed.

Lemma steps_when (b : bool) (m : Eff.M W unit) : steps R m -> steps R (Eff.when b m).
Proof. intros Hm. destruct b; [exact Hm|apply steps_ret]. Qed.

Lemma steps_try_except {A} (body : Eff.M W A) (handler : exn -> Eff.M W A) :
  steps R body -> (forall e, steps R (handler e)) -> steps R (Eff.try_except body handler).
Proof.
  intros Hb Hh w r w' H. unfold Eff.try_except in H.
  destruct (body w) as [[a|e] w1] eqn:E.
  - inversion H; subst. eapply Hb. exact E.
  - eapply R_trans; [eapply Hb; exact E|eapply Hh; exact H].
Qed.

Lemma steps_map_each {A B} (f : A -> Eff.M W B) xs :
  (forall x, steps R (f x)) -> steps R (Eff.map_each f xs).
Proof.
  intros Hf. induction xs as [|x xs IH]; cbn [Eff.map_each].
  - apply steps_ret.
  - apply steps_bind; [apply Hf|intros y].
    apply steps_bind; [exact IH|intros ys]. apply steps_ret.
Qed.

Lemma steps_for_each {A} (f : A -> Eff.M W unit) xs :
  (forall x, steps R (f x)) -> steps R (Eff.for_each f xs).
Proof.
  intros Hf. induction xs as [|x xs IH]; cbn [Eff.for_each].
  - apply steps_ret.
  - apply steps_bind; [apply Hf|intros _; exact IH].
Qed.

End Steps.

Lemma same_run_refl w : same_run w w.
Proof. split; [reflexivity|lia]. Qed.

Lemma same_run_trans w1 w2 w3 : same_run w1 w2 -> same_run w2 w3 -> same_run w1 w3.
Proof. intros [E1 L1] [E2 L2]. split; [congruence|lia]. Qed.

Ltac same_run_step H := inversion H; subst; split; [reflexivity|simpl; lia].

Lemma same_run_external o : steps same_run (external o).
Proof.
  intros w r w' H. unfold external in H.
  destruct (raises (env w) o); inversion H; subst; apply same_run_refl.
Qed.

Lemma same_run_print line : steps same_run (print line).
Proof. intros w r w' H. same_run_step H. Qed.

Lemma same_run_os_makedirs path : steps same_run (os_makedirs path).
Proof.
  apply steps_bind; [apply same_run_trans|apply same_run_external|intros _].
  destruct path; [apply steps_throw, same_run_refl|].
  intros w r w' H. same_run_step H.
Qed.

Lemma same_run_to_parquet recipes path : steps same_run (to_parquet recipes path).
Proof.
  apply steps_bind; [apply same_run_trans|apply same_run_external|intros _].
  intros w r w' H. destruct (decide _); same_run_step H.
Qed.

Lemma same_run_upload path bucket key : steps same_run (s3_upload_file path bucket key).
Proof.
  apply steps_bind; [apply same_run_trans|apply same_run_external|intros _].
  intros w r w' H. destruct (local_files w !! path), bucket; same_run_step H.
Qed.

Lemma same_run_os_remove path : steps same_run (os_remove path).
Proof.
  apply steps_bind; [apply same_run_trans|apply same_run_external|intros _].
  intros w r w' H. destruct (local_files w !! path); same_run_step H.
Qed.

(** [create_temp_file] returns the key it generated first, and uses up
    its identifier. *)
Lemma create_temp_file_key recipes bucket w r w' :
  create_temp_file recipes bucket w = (r, w') ->
  same_run w w'
  /\ forall key, r = Ok key -> key = next_key w /\ (next_uuid w < next_uuid w')%nat.
Proof.
  unfold create_temp_file. intros H.
  apply eff_bind_inv in H as [(k & wk & Hk & H)|(e & He & _)]; [|discriminate He].
  inversion Hk; subst k wk. clear Hk. fold (next_key w) in H.
  set (wk := set_next_uuid (S (next_uuid w)) w) in H.
  assert (Hwk : same_run w wk) by (split; [reflexivity|simpl; lia]).
  apply eff_bind_inv in H as [(u1 & w1 & H1 & H)|(e & He & ->)].
  2:{ apply same_run_print in He. split; [eapply same_run_trans; eassumption|discriminate]. }
  apply same_run_print in H1.
  apply eff_bind_inv in H as [(u2 & w2 & H2 & H)|(e & He & ->)].
  2:{ apply same_run_os_makedirs in He.
      split; [repeat (eapply same_run_trans; [eassumption|]); apply same_run_refl
             |discriminate]. }
  apply same_run_os_makedirs in H2.
  apply eff_bind_inv in H as [(u3 & w3 & H3 & H)|(e & He & ->)].
  2:{ apply same_run_to_parquet in He.
      split; [repeat (eapply same_run_trans; [eassumption|]); apply same_run_refl
             |discriminate]. }
  apply same_run_to_parquet in H3.
  apply eff_bind_inv in H as [(u4 & w4 & H4 & H)|(e & He & ->)].
  2:{ apply same_run_upload in He.
      split; [repeat (eapply same_run_trans; [eassumption|]); apply same_run_refl
             |discriminate]. }
  apply same_run_upload in H4.
  apply eff_bind_inv in H as [(u5 & w5 & H5 & H)|(e & He & ->)].
  2:{ apply same_run_os_remove in He.
      split; [repeat (eapply same_run_trans; [eassumption|]); apply same_run_refl
             |discriminate]. }
  apply same_run_os_remove in H5.
  inversion H; subst. clear H.
  assert (Hall : same_run wk w').
  { repeat (eapply same_run_trans; [eassumption|]). apply same_run_refl. }
  split; [eapply same_run_trans; eassumption|].
  intros key Hkey. inversion Hkey; subst. split; [reflexivity|].
  destruct Hall as [_ Hall]. simpl in Hall. lia.
Qed.

Lemma same_run_create_temp_file recipes bucket :
  steps same_run (create_temp_file recipes bucket).
Proof. intros w r w' H. apply create_temp_file_key in H as [H _]. exact H. Qed.

(** What publishing does, according to the oracle. *)
Lemma send_message_to_queue_run environ temp_key w :
  send_message_to_queue environ temp_key w
  = match raises (env w)
            (SendMessage (QUEUE_URL environ) (notification_for environ w temp_key)) with
    | Some e => (Raise e, w)
    | None =>
        (Ok (http_status (env w) (notification_for environ w temp_key)),
         set_queue (queue w ++ [notification_for environ w temp_key])%list w)
    end.
Proof.
  unfold send_message_to_queue, sqs_send_message, Eff.mbind, external.
  fold (notification_for environ w temp_key).
  destruct (raises (env w) _); reflexivity.
Qed.

Lemma same_run_send_message environ temp_key :
  steps same_run (send_message_to_queue environ temp_key).
Proof.
  intros w r w' H. rewrite send_message_to_queue_run in H.
  destruct (raises (env w) _); same_run_step H.
Qed.

Lemma same_run_extract_body environ recipes : steps same_run (extract_body environ recipes).
Proof.
  unfold extract_body.
  apply steps_bind; [apply same_run_trans|apply steps_lift, same_run_refl|intros split].
  apply steps_bind; [apply same_run_trans|apply same_run_create_temp_file|intros temp_key].
  apply steps_bind; [apply same_run_trans| |intros _].
  { apply steps_when; [apply same_run_refl|].
    apply steps_bind; [apply same_run_trans|apply same_run_create_temp_file|intros failed_key].
    apply steps_when; [apply same_run_refl|apply same_run_print]. }
  apply steps_bind; [apply same_run_trans|apply same_run_send_message|intros status].
  apply steps_bind; [apply same_run_trans| |intros _; apply steps_ret, same_run_refl].
  apply steps_when; [apply same_run_refl|apply same_run_print].
Qed.

Lemma same_run_extract_recipe_data environ recipes :
  steps same_run (extract_recipe_data environ recipes).
Proof.
  unfold extract_recipe_data.
  apply steps_try_except; [apply same_run_trans|apply same_run_extract_body|intros e].
  apply steps_bind; [apply same_run_trans|apply same_run_print|intros _].
  apply steps_ret, same_run_refl.
Qed.

Lemma same_run_threaded_extraction environ batches :
  steps same_run (threaded_extraction environ batches).
Proof.
  unfold threaded_extraction.
  apply steps_bind; [apply same_run_trans|apply steps_lift, same_run_refl|intros _].
  apply steps_map_each; [apply same_run_refl|apply same_run_trans|].
  intros batch. apply same_run_extract_recipe_data.
Qed.

Lemma same_run_handle_record environ record : steps same_run (handle_record environ record).
Proof.
  unfold handle_record.
  apply steps_bind; [apply same_run_trans| |intros raw_data].
  { apply steps_bind; [apply same_run_trans|apply same_run_external|intros _].
    intros w r w' H.
    destruct (raw_object (env w) _ _); same_run_step H. }
  apply steps_bind; [apply same_run_trans|apply steps_lift, same_run_refl|intros recipes].
  apply steps_bind; [apply same_run_trans|apply steps_lift, same_run_refl|intros batches].
  apply steps_bind; [apply same_run_trans|apply same_run_threaded_extraction|intros results].
  apply steps_when; [apply same_run_refl|apply same_run_print].
Qed.

(** ** The notifications a batch publishes *)

Lemma keeps_queue_quarantine environ invalid : keeps_queue (quarantine environ invalid).
Proof.
  unfold quarantine, Eff.when. destruct (negb _); [|apply keeps_queue_ret].
  apply keeps_queue_bind; [apply keeps_queue_create_temp_file|intros failed_key].
  destruct (negb _); [apply keeps_queue_print|apply keeps_queue_ret].
Qed.

Lemma same_run_quarantine environ invalid : steps same_run (quarantine environ invalid).
Proof.
  unfold quarantine.
  apply steps_when; [apply same_run_refl|].
  apply steps_bind; [apply same_run_trans|apply same_run_create_temp_file|intros failed_key].
  apply steps_when; [apply same_run_refl|apply same_run_print].
Qed.

(** The body of the [try] block publishes the notification for its key
    when it returns, and nothing when it raises. *)
Lemma extract_body_queue environ recipes w r w' :
  extract_body environ recipes w = (r, w') ->
  match r with
  | Ok (Some key) =>
      key = next_key w /\ (next_uuid w < next_uuid w')%nat
      /\ queue w' = (queue w ++ [notification_for environ w key])%list
  | Ok None => False
  | Raise _ => queue w' = queue w
  end.
Proof.
  unfold extract_body. intros H.
  apply eff_bind_inv in H as [(split & w1 & Hsplit & H)|(e & He & ->)];
    [|inversion He; reflexivity].
  assert (w1 = w) as -> by (inversion Hsplit; reflexivity). clear Hsplit.
  apply eff_bind_inv in H as [(temp_key & w2 & Hvalid & H)|(e & He & ->)];
    [|eapply keeps_queue_create_temp_file; exact He].
  pose proof (keeps_queue_create_temp_file _ _ _ _ _ Hvalid) as Hq2.
  destruct (create_temp_file_key _ _ _ _ _ Hvalid) as [[He2 _] Hkey].
  destruct (Hkey _ eq_refl) as [-> Hlt]. clear Hkey.
  fold (quarantine environ (snd split)) in H.
  apply eff_bind_inv in H as [(u & w3 & Hinvalid & H)|(e & He & ->)].
  - pose proof (keeps_queue_quarantine _ _ _ _ _ Hinvalid) as Hq3.
    pose proof (same_run_quarantine _ _ _ _ _ Hinvalid) as [He3 Hu3].
    apply eff_bind_inv in H as [(status & w4 & Hsend & H)|(e & He & ->)].
    + rewrite send_message_to_queue_run in Hsend.
      destruct (raises (env w3) _); [discriminate Hsend|].
      inversion Hsend; subst status w4. clear Hsend.
      apply eff_bind_inv in H as [(u' & w5 & Hp & H)|(e & Hbad & _)].
      * assert (Hw5 : queue w5 = (queue w3 ++ [notification_for environ w3 (next_key w)])%list
                      /\ next_uuid w5 = next_uuid w3).
        { destruct (negb _); inversion Hp; subst; split; reflexivity. }
        destruct Hw5 as [Hq5 Hu5].
        inversion H; subst. clear H.
        split; [reflexivity|]. split; [lia|].
        rewrite Hq5, Hq3, Hq2. unfold notification_for. rewrite He3, He2. reflexivity.
      * destruct (negb _); discriminate Hbad.
    + rewrite send_message_to_queue_run in He.
      destruct (raises (env w3) _); [|discriminate He].
      inversion He; subst. congruence.
  - apply keeps_queue_quarantine in He. congruence.
Qed.

(** The same for the batch: a key comes with its notification, the
    sentinel with none. *)
Lemma extract_recipe_data_queue environ recipes w r w' :
  extract_recipe_data environ recipes w = (Ok r, w') ->
  match r with
  | Some key =>
      key = next_key w /\ (next_uuid w < next_uuid w')%nat
      /\ queue w' = (queue w ++ [notification_for environ w key])%list
  | None => queue w' = queue w
  end.
Proof.
  rewrite extract_recipe_data_unfold.
  destruct (extract_body environ recipes w) as [[r0|e] w0] eqn:E; intros H.
  - inversion H; subst. apply extract_body_queue in E.
    destruct r as [key|]; [exact E|contradiction].
  - inversion H; subst. apply extract_body_queue in E. exact E.
Qed.

Lemma notification_for_same_run environ w w' key :
  same_run w w' -> notification_for environ w' key = notification_for environ w key.
Proof. intros [E _]. unfold notification_for. rewrite E. reflexivity. Qed.

(** The fan-out as it is run here, one batch after the other: the queue
    grows by the notifications of the keys returned, and every key is
    generated with an identifier handed out during the fan-out. *)
Lemma map_each_queue environ batches : forall w results w',
  Eff.map_each (extract_recipe_data environ) batches w = (Ok results, w') ->
  queue w' = (queue w ++ map (notification_for environ w) (keys_of results))%list
  /\ Forall (fun key => exists n, (next_uuid w <= n < next_uuid w')%nat /\ key = key_at w n)
       (keys_of results)
  /\ ((forall m n, uuid4 (env w) m = uuid4 (env w) n -> m = n) -> NoDup (keys_of results)).
Proof.
  induction batches as [|batch batches IH]; intros w results w' H; cbn [Eff.map_each] in H.
  - inversion H; subst. cbn [keys_of omap map]. rewrite app_nil_r.
    split; [reflexivity|]. split; [constructor|]. intros _. constructor.
  - apply eff_bind_Ok_inv in H as (r & w1 & Hr & H).
    apply eff_bind_Ok_inv in H as (rs & w2 & Hrs & H).
    inversion H; subst. clear H.
    pose proof (same_run_extract_recipe_data _ _ _ _ _ Hr) as Hs1.
    pose proof (steps_map_each same_run same_run_refl same_run_trans _ batches
                  (same_run_extract_recipe_data environ) _ _ _ Hrs) as Hs2.
    apply extract_recipe_data_queue in Hr.
    destruct (IH _ _ _ Hrs) as (Hq & Hkeys & Hnodup).
    assert (Hkeys' : Forall (fun key => exists n,
              (next_uuid w1 <= n < next_uuid w')%nat /\ key = key_at w n) (keys_of rs)).
    { eapply Forall_impl; [exact Hkeys|]. intros key (n & Hn & ->).
      exists n. split; [exact Hn|]. unfold key_at. destruct Hs1 as [-> _]. reflexivity. }
    assert (Hmap : map (notification_for environ w1) (keys_of rs)
                   = map (notification_for environ w) (keys_of rs)).
    { apply map_ext. intros key. apply notification_for_same_run. exact Hs1. }
    destruct Hs1 as [He1 Hu1]. destruct Hs2 as [He2 Hu2].
    destruct r as [key|].
    + destruct Hr as (-> & Hlt & Hq1).
      change (keys_of (Some (next_key w) :: rs)) with (next_key w :: keys_of rs).
      split; [|split].
      * rewrite Hq, Hq1, Hmap. cbn [map]. rewrite <- app_assoc. reflexivity.
      * constructor.
        -- exists (next_uuid w). split; [lia|reflexivity].
        -- eapply Forall_impl; [exact Hkeys'|]. intros key (n & Hn & ->).
           exists n. split; [lia|reflexivity].
      * intros Hinj. constructor.
        -- intros Hin. rewrite Forall_forall in Hkeys'.
           destruct (Hkeys' _ Hin) as (n & Hn & Hkey).
           unfold next_key, key_at in Hkey.
           apply append_cancel_l in Hkey. apply append_cancel_l in Hkey.
           apply append_cancel_r in Hkey. apply Hinj in Hkey. lia.
        -- apply Hnodup. rewrite He1. exact Hinj.
    + change (keys_of (None :: rs)) with (keys_of rs).
      split; [|split].
      * rewrite Hq, Hr, Hmap. reflexivity.
      * eapply Forall_impl; [exact Hkeys'|]. intros key (n & Hn & ->).
        exists n. split; [lia|reflexivity].
      * intros Hinj. apply Hnodup. rewrite He1. exact Hinj.
Qed.

(** ** A batch in a run where no call fails *)

Lemma TEMP_BUCKET_str environ : TEMP_BUCKET environ = VStr (temp_bucket environ).
Proof.
  unfold temp_bucket, TEMP_BUCKET, os_environ_get.
  destruct (environ !! "TEMP_BUCKET"); reflexivity.
Qed.

Lemma FAILED_BUCKET_str environ : FAILED_BUCKET environ = VStr (failed_bucket environ).
Proof.
  unfold failed_bucket, FAILED_BUCKET, os_environ_get.
  destruct (environ !! "FAILED_BUCKET"); reflexivity.
Qed.

Lemma is_empty_next_key w : is_empty (next_key w) = false.
Proof. unfold next_key. destruct (strftime_now (env w)); reflexivity. Qed.

Lemma quiet_same_env w w' : env w' = env w -> quiet w -> quiet w'.
Proof. intros E H o. rewrite E. apply H. Qed.

(** The quarantine step when no call fails. *)
Lemma quarantine_quiet environ invalid w :
  quiet w ->
  exists w',
    quarantine environ invalid w = (Ok tt, w')
    /\ env w' = env w
    /\ queue w' = queue w
    /\ s3_objects w'
       = match invalid with
         | [] => s3_objects w
         | _ => <[(failed_bucket environ, next_key w) := invalid]> (s3_objects w)
         end
    /\ stdout w'
       = (stdout w ++ match invalid with
                      | [] => []
                      | _ => [creating_line (FAILED_BUCKET environ) (next_key w);
                              saved_line (next_key w)]
                      end)%list.
Proof.
  intros Hq. unfold quarantine. destruct invalid as [|r invalid].
  - exists w. cbn [length Nat.eqb negb Eff.when]. rewrite app_nil_r.
    repeat split; reflexivity.
  - cbn [length Nat.eqb negb Eff.when].
    destruct (create_temp_file_run w (r :: invalid) (failed_bucket environ)
                (Hq _) (Hq _) (Hq _) (Hq _))
      as (w1 & Hrun & He & _ & Hs3 & _ & _ & Hqu & Hout).
    rewrite <- (FAILED_BUCKET_str environ) in Hrun, Hout.
    unfold Eff.mbind at 1. rewrite Hrun. rewrite is_empty_next_key.
    cbn [negb Eff.when]. eexists. split; [reflexivity|].
    cbn [print env queue s3_objects stdout set_stdout].
    split; [exact He|]. split; [exact Hqu|]. split; [exact Hs3|].
    rewrite Hout, <- app_assoc. reflexivity.
Qed.

(** The body of the [try] block when every record is a container and no
    call fails: the objects written, the notification published and the
    lines printed. *)
Lemma extract_body_quiet environ recipes w :
  Forall (fun r => is_container r = true) recipes -> quiet w ->
  let valid := filter (fun r => is_valid r) recipes in
  let invalid := filter (fun r => negb (is_valid r)) recipes in
  let temp_key := next_key w in
  let failed_key := key_at w (S (next_uuid w)) in
  let status := http_status (env w) (notification_for environ w temp_key) in
  exists w',
    extract_body environ recipes w = (Ok (Some temp_key), w')
    /\ s3_objects w'
       = match invalid with
         | [] => <[(temp_bucket environ, temp_key) := valid]> (s3_objects w)
         | _ => <[(failed_bucket environ, failed_key) := invalid]>
                  (<[(temp_bucket environ, temp_key) := valid]> (s3_objects w))
         end
    /\ queue w' = (queue w ++ [notification_for environ w temp_key])%list
    /\ stdout w'
       = (stdout w ++ [creating_line (TEMP_BUCKET environ) temp_key]
          ++ match invalid with
             | [] => []
             | _ => [creating_line (FAILED_BUCKET environ) failed_key; saved_line failed_key]
             end
          ++ (if status =? 200 then [] else [status_line temp_key status]))%list.
Proof.
  intros Hc Hq valid invalid temp_key failed_key status.
  unfold extract_body.
  unfold Eff.mbind at 1, Eff.lift at 1.
  rewrite (split_recipes_containers recipes [] [] Hc). cbn [app fst snd].
  fold valid invalid.
  destruct (create_temp_file_run w valid (temp_bucket environ) (Hq _) (Hq _) (Hq _) (Hq _))
    as (w1 & Hrun1 & He1 & Hu1 & Hs1 & _ & _ & Hq1 & Ho1).
  rewrite <- (TEMP_BUCKET_str environ) in Hrun1, Ho1.
  fold temp_key in Hrun1, Hs1, Ho1.
  unfold Eff.mbind at 1. rewrite Hrun1.
  fold (quarantine environ invalid).
  destruct (quarantine_quiet environ invalid w1 (quiet_same_env _ _ He1 Hq))
    as (w2 & Hrun2 & He2 & Hq2 & Hs2 & Ho2).
  assert (Hk2 : next_key w1 = failed_key).
  { unfold next_key, failed_key, key_at. rewrite He1, Hu1. reflexivity. }
  rewrite Hk2 in Hs2, Ho2.
  unfold Eff.mbind at 1. rewrite Hrun2.
  unfold Eff.mbind at 1. rewrite send_message_to_queue_run.
  assert (Hn : notification_for environ w2 temp_key = notification_for environ w temp_key).
  { unfold notification_for. rewrite He2, He1. reflexivity. }
  rewrite Hn. rewrite (quiet_same_env _ _ He2 (quiet_same_env _ _ He1 Hq)).
  assert (Hst : http_status (env w2) (notification_for environ w temp_key) = status).
  { unfold status. rewrite He2, He1. reflexivity. }
  rewrite Hst.
  unfold Eff.mbind at 1.
  fold (status_line temp_key status).
  destruct (status =? 200); cbn [negb Eff.when].
  - eexists. split; [reflexivity|].
    cbn [Eff.ret s3_objects queue stdout set_queue]. rewrite Hq2, Hq1, Ho2, Ho1, Hs2, Hs1.
    split; [destruct invalid; reflexivity|]. split; [reflexivity|].
    rewrite app_nil_r, <- app_assoc. reflexivity.
  - eexists. split; [reflexivity|].
    cbn [print Eff.ret s3_objects queue stdout set_queue set_stdout].
    rewrite Hq2, Hq1, Ho2, Ho1, Hs2, Hs1.
    split; [destruct invalid; reflexivity|]. split; [reflexivity|].
    rewrite <- !app_assoc. reflexivity.
Qed.

(** The batch in such a run. *)
Lemma extract_recipe_data_quiet environ recipes w :
  Forall (fun r => is_container r = true) recipes -> quiet w ->
  let valid := filter (fun r => is_valid r) recipes in
  let invalid := filter (fun r => negb (is_valid r)) recipes in
  exists w',
    extract_recipe_data environ recipes w = (Ok (Some (next_key w)), w')
    /\ s3_objects w'
       = match invalid with
         | [] => <[(temp_bucket environ, next_key w) := valid]> (s3_objects w)
         | _ => <[(failed_bucket environ, key_at w (S (next_uuid w))) := invalid]>
                  (<[(temp_bucket environ, next_key w) := valid]> (s3_objects w))
         end
    /\ queue w' = (queue w ++ [notification_for environ w (next_key w)])%list.
Proof.
  intros Hc Hq valid invalid.
  destruct (extract_body_quiet environ recipes w Hc Hq) as (w' & Hrun & Hs3 & Hqu & _).
  exists w'. rewrite extract_recipe_data_unfold, Hrun.
  split; [reflexivity|]. split; [exact Hs3|exact Hqu].
Qed.

(** X5. When every record of a batch is a container and no call fails,
    the batch returns its key; the primary artifact holds the valid
    records under that key, the quarantine artifact, written only when
    there are invalid records, holds those under the next key generated,
    both in the order of the batch; and exactly one notification, for the
    primary key, is published. *)
Theorem X5_batch_without_failures (environ : gmap string string)
    (recipes : list value) (w : world) :
  Forall (fun r => is_container r = true) recipes -> quiet w ->
  let valid := filter (fun r => is_valid r) recipes in
  let invalid := filter (fun r => negb (is_valid r)) recipes in
  exists w',
    extract_recipe_data environ recipes w = (Ok (Some (next_key w)), w')
    /\ s3_objects w'
       = match invalid with
         | [] => <[(temp_bucket environ, next_key w) := valid]> (s3_objects w)
         | _ => <[(failed_bucket environ, key_at w (S (next_uuid w))) := invalid]>
                  (<[(temp_bucket environ, next_key w) := valid]> (s3_objects w))
         end
    /\ queue w' = (queue w ++ [notification_for environ w (next_key w)])%list.
Proof. apply extract_recipe_data_quiet. Qed.

Lemma X5_batch_without_failures_witness :
  exists w',
    extract_recipe_data ∅ [omelette; untitled; omelette] (quiet_world 200)
    = (Ok (Some "2025/02/17/uuid-0.parquet"), w')
    /\ s3_objects w'
       = <[("failed-recipes-bucket", "2025/02/17/uuid-1.parquet") := [untitled]]>
           (<[("temp-recipes-bucket", "2025/02/17/uuid-0.parquet") := [omelette; omelette]]> ∅)
    /\ queue w'
       = [{| source_bucket := VStr "temp-recipes-bucket";
             source_key := "2025/02/17/uuid-0.parquet";
             timestamp := "2025-02-17T12:00:00" |}].
Proof.
  exact (X5_batch_without_failures ∅ [omelette; untitled; omelette] (quiet_world 200)
           ltac:(repeat constructor) ltac:(intros o; reflexivity)).
Defined.

(** X6. A batch none of whose records is valid still writes a primary
    artifact, with no record in it, and publishes the notification for it:
    when no call fails and the two keys generated differ, the batch returns
    the key of the empty artifact, the queue gains its notification, and
    all the records are in the quarantine artifact. *)
Theorem X6_batch_of_invalid_records (environ : gmap string string)
    (recipes : list value) (w : world) :
  recipes <> [] ->
  Forall (fun r => validate_raw_data r = Ok false) recipes -> quiet w ->
  next_key w <> key_at w (S (next_uuid w)) ->
  exists w',
    extract_recipe_data environ recipes w = (Ok (Some (next_key w)), w')
    /\ s3_objects w' !! (temp_bucket environ, next_key w) = Some []
    /\ s3_objects w' !! (failed_bucket environ, key_at w (S (next_uuid w))) = Some recipes
    /\ queue w' = (queue w ++ [notification_for environ w (next_key w)])%list.
Proof.
  intros Hne Hinv Hq Hkeys.
  assert (Hc : Forall (fun r => is_container r = true) recipes).
  { eapply Forall_impl; [exact Hinv|]. intros r Hr. cbv beta in Hr.
    destruct (is_container r) eqn:E; [reflexivity|].
    rewrite (validate_scalar r E) in Hr. discriminate Hr. }
  assert (Hv : Forall (fun r => is_valid r = false) recipes).
  { eapply Forall_impl; [exact Hinv|]. intros r Hr. cbv beta in Hr.
    unfold is_valid. rewrite Hr. reflexivity. }
  assert (Hvalid : filter (fun r => is_valid r) recipes = []).
  { clear -Hv. induction Hv as [|r l Hr _ IH]; [reflexivity|].
    rewrite filter_cons, decide_False by (rewrite Hr; cbn; tauto). exact IH. }
  assert (Hinvalid : filter (fun r => negb (is_valid r)) recipes = recipes).
  { clear -Hv. induction Hv as [|r l Hr _ IH]; [reflexivity|].
    rewrite filter_cons, decide_True by (rewrite Hr; exact I). rewrite IH. reflexivity. }
  destruct (extract_recipe_data_quiet environ recipes w Hc Hq) as (w' & Hrun & Hs3 & Hqu).
  rewrite Hvalid, Hinvalid in Hs3.
  exists w'. split; [exact Hrun|].
  destruct recipes as [|r recipes]; [contradiction|].
  rewrite Hs3. split; [|split; [apply lookup_insert_eq|exact Hqu]].
  rewrite lookup_insert_ne by congruence. apply lookup_insert_eq.
Qed.

Lemma X6_batch_of_invalid_records_witness :
  exists w',
    extract_recipe_data ∅ [untitled] (quiet_world 200)
    = (Ok (Some "2025/02/17/uuid-0.parquet"), w')
    /\ s3_objects w' !! ("temp-recipes-bucket", "2025/02/17/uuid-0.parquet") = Some []
    /\ s3_objects w' !! ("failed-recipes-bucket", "2025/02/17/uuid-1.parquet")
       = Some [untitled]
    /\ queue w'
       = [{| source_bucket := VStr "temp-recipes-bucket";
             source_key := "2025/02/17/uuid-0.parquet";
             timestamp := "2025-02-17T12:00:00" |}].
Proof.
  exact (X6_batch_of_invalid_records ∅ [untitled] (quiet_world 200)
           ltac:(discriminate) ltac:(repeat constructor) ltac:(intros o; reflexivity)
           ltac:(vm_compute; discriminate)).
Defined.

(** X7. A queue acknowledgment whose status is not 200 does not fail the
    batch: when every record is a container and no call raises, the batch
    returns its key and the notification is on the queue; the status only
    adds a last line to the output. *)
Theorem X7_bad_status_is_only_logged (environ : gmap string string)
    (recipes : list value) (w : world) :
  Forall (fun r => is_container r = true) recipes -> quiet w ->
  http_status (env w) (notification_for environ w (next_key w)) <> 200 ->
  exists w' detail,
    extract_recipe_data environ recipes w = (Ok (Some (next_key w)), w')
    /\ queue w' = (queue w ++ [notification_for environ w (next_key w)])%list
    /\ last (stdout w')
       = Some ("Error sending message to queue for " ++ next_key w ++ ": " ++ detail).
Proof.
  intros Hc Hq Hstatus.
  destruct (extract_body_quiet environ recipes w Hc Hq) as (w' & Hrun & _ & Hqu & Hout).
  exists w'. eexists. rewrite extract_recipe_data_unfold, Hrun.
  split; [reflexivity|]. split; [exact Hqu|].
  rewrite Hout.
  destruct (Z.eqb_spec (http_status (env w) (notification_for environ w (next_key w))) 200)
    as [E|_]; [contradiction|].
  rewrite !app_assoc. rewrite last_snoc. reflexivity.
Qed.

Lemma X7_bad_status_is_only_logged_witness :
  exists w' detail,
    extract_recipe_data ∅ [omelette] (quiet_world 500)
    = (Ok (Some "2025/02/17/uuid-0.parquet"), w')
    /\ queue w'
       = [{| source_bucket := VStr "temp-recipes-bucket";
             source_key := "2025/02/17/uuid-0.parquet";
             timestamp := "2025-02-17T12:00:00" |}]
    /\ last (stdout w')
       = Some ("Error sending message to queue for " ++ "2025/02/17/uuid-0.parquet"
               ++ ": " ++ detail).
Proof.
  exact (X7_bad_status_is_only_logged ∅ [omelette] (quiet_world 500)
           ltac:(repeat constructor) ltac:(intros o; reflexivity) ltac:(discriminate)).
Defined.

(** ** The handler, record by record *)

Lemma read_recipes_keeps_world bucket key w r w' :
  read_recipes bucket key w = (r, w') -> w' = w.
Proof.
  unfold read_recipes, s3_get_object, Eff.mbind, external, Eff.lift.
  destruct (raises (env w) _); [intros H; inversion H; reflexivity|].
  destruct (raw_object (env w) bucket key); intros H; inversion H; reflexivity.
Qed.

(** What the handler does with a record once its object has been read. *)
Lemma handle_record_read environ bucket key w :
  handle_record environ (bucket, key) w
  = match read_recipes bucket key w with
    | (Ok recipes, w1) =>
        (batches <~ Eff.lift (make_batches (BATCH_SIZE environ) recipes) ;;
         results <~ threaded_extraction environ batches ;;
         Eff.when (negb (Nat.eqb (List.length results) 0))
           (print (summary (List.length recipes) (List.length results)
                     (List.length (filter (fun r => is_None r) results))))) w1
    | (Raise e, w1) => (Raise e, w1)
    end.
Proof.
  unfold handle_record, read_recipes. cbn [fst snd]. unfold Eff.mbind.
  destruct (s3_get_object bucket key w) as [[raw|e] w1]; [|reflexivity].
  unfold Eff.lift. destruct (json_load raw); reflexivity.
Qed.

Lemma handle_record_defaults environ bucket key recipes w :
  defaults environ ->
  read_recipes bucket key w = (Ok recipes, w) ->
  exists w', handle_record environ (bucket, key) w = (Ok tt, w').
Proof.
  intros [Hb Hm] Hread. rewrite handle_record_read, Hread.
  unfold BATCH_SIZE. rewrite (environ_get_unset _ _ _ Hb).
  unfold Eff.mbind at 1, Eff.lift at 1. rewrite make_batches_int by lia.
  set (batches := chunks _ _ recipes).
  destruct (map_each_extract environ batches w) as (results & w1 & Hrun & _).
  assert (Hpool : threaded_extraction environ batches w = (Ok results, w1)).
  { unfold threaded_extraction, MAX_WORKERS. rewrite (environ_get_unset _ _ _ Hm).
    unfold Eff.mbind at 1, Eff.lift. cbn [ThreadPoolExecutor Z.leb Z.compare].
    exact Hrun. }
  unfold Eff.mbind at 1. rewrite Hpool.
  destruct (negb _); eexists; reflexivity.
Qed.

Lemma read_recipes_readable bucket key w :
  raises (env w) (GetObject bucket key) = None ->
  (exists recipes, raw_object (env w) bucket key = Some (Some recipes)) ->
  exists recipes, read_recipes bucket key w = (Ok recipes, w).
Proof.
  intros Hget [recipes Hraw]. exists recipes.
  unfold read_recipes, s3_get_object, Eff.mbind, external, Eff.lift.
  rewrite Hget, Hraw. reflexivity.
Qed.

Lemma for_each_handle_record environ event : forall w,
  defaults environ -> readable w event ->
  exists w', Eff.for_each (handle_record environ) event w = (Ok tt, w').
Proof.
  induction event as [|[bucket key] event IH]; intros w Hd Hr.
  - exists w. reflexivity.
  - destruct (Hr bucket key ltac:(left)) as [Hget Hraw].
    destruct (read_recipes_readable bucket key w Hget Hraw) as [recipes Hread].
    destruct (handle_record_defaults environ bucket key recipes w Hd Hread) as [w1 Hrun].
    pose proof (same_run_handle_record _ _ _ _ _ Hrun) as [He _].
    destruct (IH w1 Hd) as [w2 Hrest].
    { intros b k Hin. rewrite He. apply Hr. right. exact Hin. }
    exists w2. cbn [Eff.for_each]. unfold Eff.mbind. rewrite Hrun. exact Hrest.
Qed.

(** X8. With the batch size and the worker count left at their defaults,
    the handler returns status 200 for every event whose objects can be
    read and hold JSON arrays, whatever else fails: no failure while the
    batches are validated, written or published reaches the response. *)
Theorem X8_handler_reports_success (environ : gmap string string)
    (event : list (string * string)) (w : world) :
  defaults environ -> readable w event ->
  exists w', lambda_handler environ event w = (Ok 200, w').
Proof.
  intros Hd Hr. destruct (for_each_handle_record environ event w Hd Hr) as [w' Hrun].
  exists w'. unfold lambda_handler, Eff.mbind. rewrite Hrun. reflexivity.
Qed.

Lemma X8_handler_reports_success_witness :
  exists w', lambda_handler ∅ [("raw-recipes-data", "recipes.json")] (quiet_world 200)
             = (Ok 200, w').
Proof.
  apply (X8_handler_reports_success ∅ [("raw-recipes-data", "recipes.json")]
           (quiet_world 200)).
  - split; reflexivity.
  - intros bucket key Hin. apply list_elem_of_singleton in Hin. inversion Hin; subst.
    split; [reflexivity|]. eexists. reflexivity.
Defined.

Lemma for_each_app_raise {W A} (f : A -> Eff.M W unit) done x rest : forall w w1 e w2,
  Eff.for_each f done w = (Ok tt, w1) ->
  f x w1 = (Raise e, w2) ->
  Eff.for_each f (done ++ x :: rest)%list w = (Raise e, w2).
Proof.
  induction done as [|d done IH]; intros w w1 e w2 Hdone Hx.
  - inversion Hdone; subst. cbn [app Eff.for_each]. unfold Eff.mbind. rewrite Hx. reflexivity.
  - cbn [Eff.for_each] in Hdone. apply eff_bind_Ok_inv in Hdone as (u & w0 & Hd & Hdone).
    cbn [app Eff.for_each]. unfold Eff.mbind at 1. rewrite Hd.
    eapply IH; eassumption.
Qed.

(** X9. An object that cannot be read, or that does not hold JSON, is
    not caught by the handler: it raises the exception of the read with the
    world as the records before left it, nothing is written for that
    record, and the records after it are not handled. *)
Theorem X9_unreadable_object_stops_the_event (environ : gmap string string)
    (done rest : list (string * string)) (bucket key : string) (w w1 : world) (e : exn) :
  lambda_handler environ done w = (Ok 200, w1) ->
  fst (read_recipes bucket key w1) = Raise e ->
  lambda_handler environ (done ++ (bucket, key) :: rest)%list w = (Raise e, w1).
Proof.
  intros Hdone Hread. unfold lambda_handler in *.
  apply eff_bind_Ok_inv in Hdone as (u & w0 & Hdone & Hret).
  inversion Hret; subst w0. destruct u.
  unfold Eff.mbind at 1.
  rewrite (for_each_app_raise (handle_record environ) done (bucket, key) rest w w1 e w1 Hdone);
    [reflexivity|].
  rewrite handle_record_read.
  destruct (read_recipes bucket key w1) as [[recipes|e'] w2] eqn:E.
  - discriminate Hread.
  - apply read_recipes_keeps_world in E as ->. cbn [fst] in Hread.
    inversion Hread. reflexivity.
Qed.

Lemma X9_unreadable_object_stops_the_event_witness :
  lambda_handler ∅ ([] ++ ("raw-recipes-data", "broken.json")
                    :: [("raw-recipes-data", "recipes.json")])%list (quiet_world 200)
  = (Raise (Exn JSONDecodeError "Expecting value"), quiet_world 200).
Proof.
  exact (X9_unreadable_object_stops_the_event ∅ [] [("raw-recipes-data", "recipes.json")]
           "raw-recipes-data" "broken.json" (quiet_world 200) (quiet_world 200)
           (Exn JSONDecodeError "Expecting value") eq_refl eq_refl).
Defined.

(** X10. An object that holds the empty JSON array gives no batch: with
    the defaults, the handler writes no artifact, publishes no
    notification and prints no summary for it; the world is unchanged. *)
Theorem X10_empty_array_does_nothing (environ : gmap string string)
    (bucket key : string) (w : world) :
  defaults environ ->
  read_recipes bucket key w = (Ok [], w) ->
  handle_record environ (bucket, key) w = (Ok tt, w).
Proof.
  intros [Hb Hm] Hread. rewrite handle_record_read, Hread.
  unfold BATCH_SIZE, threaded_extraction, MAX_WORKERS.
  rewrite (environ_get_unset _ _ _ Hb), (environ_get_unset _ _ _ Hm).
  reflexivity.
Qed.

Lemma X10_empty_array_does_nothing_witness :
  handle_record ∅ ("raw-recipes-data", "empty.json") (quiet_world 200)
  = (Ok tt, quiet_world 200).
Proof.
  exact (X10_empty_array_does_nothing ∅ "raw-recipes-data" "empty.json" (quiet_world 200)
           (conj eq_refl eq_refl) eq_refl).
Defined.

(** ** The batches of one event *)

Lemma threaded_extraction_map_each environ batches w results w' :
  threaded_extraction environ batches w = (Ok results, w') ->
  Eff.map_each (extract_recipe_data environ) batches w = (Ok results, w').
Proof.
  unfold threaded_extraction. intros H.
  apply eff_bind_Ok_inv in H as (u & w0 & Hpool & H).
  unfold Eff.lift in Hpool. inversion Hpool; subst. exact H.
Qed.

(** X11. The keys the fan-out returns for the batches of an event are
    pairwise distinct when no identifier is handed out twice: no artifact
    of one batch is stored under the key of another. *)
Theorem X11_batch_keys_are_distinct (environ : gmap string string)
    (batches : list (list value)) (w w' : world) (results : list (option string)) :
  (forall m n, uuid4 (env w) m = uuid4 (env w) n -> m = n) ->
  threaded_extraction environ batches w = (Ok results, w') ->
  NoDup (keys_of results).
Proof.
  intros Hinj H. apply threaded_extraction_map_each in H.
  apply (map_each_queue environ batches w results w' H). exact Hinj.
Qed.

Lemma sample_uuid4_inj (m n : nat) :
  uuid4 (env sample_world) m = uuid4 (env sample_world) n -> m = n.
Proof.
  cbn [env sample_world uuid4 sample_oracle]. intros H.
  apply append_cancel_l in H. apply (inj pretty) in H. exact H.
Qed.

Lemma X11_batch_keys_are_distinct_witness :
  NoDup (keys_of [Some "2025/02/17/uuid-0.parquet"; None; None;
                  Some "2025/02/17/uuid-3.parquet"]).
Proof.
  apply (X11_batch_keys_are_distinct (∅ : gmap string string)
           [[omelette]; [VInt 3]; [omelette; untitled]; [omelette]] sample_world
           (snd (threaded_extraction ∅
                   [[omelette]; [VInt 3]; [omelette; untitled]; [omelette]] sample_world))).
  - exact sample_uuid4_inj.
  - vm_compute. reflexivity.
Defined.

Lemma keys_and_sentinels (results : list (option string)) :
  (length (keys_of results) + length (filter (fun r => is_None r) results))%nat
  = length results.
Proof.
  induction results as [|[key|] results IH]; [reflexivity| |].
  - change (keys_of (Some key :: results)) with (key :: keys_of results).
    rewrite filter_cons, decide_False by (cbn; tauto). cbn [length]. lia.
  - change (keys_of (None :: results)) with (keys_of results).
    rewrite filter_cons, decide_True by exact I. cbn [length]. lia.
Qed.

Lemma map_each_length {W A B} (f : A -> Eff.M W B) xs : forall w ys w',
  Eff.map_each f xs w = (Ok ys, w') -> length ys = length xs.
Proof.
  induction xs as [|x xs IH]; intros w ys w' H; cbn [Eff.map_each] in H.
  - inversion H. reflexivity.
  - apply eff_bind_Ok_inv in H as (y & w1 & _ & H).
    apply eff_bind_Ok_inv in H as (ys' & w2 & Hrest & H).
    inversion H; subst. cbn [length]. f_equal. eapply IH. exact Hrest.
Qed.

(** X12. The fan-out publishes exactly the notifications of the batches
    that returned a key, one for each such key and no other, each naming
    the temporary bucket: a batch that returns the sentinel has published
    nothing, and the batches counted as failed and the notifications
    published add up to the number of batches. *)
Theorem X12_notifications_match_results (environ : gmap string string)
    (batches : list (list value)) (w w' : world) (results : list (option string)) :
  threaded_extraction environ batches w = (Ok results, w') ->
  exists published,
    queue w' = (queue w ++ published)%list
    /\ map source_key published ≡ₚ keys_of results
    /\ Forall (fun m => source_bucket m = TEMP_BUCKET environ) published
    /\ (length published + length (filter (fun r => is_None r) results))%nat
       = length batches.
Proof.
  intros H. apply threaded_extraction_map_each in H.
  destruct (map_each_queue environ batches w results w' H) as (Hq & _ & _).
  exists (map (notification_for environ w) (keys_of results)).
  split; [exact Hq|]. split; [|split].
  - rewrite map_map. cbn [notification_for source_key]. rewrite map_id. reflexivity.
  - apply Forall_forall. intros m Hm. apply list_elem_of_fmap in Hm as (key & -> & _).
    reflexivity.
  - rewrite length_map, keys_and_sentinels. eapply map_each_length. exact H.
Qed.

Lemma X12_notifications_match_results_witness :
  exists published,
    queue (snd (threaded_extraction ∅ [[VInt 3]; [omelette]] sample_world))
    = (queue sample_world ++ published)%list
    /\ map source_key published ≡ₚ keys_of [None; Some "2025/02/17/uuid-0.parquet"]
    /\ Forall (fun m => source_bucket m = TEMP_BUCKET ∅) published
    /\ (length published
        + length (filter (fun r => is_None r)
                    [None; Some "2025/02/17/uuid-0.parquet"]))%nat
       = length [[VInt 3]; [omelette]].
Proof.
  apply (X12_notifications_match_results (∅ : gmap string string)
           [[VInt 3]; [omelette]] sample_world).
  vm_compute. reflexivity.
Defined.

(** ** Isolation of batch failures in the fan-out *)





(** In the sample world, where uploads to the quarantine bucket are
    refused: the batch with a number and the batch with an invalid record
    fail, the two others return a key. *)
Example four_batches_two_failures :
  exists first fourth,
    fst (threaded_extraction ∅ [[omelette]; [VInt 3]; [omelette; untitled]; [omelette]]
           sample_world)
    = Ok [Some first; None; None; Some fourth].
Proof. eexists. eexists. vm_compute. reflexivity. Qed.

End ExtractionRunsProperties.

Section TransformationRunsProperties.
Import Transformation.

(** ** The time estimate on other inputs *)

(** One step of the outer loop on a direction that is a str. *)
Lemma directions_loop_cons direction rest time_estimate :
  fits direction = true ->
  directions_loop (VStr direction :: rest) time_estimate
  = directions_loop rest (time_estimate + direction_seconds direction).
Proof.
  intros Hfit. cbn [directions_loop findall_value bind].
  rewrite matches_loop_spec by (apply findall_well_formed || exact Hfit).
  cbn [bind fst snd orb]. rewrite direction_seconds_eq. cbn zeta.
  destruct (omap mention_seconds _) as [|x xs];
    cbn [is_nil negb sum_Z fold_right]; f_equal; lia.
Qed.

Lemma directions_loop_app pre rest : forall time_estimate,
  Forall (fun d => fits d = true) pre ->
  directions_loop (map VStr pre ++ rest)%list time_estimate
  = directions_loop rest (time_estimate + sum_Z (map direction_seconds pre)).
Proof.
  induction pre as [|d pre IH]; intros te Hfit.
  - cbn [map app sum_Z fold_right]. rewrite Z.add_0_r. reflexivity.
  - apply Forall_cons in Hfit as [Hd Hpre].
    cbn [map app]. rewrite directions_loop_cons by exact Hd. rewrite IH by exact Hpre.
    change (sum_Z (?x :: ?l)) with (x + sum_Z l).
    f_equal. lia.
Qed.

(** The pattern needs two characters: a digit and a word character. *)
Lemma findall_one_character (a : ascii) :
  Re.findall time_pattern (String a EmptyString) = [].
Proof. destruct a as [[] [] [] [] [] [] [] []]; reflexivity. Qed.

Lemma sum_Z_app (l1 l2 : list Z) : sum_Z (l1 ++ l2) = sum_Z l1 + sum_Z l2.
Proof.
  induction l1 as [|x l1 IH]; [reflexivity|].
  cbn [app]. change (sum_Z (x :: l1 ++ l2)) with (x + sum_Z (l1 ++ l2)).
  change (sum_Z (x :: l1)) with (x + sum_Z l1). rewrite IH. lia.
Qed.

Lemma sum_Z_characters (chars : list ascii) :
  sum_Z (map direction_seconds (map (fun a => String a EmptyString) chars))
  = 300 * Z.of_nat (length chars).
Proof.
  induction chars as [|a chars IH]; [reflexivity|].
  cbn [map]. change (sum_Z (?x :: ?l)) with (x + sum_Z l). rewrite IH.
  assert (E : direction_seconds (String a EmptyString) = 300).
  { unfold direction_seconds. rewrite findall_one_character. reflexivity. }
  rewrite E. cbn [length]. lia.
Qed.

Lemma fits_characters (chars : list ascii) :
  Forall (fun d => fits d = true) (map (fun a => String a EmptyString) chars).
Proof.
  apply Forall_forall. intros d Hd. apply list_elem_of_fmap in Hd as (a & -> & _).
  unfold fits. rewrite findall_one_character. reflexivity.
Qed.

Lemma length_list_ascii_of_string (s : string) :
  length (list_ascii_of_string s) = String.length s.
Proof. induction s as [|a s IH]; [reflexivity|]. cbn. rewrite IH. reflexivity. Qed.

(** X13. Directions given as one str instead of a list of strs are
    looped over character by character; no single character matches the
    pattern, so the estimate is 300 seconds for each character of the
    text, whatever times the text mentions. *)
Theorem X13_directions_as_one_string (s : string) :
  get_time_estimate (VStr s) = Ok (300 * Z.of_nat (String.length s)).
Proof.
  unfold get_time_estimate. cbn [py_iter bind].
  rewrite <- (map_map (fun a => String a EmptyString) VStr).
  rewrite directions_loop_spec by apply fits_characters.
  rewrite sum_Z_characters, length_list_ascii_of_string. reflexivity.
Qed.

(** X14. A direction that is not a str makes the estimate raise a
    [TypeError], whatever follows it and whatever strs come before it,
    provided the estimate gets past those: every number they hold before a
    unit has at most 4300 digits. *)
Theorem X14_direction_must_be_a_string (pre : list string) (v : value) (post : list value) :
  Forall (fun d => fits d = true) pre ->
  (forall s, v <> VStr s) ->
  exists msg,
    get_time_estimate (VList (map VStr pre ++ v :: post)) = Raise (Exn TypeError msg).
Proof.
  intros Hfit Hv. unfold get_time_estimate. cbn [py_iter bind].
  rewrite directions_loop_app by exact Hfit. cbn [directions_loop].
  destruct v; try (eexists; reflexivity).
  exfalso. eapply Hv. reflexivity.
Qed.

Lemma X14_direction_must_be_a_string_witness :
  exists msg,
    get_time_estimate (VList (map VStr ["Boil for 10 minutes"] ++ VNone :: [VStr "Serve"]))
    = Raise (Exn TypeError msg).
Proof.
  exact (X14_direction_must_be_a_string ["Boil for 10 minutes"] VNone [VStr "Serve"]
           ltac:(repeat constructor) ltac:(discriminate)).
Defined.

(** ** The estimate as a sum *)

Lemma get_time_estimate_strings (directions : list string) :
  Forall (fun d => fits d = true) directions ->
  get_time_estimate (VList (map VStr directions)) = Ok (estimate directions).
Proof.
  intros Hfit. unfold get_time_estimate. cbn [py_iter bind].
  rewrite directions_loop_spec by exact Hfit. reflexivity.
Qed.

Lemma sum_Z_Permutation (l1 l2 : list Z) : l1 ≡ₚ l2 -> sum_Z l1 = sum_Z l2.
Proof.
  induction 1 as [|x l1 l2 _ IH|x y l|l1 l2 l3 _ IH1 _ IH2].
  - reflexivity.
  - change (x + sum_Z l1 = x + sum_Z l2). lia.
  - change (y + (x + sum_Z l) = x + (y + sum_Z l)). lia.
  - congruence.
Qed.

(** X15. When every number before a unit has at most 4300 digits, the
    estimate of a list of strs is a sum over its strs: the estimate of two
    lists joined is the sum of their estimates, and so is the estimate of
    the joined list in any other order. *)
Theorem X15_estimate_is_additive (l1 l2 : list string) :
  Forall (fun d => fits d = true) l1 -> Forall (fun d => fits d = true) l2 ->
  get_time_estimate (VList (map VStr l1)) = Ok (estimate l1)
  /\ get_time_estimate (VList (map VStr l2)) = Ok (estimate l2)
  /\ get_time_estimate (VList (map VStr (l1 ++ l2))) = Ok (estimate l1 + estimate l2)
  /\ (forall l : list string,
        l ≡ₚ (l1 ++ l2)%list ->
        get_time_estimate (VList (map VStr l)) = Ok (estimate l1 + estimate l2)).
Proof.
  intros H1 H2.
  assert (Hsum : estimate (l1 ++ l2) = estimate l1 + estimate l2)
    by (unfold estimate; rewrite map_app, sum_Z_app; reflexivity).
  split; [apply get_time_estimate_strings; exact H1|].
  split; [apply get_time_estimate_strings; exact H2|].
  split.
  - rewrite get_time_estimate_strings by (apply Forall_app; split; assumption).
    rewrite Hsum. reflexivity.
  - intros l Hl. rewrite get_time_estimate_strings.
    + rewrite <- Hsum. f_equal. apply sum_Z_Permutation, fmap_Permutation, Hl.
    + rewrite Hl. apply Forall_app. split; assumption.
Qed.

Lemma X15_estimate_is_additive_witness :
  get_time_estimate (VList (map VStr ["Boil for 10 minutes"]))
  = Ok (estimate ["Boil for 10 minutes"])
  /\ get_time_estimate (VList (map VStr ["Wait 2 hours"; "Serve"]))
     = Ok (estimate ["Wait 2 hours"; "Serve"])
  /\ get_time_estimate (VList (map VStr (["Boil for 10 minutes"] ++ ["Wait 2 hours"; "Serve"])))
     = Ok (estimate ["Boil for 10 minutes"] + estimate ["Wait 2 hours"; "Serve"])
  /\ (forall l : list string,
        l ≡ₚ (["Boil for 10 minutes"] ++ ["Wait 2 hours"; "Serve"])%list ->
        get_time_estimate (VList (map VStr l))
        = Ok (estimate ["Boil for 10 minutes"] + estimate ["Wait 2 hours"; "Serve"])).
Proof.
  apply (X15_estimate_is_additive ["Boil for 10 minutes"] ["Wait 2 hours"; "Serve"]);
    repeat constructor.
Defined.

Lemma decimal_from_nonneg digits : forall acc,
  all_in Re.CATEGORY_DIGIT digits = true -> 0 <= acc -> 0 <= decimal_from acc digits.
Proof.
  induction digits as [|a digits IH]; intros acc H Hacc; [exact Hacc|].
  cbn [all_in] in H. apply andb_true_iff in H as [Ha H].
  cbn [decimal_from]. apply IH; [exact H|].
  cbn [Re.in_category] in Ha. unfold Re.is_digit, Re.between in Ha.
  apply andb_true_iff in Ha as [Hlo _]. apply Z.leb_le in Hlo. lia.
Qed.

Lemma mention_seconds_nonneg m x :
  well_formed m -> mention_seconds m = Some x -> 0 <= x.
Proof.
  intros (number & word & -> & _ & Hd) H. cbn [mention_seconds] in H.
  pose proof (decimal_from_nonneg number 0 Hd ltac:(lia)) as Hn.
  fold (decimal number) in Hn.
  unfold unit_seconds in H.
  repeat case_bool_decide; cbn in H; inversion H; lia.
Qed.

Lemma direction_seconds_nonneg direction : 0 <= direction_seconds direction.
Proof.
  rewrite direction_seconds_eq. cbn zeta.
  pose proof (findall_well_formed direction) as H.
  induction H as [|m ms Hm _ IH]; [cbn; lia|].
  rewrite omap_cons. destruct (mention_seconds m) as [x|] eqn:E; [|exact IH].
  apply mention_seconds_nonneg in E; [|exact Hm].
  cbn [is_nil]. change (sum_Z (x :: ?l)) with (x + sum_Z l).
  destruct (omap mention_seconds ms); cbn [is_nil sum_Z fold_right] in *; lia.
Qed.

(** X16. When every number before a unit has at most 4300 digits, the
    estimate of a list of strs is returned and is not negative. *)
Theorem X16_estimate_is_not_negative (directions : list string) :
  Forall (fun d => fits d = true) directions ->
  exists seconds,
    get_time_estimate (VList (map VStr directions)) = Ok seconds /\ 0 <= seconds.
Proof.
  intros Hfit.
  exists (estimate directions). split; [apply get_time_estimate_strings; exact Hfit|].
  clear Hfit.
  unfold estimate. induction directions as [|d ds IH]; [cbn; lia|].
  cbn [map]. change (sum_Z (?x :: ?l)) with (x + sum_Z l).
  pose proof (direction_seconds_nonneg d). lia.
Qed.

Lemma X16_estimate_is_not_negative_witness :
  exists seconds,
    get_time_estimate (VList (map VStr ["Boil for 10 minutes"; "Add 10 dashes"]))
    = Ok seconds /\ 0 <= seconds.
Proof.
  exact (X16_estimate_is_not_negative ["Boil for 10 minutes"; "Add 10 dashes"]
           ltac:(repeat constructor)).
Defined.

(** ** What [transform_row] computes *)

Lemma dict_get_row_set_same (r : Pandas.row) label v :
  Pandas.dict_get label (Pandas.row_set r label v) = Some v.
Proof.
  induction r as [|[k x] r IH]; cbn [Pandas.row_set Pandas.dict_get].
  - rewrite String.eqb_refl. reflexivity.
  - destruct (String.eqb label k) eqn:E; cbn [Pandas.dict_get]; rewrite E; [reflexivity|exact IH].
Qed.

Lemma row_get_Some (r : Pandas.row) label v :
  Pandas.dict_get label r = Some v -> Pandas.row_get r label = Ok v.
Proof. intros H. unfold Pandas.row_get. rewrite H. reflexivity. Qed.

(** The run of [transform_row] on a row that has both lists. *)
Lemma transform_row_run (row : Pandas.row) (ingredients directions : value)
    (score : Float.float) (seconds : Z) (w : world) :
  Pandas.dict_get "ingredients" row = Some ingredients ->
  Pandas.dict_get "directions" row = Some directions ->
  get_complexity_score ingredients directions = Ok score ->
  get_time_estimate directions = Ok seconds ->
  transform_row row w
  = (Ok (with_features row score seconds (uuid4 (env w) (next_uuid w))), after_ids 1 w).
Proof.
  intros Hi Hd Hscore Htime. unfold transform_row.
  unfold Eff.mbind at 1, Eff.lift at 1. rewrite (row_get_Some _ _ _ Hi).
  unfold Eff.mbind at 1, Eff.lift at 1. rewrite (row_get_Some _ _ _ Hd).
  unfold Eff.mbind at 1, Eff.lift at 1. rewrite Hscore.
  unfold Eff.mbind at 1, Eff.lift at 1.
  rewrite (row_get_Some _ "directions" directions)
    by (rewrite !dict_get_row_set by reflexivity; exact Hd).
  unfold Eff.mbind at 1, Eff.lift at 1. rewrite Htime.
  reflexivity.
Qed.

Lemma dict_get_with_features (row : Pandas.row) score seconds id label :
  Pandas.dict_get label (with_features row score seconds id)
  = if String.eqb label "recipe_id" then Some (VStr id)
    else if String.eqb label "time_estimate" then Some (VInt seconds)
    else if String.eqb label "difficulty_flag" then Some (VStr (get_difficulty_flag score))
    else if String.eqb label "complexity_score" then Some (VFloat score)
    else Pandas.dict_get label row.
Proof.
  unfold with_features.
  destruct (String.eqb_spec label "recipe_id") as [->|H1];
    [apply dict_get_row_set_same|].
  rewrite dict_get_row_set by (apply String.eqb_neq; exact H1).
  destruct (String.eqb_spec label "time_estimate") as [->|H2];
    [apply dict_get_row_set_same|].
  rewrite dict_get_row_set by (apply String.eqb_neq; exact H2).
  destruct (String.eqb_spec label "difficulty_flag") as [->|H3];
    [apply dict_get_row_set_same|].
  rewrite dict_get_row_set by (apply String.eqb_neq; exact H3).
  destruct (String.eqb_spec label "complexity_score") as [->|H4];
    [apply dict_get_row_set_same|].
  rewrite dict_get_row_set by (apply String.eqb_neq; exact H4).
  reflexivity.
Qed.

(** X17. On a row whose ingredients and directions can be scored,
    [transform_row] returns the row with four cells set: the score of the
    two lists, the flag of that score, the estimate of the directions and a
    fresh identifier. Every other cell is as it was, and one identifier is
    used up. *)
Theorem X17_transform_row_sets_four_cells (row : Pandas.row)
    (ingredients directions : value) (score : Float.float) (seconds : Z) (w : world) :
  Pandas.dict_get "ingredients" row = Some ingredients ->
  Pandas.dict_get "directions" row = Some directions ->
  get_complexity_score ingredients directions = Ok score ->
  get_time_estimate directions = Ok seconds ->
  exists row' w',
    transform_row row w = (Ok row', w')
    /\ Pandas.row_get row' "complexity_score" = Ok (VFloat score)
    /\ Pandas.row_get row' "difficulty_flag" = Ok (VStr (get_difficulty_flag score))
    /\ Pandas.row_get row' "time_estimate" = Ok (VInt seconds)
    /\ Pandas.row_get row' "recipe_id" = Ok (VStr (uuid4 (env w) (next_uuid w)))
    /\ (forall label, label ∉ derived_labels ->
          Pandas.dict_get label row' = Pandas.dict_get label row)
    /\ next_uuid w' = S (next_uuid w).
Proof.
  intros Hi Hd Hscore Htime.
  eexists. eexists. split; [apply (transform_row_run row _ _ _ _ w Hi Hd Hscore Htime)|].
  unfold Pandas.row_get. rewrite !dict_get_with_features. cbn [String.eqb Ascii.eqb Bool.eqb].
  repeat split.
  intros label Hl. rewrite dict_get_with_features.
  unfold derived_labels in Hl.
  destruct (String.eqb_spec label "recipe_id") as [->|_]; [exfalso; apply Hl; set_solver|].
  destruct (String.eqb_spec label "time_estimate") as [->|_]; [exfalso; apply Hl; set_solver|].
  destruct (String.eqb_spec label "difficulty_flag") as [->|_]; [exfalso; apply Hl; set_solver|].
  destruct (String.eqb_spec label "complexity_score") as [->|_]; [exfalso; apply Hl; set_solver|].
  reflexivity.
Qed.

Lemma X17_transform_row_sets_four_cells_witness :
  exists row' w',
    transform_row tagged_omelette (world_with [tagged_omelette]) = (Ok row', w')
    /\ Pandas.row_get row' "complexity_score" = Ok (VFloat (double_score 2 2))
    /\ Pandas.row_get row' "difficulty_flag"
       = Ok (VStr (get_difficulty_flag (double_score 2 2)))
    /\ Pandas.row_get row' "time_estimate" = Ok (VInt 420)
    /\ Pandas.row_get row' "recipe_id" = Ok (VStr "id-0")
    /\ (forall label, label ∉ derived_labels ->
          Pandas.dict_get label row' = Pandas.dict_get label tagged_omelette)
    /\ next_uuid w' = 1%nat.
Proof.
  exact (X17_transform_row_sets_four_cells tagged_omelette
           (VList [VStr "2 eggs"; VStr "butter"])
           (VList [VStr "Whisk the eggs"; VStr "Fry for 2 minutes"])
           (double_score 2 2) 420 (world_with [tagged_omelette])
           eq_refl eq_refl eq_refl eq_refl).
Defined.

(** ** The frame the coordinator stores *)

Lemma PROCESSED_BUCKET_str environ :
  PROCESSED_BUCKET environ = VStr (processed_bucket environ).
Proof.
  unfold processed_bucket, PROCESSED_BUCKET, os_environ_get.
  destruct (environ !! "PROCESSED_BUCKET"); reflexivity.
Qed.

Lemma after_ids_0 w : after_ids 0 w = w.
Proof. destruct w. reflexivity. Qed.

Lemma after_ids_S n w : after_ids n (after_ids 1 w) = after_ids (S n) w.
Proof. unfold after_ids. cbn [env next_uuid s3_objects stdout]. f_equal. lia. Qed.

Section Columns.

Variable k : string.

Lemma dict_get_align_in cols (r : Pandas.row) :
  Pandas.has_label k cols = true ->
  Pandas.dict_get k (Pandas.align cols r) = Some (cell k r).
Proof.
  unfold Pandas.align, Pandas.has_label.
  induction cols as [|c cols IH]; intros H; [discriminate H|].
  cbn [existsb] in H. cbn [map Pandas.dict_get].
  destruct (String.eqb_spec k c) as [->|_]; [reflexivity|].
  apply IH. exact H.
Qed.

Lemma has_label_keys_in (r : Pandas.row) v :
  Pandas.dict_get k r = Some v -> Pandas.has_label k (map fst r) = true.
Proof.
  induction r as [|[k' x] r IH]; intros H; [discriminate H|].
  cbn [Pandas.dict_get] in H. unfold Pandas.has_label. cbn [map fst existsb].
  destruct (String.eqb k k'); [reflexivity|]. apply IH. exact H.
Qed.

Lemma has_label_fold_union (records : list Pandas.row) : forall acc,
  Pandas.has_label k
    (fold_left (fun acc (r : Pandas.row) => fold_left Pandas.add_label (map fst r) acc)
       records acc)
  = Pandas.has_label k acc
    || existsb (fun r : Pandas.row => Pandas.has_label k (map fst r)) records.
Proof.
  induction records as [|r records IH]; intros acc; cbn [fold_left existsb].
  - rewrite orb_false_r. reflexivity.
  - rewrite IH, has_label_fold_add, orb_assoc. reflexivity.
Qed.

Lemma has_label_union_keys_in (records : list Pandas.row) r v :
  r ∈ records -> Pandas.dict_get k r = Some v ->
  Pandas.has_label k (Pandas.union_keys records) = true.
Proof.
  intros Hin Hr. unfold Pandas.union_keys. rewrite has_label_fold_union.
  apply orb_true_iff. right. apply existsb_exists. exists r.
  split; [apply list_elem_of_In; exact Hin|]. eapply has_label_keys_in. exact Hr.
Qed.

End Columns.

Lemma scorable_cells (r : Pandas.row) :
  scorable r ->
  Pandas.dict_get "ingredients" r = Some (cell "ingredients" r)
  /\ Pandas.dict_get "directions" r = Some (cell "directions" r)
  /\ get_complexity_score (cell "ingredients" r) (cell "directions" r) = Ok (score_of r)
  /\ get_time_estimate (cell "directions" r) = Ok (seconds_of r).
Proof.
  intros [Hs Ht]. unfold score_of, seconds_of.
  destruct (get_complexity_score _ _) as [score|e] eqn:Es; [|discriminate Hs].
  destruct (get_time_estimate _) as [seconds|e] eqn:Et; [|discriminate Ht].
  repeat split.
  - unfold cell in *. destruct (Pandas.dict_get "ingredients" r); [reflexivity|].
    unfold get_complexity_score in Es. cbn [default] in Es.
    destruct (py_len (default Pandas.nan (Pandas.dict_get "directions" r)));
      cbn [bind] in Es; [|discriminate Es].
    destruct (Float.int_times _ _); cbn [bind py_len Pandas.nan] in Es; discriminate Es.
  - unfold cell in *. destruct (Pandas.dict_get "directions" r); [reflexivity|].
    discriminate Et.
Qed.

(** The rows [apply] gets back, one identifier after the other. *)
Lemma map_each_transform_row cols (records : list Pandas.row) :
  Pandas.has_label "ingredients" cols = true ->
  Pandas.has_label "directions" cols = true ->
  Forall scorable records ->
  forall w,
    Eff.map_each transform_row (map (Pandas.align cols) records) w
    = (Ok (imap (fun i r =>
                   with_features (Pandas.align cols r) (score_of r) (seconds_of r)
                     (uuid4 (env w) (next_uuid w + i))) records),
       after_ids (length records) w).
Proof.
  intros Hi Hd Hrec. induction Hrec as [|r records Hr _ IH]; intros w.
  - cbn [map Eff.map_each imap length]. rewrite after_ids_0. reflexivity.
  - destruct (scorable_cells r Hr) as (Ei & Ed & Hs & Ht).
    cbn [map Eff.map_each]. unfold Eff.mbind at 1.
    rewrite (transform_row_run (Pandas.align cols r) (cell "ingredients" r)
               (cell "directions" r) (score_of r) (seconds_of r) w
               (dict_get_align_in _ _ _ Hi) (dict_get_align_in _ _ _ Hd) Hs Ht).
    unfold Eff.mbind at 1. rewrite IH. unfold Eff.ret. cbn [length].
    rewrite after_ids_S. cbn [imap]. rewrite Nat.add_0_r. do 3 f_equal.
    apply imap_ext. intros i x _. cbn [compose after_ids env next_uuid].
    do 2 f_equal. lia.
Qed.

Lemma select_all (cols : list string) (df : Pandas.DataFrame) :
  Forall (fun c => Pandas.has_label c (Pandas.columns df) = true) cols ->
  Pandas.select cols df
  = Ok {| Pandas.columns := cols;
          Pandas.rows := map (Pandas.align cols) (Pandas.rows df) |}.
Proof.
  intros H. unfold Pandas.select.
  assert (E : filter (fun c => negb (Pandas.has_label c (Pandas.columns df))) cols = []).
  { induction H as [|c cols Hc _ IH]; [reflexivity|].
    rewrite filter_cons, decide_False by (rewrite Hc; cbn; tauto). exact IH. }
  rewrite E. reflexivity.
Qed.

(** The stored row of a record, from the row [transform_row] returned
    for it. *)
Lemma align_selected cols cols' (r : Pandas.row) (id : string) :
  Pandas.has_label "title" cols = true ->
  Pandas.has_label "ingredients" cols = true ->
  Pandas.has_label "directions" cols = true ->
  Pandas.has_label "tags" cols = true ->
  Forall (fun c => Pandas.has_label c cols' = true) selected_columns ->
  Pandas.align selected_columns
    (Pandas.align cols'
       (with_features (Pandas.align cols r) (score_of r) (seconds_of r) id))
  = output_row id r.
Proof.
  intros Ht Hi Hd Hg Hall.
  unfold selected_columns in *. cbn [Pandas.align map].
  repeat (apply Forall_cons in Hall as [?H Hall]).
  rewrite !dict_get_align_in by assumption.
  unfold cell.
  rewrite !dict_get_with_features. cbn [String.eqb Ascii.eqb Bool.eqb default].
  rewrite !dict_get_align_in by assumption. reflexivity.
Qed.

(** ** A notification handled without failure *)

Lemma transformable_columns (records : list Pandas.row) :
  transformable records ->
  Pandas.has_label "ingredients" (Pandas.union_keys records) = true
  /\ Pandas.has_label "directions" (Pandas.union_keys records) = true.
Proof.
  intros (Hne & Hrec & _ & _).
  destruct records as [|r records]; [contradiction|].
  apply Forall_cons in Hrec as [Hr _].
  destruct (scorable_cells r Hr) as (Ei & Ed & _ & _).
  split; eapply has_label_union_keys_in; try eassumption; left.
Qed.

Lemma apply_rows_nonempty (f : Pandas.row -> M Pandas.row) (df : Pandas.DataFrame) :
  Pandas.rows df <> [] -> Pandas.columns df <> [] ->
  apply_rows f df
  = (rows' <~ Eff.map_each f (Pandas.rows df) ;; Eff.ret (Pandas.of_records rows')).
Proof.
  intros Hr Hc. unfold apply_rows.
  destruct (Pandas.rows df); [contradiction|].
  destruct (Pandas.columns df); [contradiction|]. reflexivity.
Qed.

Lemma apply_rows_run (records : list Pandas.row) (w : world) :
  transformable records ->
  apply_rows transform_row (Pandas.of_records records) w
  = (Ok (Pandas.of_records (transformed_rows w records)), after_ids (length records) w).
Proof.
  intros Ht. destruct (transformable_columns records Ht) as [Hi Hd].
  destruct Ht as (Hne & Hrec & _ & _).
  rewrite apply_rows_nonempty.
  - cbn [Pandas.of_records Pandas.rows]. unfold Eff.mbind.
    rewrite (map_each_transform_row _ records Hi Hd Hrec w). reflexivity.
  - cbn [Pandas.of_records Pandas.rows]. destruct records; [contradiction|discriminate].
  - cbn [Pandas.of_records Pandas.columns].
    destruct (Pandas.union_keys records); [discriminate Hi|discriminate].
Qed.

(** The frame the selection keeps is the output frame. *)
Lemma select_transformed (records : list Pandas.row) (w : world) :
  transformable records ->
  Pandas.select selected_columns (Pandas.of_records (transformed_rows w records))
  = Ok (output_frame w records).
Proof.
  intros Ht. destruct (transformable_columns records Ht) as [Hi Hd].
  destruct Ht as (Hne & Hrec & Htitle & Htags).
  set (cols := Pandas.union_keys records) in *.
  assert (Hall : Forall (fun c => Pandas.has_label c
                           (Pandas.union_keys (transformed_rows w records)) = true)
                   selected_columns).
  { destruct records as [|r records]; [contradiction|].
    unfold transformed_rows. cbn [imap]. fold cols.
    set (r' := with_features (Pandas.align cols r) _ _ _).
    set (rest := imap _ records).
    assert (Hin : r' ∈ r' :: rest) by left.
    assert (G : forall c v, Pandas.dict_get c r' = Some v ->
                  Pandas.has_label c (Pandas.union_keys (r' :: rest)) = true).
    { intros c v Hc. eapply has_label_union_keys_in; eassumption. }
    unfold selected_columns.
    repeat constructor; eapply G; unfold r'; rewrite dict_get_with_features;
      cbn [String.eqb Ascii.eqb Bool.eqb];
      first [reflexivity | apply dict_get_align_in; assumption]. }
  rewrite select_all by exact Hall.
  unfold output_frame. f_equal. cbn [Pandas.of_records Pandas.rows].
  unfold transformed_rows. fold cols.
  rewrite !fmap_imap. f_equal. apply imap_ext. intros i r _. cbn [compose].
  apply align_selected; assumption.
Qed.

Lemma column_flags (w : world) (records : list Pandas.row) :
  Pandas.column "difficulty_flag" (output_frame w records) = Ok (flags_of records).
Proof.
  unfold Pandas.column, output_frame. cbn [Pandas.columns Pandas.rows].
  change (Pandas.has_label "difficulty_flag" selected_columns) with true. cbv iota.
  rewrite fmap_imap. unfold flags_of. f_equal.
  rewrite <- (imap_const (fun r => VStr (get_difficulty_flag (score_of r)))).
  apply imap_ext. intros i r _. reflexivity.
Qed.

(** The run of the coordinator on a notification whose artifact it can
    transform, when no call fails. *)
Lemma handle_record_run environ (record : notification) (records : list Pandas.row)
    (w : world) :
  s3_objects w !! (source_bucket record, source_key record)
  = Some (Pandas.of_records records) ->
  transformable records -> never_fails w ->
  handle_record environ record w = (Ok tt, handled environ record records w).
Proof.
  intros Hobj Ht Hq. unfold handle_record.
  unfold Eff.mbind at 1. unfold print at 1.
  unfold Eff.mbind at 1. unfold s3_get_object, Eff.mbind at 1, external at 1.
  simpl env. rewrite Hq. simpl s3_objects. rewrite Hobj.
  unfold Eff.mbind at 1. unfold print at 1.
  unfold Eff.mbind at 1. unfold external at 1. simpl env. rewrite Hq.
  unfold Eff.mbind at 1. rewrite apply_rows_run by exact Ht.
  unfold Eff.mbind at 1, Eff.lift at 1.
  match goal with
  | |- context [transformed_rows ?w0 records] =>
      change (transformed_rows w0 records) with (transformed_rows w records);
      change (output_frame w0 records) with (output_frame w records)
  end.
  rewrite select_transformed by exact Ht.
  unfold Eff.mbind at 1, Eff.lift at 1. rewrite column_flags.
  rewrite PROCESSED_BUCKET_str.
  unfold s3_put_object, Eff.mbind, external. unfold after_ids. simpl env. rewrite !Hq.
  unfold handled, processing_lines. simpl.
  rewrite <- app_assoc. reflexivity.
Qed.

(** *** The frame read *)

Lemma has_label_elem (label : string) (labels : list string) :
  Pandas.has_label label labels = true <-> label ∈ labels.
Proof.
  unfold Pandas.has_label. rewrite existsb_eqb_elem. apply bool_decide_eq_true.
Qed.

Lemma fold_add_label_present (labels : list string) : forall acc,
  Forall (fun c => c ∈ acc) labels -> fold_left Pandas.add_label labels acc = acc.
Proof.
  induction labels as [|c labels IH]; intros acc H; [reflexivity|].
  apply Forall_cons in H as [Hc H]. cbn [fold_left]. unfold Pandas.add_label at 2.
  rewrite (proj2 (has_label_elem c acc) Hc). apply IH. exact H.
Qed.

Lemma fold_add_label_fresh (labels : list string) : forall acc,
  NoDup (acc ++ labels) -> fold_left Pandas.add_label labels acc = (acc ++ labels)%list.
Proof.
  induction labels as [|c labels IH]; intros acc H.
  - rewrite app_nil_r. reflexivity.
  - cbn [fold_left]. unfold Pandas.add_label at 2.
    destruct (Pandas.has_label c acc) eqn:Hc.
    + apply has_label_elem in Hc. apply NoDup_app in H as (_ & H & _).
      exfalso. apply (H c Hc). left.
    + rewrite IH; rewrite <- app_assoc; [reflexivity|exact H].
Qed.

Lemma union_keys_rectangular (cols : list string) (records : list Pandas.row) :
  NoDup cols -> records <> [] ->
  Forall (fun r : Pandas.row => map fst r = cols) records ->
  Pandas.union_keys records = cols.
Proof.
  intros Hnd Hne H. unfold Pandas.union_keys.
  destruct records as [|r records]; [contradiction|].
  apply Forall_cons in H as [Hr H]. cbn [fold_left]. rewrite Hr.
  rewrite fold_add_label_fresh by exact Hnd. cbn [app].
  clear Hne Hr r. induction H as [|r records Hr _ IH]; [reflexivity|].
  cbn [fold_left]. rewrite Hr.
  rewrite fold_add_label_present by (apply Forall_forall; auto). exact IH.
Qed.

Lemma align_own_labels (r : Pandas.row) :
  NoDup (map fst r) -> Pandas.align (map fst r) r = r.
Proof.
  unfold Pandas.align. induction r as [|[k v] r IH]; intros H; [reflexivity|].
  cbn [map fst] in *. apply NoDup_cons in H as [Hk H].
  cbn [Pandas.dict_get]. rewrite String.eqb_refl. cbn [default]. f_equal.
  rewrite <- (IH H) at 2. apply map_ext_in. intros c Hc.
  destruct (String.eqb_spec c k) as [->|_]; [|reflexivity].
  exfalso. apply Hk. apply list_elem_of_In. exact Hc.
Qed.

(** A frame with rows is the frame pandas builds from its rows. *)
Lemma of_records_rows (df : Pandas.DataFrame) :
  rectangular df -> Pandas.rows df <> [] -> Pandas.of_records (Pandas.rows df) = df.
Proof.
  intros [Hnd Hrows] Hne. unfold Pandas.of_records. cbv zeta.
  rewrite (union_keys_rectangular (Pandas.columns df) _ Hnd Hne Hrows).
  destruct df as [cols rows]. cbn [Pandas.columns Pandas.rows] in *. f_equal.
  rewrite <- (map_id rows) at 2. apply map_ext_in. intros r Hr.
  rewrite Forall_forall in Hrows.
  specialize (Hrows r (proj2 (list_elem_of_In _ _) Hr)).
  rewrite <- Hrows. apply align_own_labels. rewrite Hrows. exact Hnd.
Qed.

Lemma dict_get_present (label : string) (r : Pandas.row) :
  Pandas.has_label label (map fst r) = true ->
  Pandas.dict_get label r = Some (cell label r).
Proof.
  unfold cell, Pandas.has_label.
  induction r as [|[k v] r IH]; intros H; [discriminate H|].
  cbn [map fst existsb] in H. cbn [Pandas.dict_get].
  destruct (String.eqb label k); [reflexivity|]. apply IH. exact H.
Qed.

(** X18. When the frame read for a notification has rows, a title and a
    tags column besides the ingredients and the directions, rows that can
    all be scored, and no call fails, the coordinator stores one frame in
    the output bucket, under the key made of its column of flags, and
    changes no other object. The frame has the eight selected columns and
    one row for each row read, in order: the title, the ingredients, the
    directions and the tags are the cells read, whatever they hold; the
    score is the score of the ingredients and the directions read, the
    flag is the flag of that score, the estimate is the estimate of the
    directions read, and the identifier is the next unused one. *)
Theorem X18_stored_frame (environ : gmap string string) (record : notification)
    (df : Pandas.DataFrame) (w : world) :
  s3_objects w !! (source_bucket record, source_key record) = Some df ->
  rectangular df -> Pandas.rows df <> [] ->
  Pandas.has_label "title" (Pandas.columns df) = true ->
  Pandas.has_label "tags" (Pandas.columns df) = true ->
  Forall scorable (Pandas.rows df) -> never_fails w ->
  exists w' out flags,
    handle_record environ record w = (Ok tt, w')
    /\ Pandas.column "difficulty_flag" out = Ok flags
    /\ s3_objects w'
       = <[(processed_bucket environ, output_key flags (source_key record)) := out]>
           (s3_objects w)
    /\ Pandas.columns out = selected_columns
    /\ length (Pandas.rows out) = length (Pandas.rows df)
    /\ (forall i r,
          Pandas.rows df !! i = Some r ->
          exists r' ingredients directions score seconds,
            Pandas.rows out !! i = Some r'
            /\ map fst r' = selected_columns
            /\ Pandas.dict_get "title" r' = Pandas.dict_get "title" r
            /\ Pandas.dict_get "tags" r' = Pandas.dict_get "tags" r
            /\ Pandas.dict_get "ingredients" r = Some ingredients
            /\ Pandas.dict_get "directions" r = Some directions
            /\ Pandas.dict_get "ingredients" r' = Some ingredients
            /\ Pandas.dict_get "directions" r' = Some directions
            /\ get_complexity_score ingredients directions = Ok score
            /\ get_time_estimate directions = Ok seconds
            /\ Pandas.dict_get "complexity_score" r' = Some (VFloat score)
            /\ Pandas.dict_get "difficulty_flag" r' = Some (VStr (get_difficulty_flag score))
            /\ Pandas.dict_get "time_estimate" r' = Some (VInt seconds)
            /\ Pandas.dict_get "recipe_id" r'
               = Some (VStr (uuid4 (env w) (next_uuid w + i)))).
Proof.
  intros Hobj Hrect Hne Htitle Htags Hscorable Hq.
  pose proof (of_records_rows df Hrect Hne) as Hdf.
  assert (Hcols : Pandas.union_keys (Pandas.rows df) = Pandas.columns df).
  { destruct Hrect as [Hnd Hrows]. apply union_keys_rectangular; assumption. }
  assert (Ht : transformable (Pandas.rows df)).
  { split; [exact Hne|]. split; [exact Hscorable|]. rewrite Hcols. split; assumption. }
  rewrite <- Hdf in Hobj.
  exists (handled environ record (Pandas.rows df) w), (output_frame w (Pandas.rows df)),
    (flags_of (Pandas.rows df)).
  split; [apply handle_record_run; assumption|].
  split; [apply column_flags|]. split; [reflexivity|]. split; [reflexivity|].
  split; [cbn [output_frame Pandas.rows]; rewrite length_imap; reflexivity|].
  intros i r Hi.
  assert (Hr : scorable r).
  { rewrite Forall_forall in Hscorable. apply Hscorable.
    eapply list_elem_of_lookup_2. exact Hi. }
  destruct (scorable_cells r Hr) as (Ei & Ed & Hs & He).
  assert (Hkeys : map fst r = Pandas.columns df).
  { destruct Hrect as [_ Hrows]. rewrite Forall_forall in Hrows. apply Hrows.
    eapply list_elem_of_lookup_2. exact Hi. }
  exists (output_row (uuid4 (env w) (next_uuid w + i)) r),
    (cell "ingredients" r), (cell "directions" r), (score_of r), (seconds_of r).
  split.
  { cbn [output_frame Pandas.rows]. rewrite list_lookup_imap.
    unfold Pandas.row in *. rewrite Hi. reflexivity. }
  split; [reflexivity|].
  split.
  { rewrite (dict_get_present "title" r) by (rewrite Hkeys; exact Htitle). reflexivity. }
  split.
  { rewrite (dict_get_present "tags" r) by (rewrite Hkeys; exact Htags). reflexivity. }
  repeat split; assumption.
Qed.

Lemma X18_stored_frame_witness :
  exists w' out flags,
    handle_record ∅ sample_notification (world_reading frame_read) = (Ok tt, w')
    /\ Pandas.column "difficulty_flag" out = Ok flags
    /\ s3_objects w'
       = <[(processed_bucket ∅, output_key flags (source_key sample_notification)) := out]>
           (s3_objects (world_reading frame_read))
    /\ Pandas.columns out = selected_columns
    /\ length (Pandas.rows out) = length (Pandas.rows frame_read)
    /\ (forall i r,
          Pandas.rows frame_read !! i = Some r ->
          exists r' ingredients directions score seconds,
            Pandas.rows out !! i = Some r'
            /\ map fst r' = selected_columns
            /\ Pandas.dict_get "title" r' = Pandas.dict_get "title" r
            /\ Pandas.dict_get "tags" r' = Pandas.dict_get "tags" r
            /\ Pandas.dict_get "ingredients" r = Some ingredients
            /\ Pandas.dict_get "directions" r = Some directions
            /\ Pandas.dict_get "ingredients" r' = Some ingredients
            /\ Pandas.dict_get "directions" r' = Some directions
            /\ get_complexity_score ingredients directions = Ok score
            /\ get_time_estimate directions = Ok seconds
            /\ Pandas.dict_get "complexity_score" r' = Some (VFloat score)
            /\ Pandas.dict_get "difficulty_flag" r' = Some (VStr (get_difficulty_flag score))
            /\ Pandas.dict_get "time_estimate" r' = Some (VInt seconds)
            /\ Pandas.dict_get "recipe_id" r'
               = Some (VStr (uuid4 (env (world_reading frame_read))
                               (next_uuid (world_reading frame_read) + i)))).
Proof.
  apply (X18_stored_frame (∅ : gmap string string) sample_notification frame_read
           (world_reading frame_read)).
  - vm_compute. reflexivity.
  - split; [|repeat constructor].
    apply (bool_decide_unpack _). vm_compute. exact I.
  - discriminate.
  - reflexivity.
  - reflexivity.
  - repeat constructor.
  - intros o. reflexivity.
Defined.

(** The rows stored for the sample frame: the cells read are kept, the
    [None] ones too. *)
Example stored_rows_of_the_frame_read :
  Pandas.rows <$> (s3_objects (snd (handle_record ∅ sample_notification
                                      (world_reading frame_read)))
                   !! ("processed-recipes-bucket",
                       output_key [VStr "easy"; VStr "easy"] "2025/02/17/7c9e.parquet"))
  = Some [[("title", VStr "Omelette");
           ("ingredients", VList [VStr "2 eggs"; VStr "butter"]);
           ("directions", VList [VStr "Whisk the eggs"; VStr "Fry for 2 minutes"]);
           ("tags", VList [VStr "quick"]);
           ("complexity_score", VFloat (double_score 2 2));
           ("difficulty_flag", VStr "easy");
           ("time_estimate", VInt 420);
           ("recipe_id", VStr "id-0")];
          [("title", VNone);
           ("ingredients", VList [VStr "water"]);
           ("directions", VList [VStr "Boil for 10 minutes"]);
           ("tags", VNone);
           ("complexity_score", VFloat (double_score 1 1));
           ("difficulty_flag", VStr "easy");
           ("time_estimate", VInt 600);
           ("recipe_id", VStr "id-1")]].
Proof. vm_compute. reflexivity. Qed.

(** ** The identifiers of the stored records *)

Lemma column_recipe_id (w : world) (records : list Pandas.row) :
  Pandas.column "recipe_id" (output_frame w records) = Ok (fresh_ids w (length records)).
Proof.
  unfold Pandas.column, output_frame. cbn [Pandas.columns Pandas.rows].
  change (Pandas.has_label "recipe_id" selected_columns) with true. cbv iota.
  rewrite fmap_imap. unfold fresh_ids. f_equal.
  etransitivity;
    [|exact (imap_seq_0 records (fun i => VStr (uuid4 (env w) (next_uuid w + i))))].
  apply imap_ext. intros i r _. reflexivity.
Qed.

Lemma fresh_ids_NoDup (w : world) (n : nat) :
  (forall i j, uuid4 (env w) i = uuid4 (env w) j -> i = j) -> NoDup (fresh_ids w n).
Proof.
  intros Hinj. unfold fresh_ids. apply NoDup_fmap_2; [|apply NoDup_seq].
  intros i j H. inversion H as [E]. apply Hinj in E. lia.
Qed.

(** X19. The identifiers in the [recipe_id] column of a stored frame are
    the ones handed out while its rows were transformed, one per record,
    in order; they are pairwise distinct when no identifier is handed out
    twice. *)
Theorem X19_recipe_ids_are_distinct (environ : gmap string string)
    (record : notification) (records : list Pandas.row) (w : world) :
  s3_objects w !! (source_bucket record, source_key record)
  = Some (Pandas.of_records records) ->
  transformable records -> never_fails w ->
  (forall i j, uuid4 (env w) i = uuid4 (env w) j -> i = j) ->
  exists w' df ids,
    handle_record environ record w = (Ok tt, w')
    /\ s3_objects w' !! (processed_bucket environ,
                         output_key (flags_of records) (source_key record)) = Some df
    /\ Pandas.column "recipe_id" df = Ok ids
    /\ length ids = length records
    /\ NoDup ids
    /\ next_uuid w' = (next_uuid w + length records)%nat.
Proof.
  intros Hobj Ht Hq Hinj.
  exists (handled environ record records w), (output_frame w records),
    (fresh_ids w (length records)).
  split; [apply handle_record_run; assumption|].
  split; [apply lookup_insert_eq|]. split; [apply column_recipe_id|].
  split; [unfold fresh_ids; rewrite length_map, length_seq; reflexivity|].
  split; [apply fresh_ids_NoDup; exact Hinj|]. cbn [handled next_uuid]. lia.
Qed.

Lemma sample_transformation_uuid4_inj (i j : nat) :
  uuid4 sample_transformation_oracle i = uuid4 sample_transformation_oracle j -> i = j.
Proof.
  cbn [uuid4 sample_transformation_oracle]. intros H.
  apply append_cancel_l in H. apply (inj pretty) in H. exact H.
Qed.

Lemma X19_recipe_ids_are_distinct_witness :
  exists w' df ids,
    handle_record ∅ sample_notification (world_with [tagged_omelette; untagged_omelette])
    = (Ok tt, w')
    /\ s3_objects w' !! (processed_bucket ∅,
                         output_key (flags_of [tagged_omelette; untagged_omelette])
                           (source_key sample_notification)) = Some df
    /\ Pandas.column "recipe_id" df = Ok ids
    /\ length ids = length [tagged_omelette; untagged_omelette]
    /\ NoDup ids
    /\ next_uuid w'
       = (next_uuid (world_with [tagged_omelette; untagged_omelette])
          + length [tagged_omelette; untagged_omelette])%nat.
Proof.
  apply (X19_recipe_ids_are_distinct (∅ : gmap string string) sample_notification
           [tagged_omelette; untagged_omelette]
           (world_with [tagged_omelette; untagged_omelette])).
  - vm_compute. reflexivity.
  - split; [discriminate|]. split; [|split; reflexivity].
    repeat constructor.
  - intros o. reflexivity.
  - exact sample_transformation_uuid4_inj.
Defined.

(** ** One record that cannot be scored *)

Lemma row_get_align cols (r : Pandas.row) label :
  Pandas.row_get (Pandas.align cols r) label
  = if Pandas.has_label label cols then Ok (cell label r) else Raise (Exn KeyError label).
Proof.
  unfold Pandas.row_get. destruct (Pandas.has_label label cols) eqn:E.
  - rewrite dict_get_align_in by exact E. reflexivity.
  - rewrite dict_get_align by exact E. reflexivity.
Qed.

(** [transform_row] raises on the row of a record that cannot be
    scored, in every world. *)
Lemma transform_row_unscorable cols (r : Pandas.row) (w : world) :
  unscorable r = true -> raised (fst (transform_row (Pandas.align cols r) w)) = true.
Proof.
  intros H. unfold transform_row.
  unfold Eff.mbind at 1, Eff.lift at 1. rewrite row_get_align.
  destruct (Pandas.has_label "ingredients" cols); [|reflexivity].
  unfold Eff.mbind at 1, Eff.lift at 1. rewrite row_get_align.
  destruct (Pandas.has_label "directions" cols) eqn:Ed; [|reflexivity].
  unfold Eff.mbind at 1, Eff.lift at 1.
  unfold unscorable in H.
  destruct (get_complexity_score _ _) as [score|e]; [|reflexivity].
  cbn [raised orb] in H.
  unfold Eff.mbind at 1, Eff.lift at 1.
  rewrite (row_get_Some _ "directions" (cell "directions" r))
    by (rewrite !dict_get_row_set by reflexivity; apply dict_get_align_in; exact Ed).
  unfold Eff.mbind at 1, Eff.lift at 1.
  destruct (get_time_estimate _) as [seconds|e]; [discriminate H|reflexivity].
Qed.

Lemma map_each_raises {A B} (f : A -> M B) (xs : list A) (x : A) :
  x ∈ xs -> (forall w, raised (fst (f x w)) = true) ->
  forall w, raised (fst (Eff.map_each f xs w)) = true.
Proof.
  intros Hin Hx. induction xs as [|y xs IH]; intros w.
  - apply elem_of_nil in Hin. contradiction.
  - cbn [Eff.map_each]. unfold Eff.mbind at 1.
    destruct (f y w) as [[b|e] w1] eqn:E; [|reflexivity].
    apply elem_of_cons in Hin as [->|Hin].
    + specialize (Hx w). rewrite E in Hx. discriminate Hx.
    + specialize (IH Hin w1). unfold Eff.mbind at 1.
      destruct (Eff.map_each f xs w1) as [[bs|e] w2]; [discriminate IH|reflexivity].
Qed.

(** With such a record, transforming the frame and selecting the columns
    raises. *)
Lemma apply_then_select_raises (records : list Pandas.row) (r : Pandas.row) (w : world) :
  r ∈ records -> unscorable r = true ->
  raised (fst ((df <~ apply_rows transform_row (Pandas.of_records records) ;;
                Eff.lift (Pandas.select selected_columns df)) w)) = true.
Proof.
  intros Hin Hr.
  destruct (Pandas.columns (Pandas.of_records records)) as [|c cs] eqn:Ecols.
  - assert (Hrun : apply_rows transform_row (Pandas.of_records records) w
                   = (Ok (Pandas.of_records records), w)).
    { unfold apply_rows. rewrite Ecols.
      destruct (Pandas.rows (Pandas.of_records records)); reflexivity. }
    unfold Eff.mbind. rewrite Hrun. unfold Eff.lift.
    destruct (select_without_tags (Pandas.of_records records)) as [msg ->];
      [rewrite Ecols|]; reflexivity.
  - rewrite apply_rows_nonempty.
    + pose proof (map_each_raises transform_row
                    (Pandas.rows (Pandas.of_records records))
                    (Pandas.align (Pandas.union_keys records) r)
                    ltac:(apply list_elem_of_fmap_2; exact Hin)
                    (fun w0 => transform_row_unscorable _ r w0 Hr) w) as Hraise.
      unfold Eff.mbind at 1 2.
      destruct (Eff.map_each transform_row _ w) as [[rows'|e] w1];
        [discriminate Hraise|reflexivity].
    + cbn [Pandas.of_records Pandas.rows].
      destruct records; [apply elem_of_nil in Hin; contradiction|discriminate].
    + rewrite Ecols. discriminate.
Qed.

(** X20. One record that cannot be scored fails its whole artifact: when
    the score or the estimate raises on some record (its ingredients or
    directions are missing, [null] or a number, or a direction is not a
    str), the coordinator raises on the notification and stores nothing,
    whatever the other records are. *)
Theorem X20_one_bad_record_fails_the_artifact (environ : gmap string string)
    (record : notification) (records : list Pandas.row) (r : Pandas.row) (w : world) :
  s3_objects w !! (source_bucket record, source_key record)
  = Some (Pandas.of_records records) ->
  r ∈ records -> unscorable r = true ->
  exists e w',
    handle_record environ record w = (Raise e, w')
    /\ s3_objects w' = s3_objects w.
Proof.
  intros Hobj Hin Hr. unfold handle_record.
  unfold Eff.mbind at 1. unfold print at 1.
  set (w1 := {| env := env w; next_uuid := next_uuid w; s3_objects := s3_objects w;
                stdout := (stdout w ++ [_])%list |}).
  unfold Eff.mbind at 1. unfold s3_get_object, Eff.mbind at 1, external at 1.
  destruct (raises (env w1) _) as [e|]; [exists e, w1; split; reflexivity|].
  change (s3_objects w1) with (s3_objects w). rewrite Hobj.
  unfold Eff.mbind at 1. unfold print at 1.
  set (w2 := {| env := env w1; next_uuid := next_uuid w1; s3_objects := s3_objects w1;
                stdout := (stdout w1 ++ [_])%list |}).
  unfold Eff.mbind at 1. unfold external at 1.
  destruct (raises (env w2) _) as [e|]; [exists e, w2; split; reflexivity|].
  pose proof (apply_then_select_raises records r w2 Hin Hr) as Hraise.
  unfold Eff.mbind at 1 in Hraise. unfold Eff.mbind at 1.
  destruct (apply_rows transform_row (Pandas.of_records records) w2)
    as [[df'|e] w3] eqn:Happly.
  - pose proof (keeps_s3_apply_rows _ _ _ _ Happly) as Hs3.
    unfold Eff.lift in Hraise. cbn [fst] in Hraise.
    unfold Eff.mbind at 1, Eff.lift at 1.
    destruct (Pandas.select selected_columns df') as [df''|e]; [discriminate Hraise|].
    exists e, w3. split; [reflexivity|exact Hs3].
  - pose proof (keeps_s3_apply_rows _ _ _ _ Happly) as Hs3.
    exists e, w3. split; [reflexivity|exact Hs3].
Qed.

Lemma X20_one_bad_record_fails_the_artifact_witness :
  exists e w',
    handle_record ∅ sample_notification (world_with [tagged_omelette; null_ingredients])
    = (Raise e, w')
    /\ s3_objects w' = s3_objects (world_with [tagged_omelette; null_ingredients]).
Proof.
  apply (X20_one_bad_record_fails_the_artifact (∅ : gmap string string) sample_notification
           [tagged_omelette; null_ingredients] null_ingredients
           (world_with [tagged_omelette; null_ingredients])).
  - vm_compute. reflexivity.
  - right. left.
  - reflexivity.
Defined.

End TransformationRunsProperties.

Section NotificationProperties.
Import Subscript Notification.

(** ** The notification resource: one response for every request *)

Lemma responses_app (l1 l2 : list op) :
  responses (l1 ++ l2) = (responses l1 ++ responses l2)%list.
Proof. unfold responses. apply omap_app. Qed.

(** What [configure] can do: at most one call, which sets a
    configuration, and none when it raises. *)
Lemma configure_calls (event : value) (w : world) r w' :
  configure event w = (r, w') ->
  env w' = env w
  /\ exists puts,
       calls w' = (calls w ++ puts)%list
       /\ responses puts = []
       /\ (length puts <= 1)%nat
       /\ (raised r = true -> puts = []).
Proof.
  assert (Hput : forall bucket config line w0 r0 w1,
    (external (PutBucketNotificationConfiguration bucket config) ;;; print line) w0
    = (r0, w1) ->
    env w1 = env w0
    /\ exists puts,
         calls w1 = (calls w0 ++ puts)%list
         /\ responses puts = []
         /\ (length puts <= 1)%nat
         /\ (raised r0 = true -> puts = [])).
  { intros bucket config line w0 r0 w1 H.
    unfold Eff.mbind, external, print in H.
    destruct (raises (env w0) (calls w0) _) as [e|]; inversion H; subst; cbn [env calls].
    - split; [reflexivity|]. exists []. rewrite app_nil_r. repeat split; cbn; lia.
    - split; [reflexivity|]. eexists. split; [reflexivity|].
      repeat split; cbn; first [lia | discriminate]. }
  assert (Hnone : forall (r0 : result unit) w0,
    env w0 = env w0
    /\ exists puts,
         calls w0 = (calls w0 ++ puts)%list
         /\ responses puts = []
         /\ (length puts <= 1)%nat
         /\ (raised r0 = true -> puts = [])).
  { intros r0 w0. split; [reflexivity|]. exists []. rewrite app_nil_r.
    repeat split; cbn; lia. }
  unfold configure. intros H.
  repeat match type of H with
  | Eff.mbind (Eff.lift (Ok _)) _ _ = _ =>
      unfold Eff.mbind at 1, Eff.lift at 1 in H; cbv beta iota in H
  | Eff.mbind (Eff.lift ?x) _ _ = _ =>
      destruct x;
      [|unfold Eff.mbind at 1, Eff.lift at 1 in H; inversion H; subst; apply Hnone]
  | (if ?b then _ else _) _ = _ => destruct b
  end.
  - eapply Hput. exact H.
  - eapply Hput. exact H.
  - inversion H; subst. apply Hnone.
Qed.

(** X21. When sending a response does not fail, every invocation of the
    notification resource returns and sends exactly one response: SUCCESS
    with no data when setting the configuration raised nothing, FAILED with
    the text of the exception otherwise. Besides the response it makes at
    most one call, and none at all when it reports FAILED. *)
Theorem X21_one_response_per_request (json_dumps : value -> string) (event : value)
    (w : world) :
  sends w ->
  exists w' puts,
    lambda_handler json_dumps event w = (Ok tt, w')
    /\ calls w'
       = (calls w ++ puts
          ++ [response_for (fst (configure event (received json_dumps event w)))])%list
    /\ responses puts = []
    /\ (length puts <= 1)%nat
    /\ (raised (fst (configure event (received json_dumps event w))) = true -> puts = []).
Proof.
  intros Hsend. unfold lambda_handler.
  unfold Eff.mbind at 1. unfold print at 1.
  fold (received_line json_dumps event). fold (received json_dumps event w).
  set (w0 := received json_dumps event w).
  unfold Eff.try_except. unfold Eff.mbind at 1.
  destruct (configure event w0) as [[u|e] w1] eqn:Hconf.
  - destruct (configure_calls _ _ _ _ Hconf) as (He & puts & Hcalls & Hresp & Hlen & Hraise).
    unfold external. rewrite He. unfold w0 at 1. cbn [received env]. rewrite Hsend.
    eexists. exists puts. split; [reflexivity|].
    cbn [calls fst response_for]. rewrite Hcalls. unfold w0. cbn [received calls].
    rewrite <- app_assoc. repeat split; assumption.
  - destruct (configure_calls _ _ _ _ Hconf) as (He & puts & Hcalls & Hresp & Hlen & Hraise).
    unfold Eff.mbind at 1. unfold print at 1. unfold external. cbn [env calls].
    rewrite He. unfold w0 at 1. cbn [received env]. rewrite Hsend.
    eexists. exists puts. split; [reflexivity|].
    cbn [calls fst response_for]. rewrite Hcalls. unfold w0. cbn [received calls].
    rewrite <- app_assoc. repeat split; assumption.
Qed.

Lemma X21_one_response_per_request_witness :
  exists w' puts,
    lambda_handler (fun _ => "{}") create_request (initial always) = (Ok tt, w')
    /\ calls w'
       = (calls (initial always) ++ puts
          ++ [response_for (fst (configure create_request
                                   (received (fun _ => "{}") create_request
                                      (initial always))))])%list
    /\ responses puts = []
    /\ (length puts <= 1)%nat
    /\ (raised (fst (configure create_request
                       (received (fun _ => "{}") create_request (initial always)))) = true ->
        puts = []).
Proof.
  exact (X21_one_response_per_request (fun _ => "{}") create_request (initial always)
           ltac:(intros history s d; reflexivity)).
Defined.

(** The calls of the sample [Create] request. *)
Example calls_of_a_create_request :
  calls (snd (lambda_handler (fun _ => "{}") create_request (initial always)))
  = [PutBucketNotificationConfiguration (VStr "raw-recipes-data")
       (VDict [("LambdaFunctionConfigurations", VList [])]);
     Send SUCCESS (VDict [])].
Proof. reflexivity. Qed.

(** X22. A request whose type is none of [Delete], [Create] and [Update]
    (or is not a str) sets nothing and is answered with SUCCESS: the only
    call of the invocation is the response. *)
Theorem X22_other_request_types_succeed (json_dumps : value -> string) (event : value)
    (request_type : value) (w : world) :
  py_getitem event "RequestType" = Ok request_type ->
  py_in_strs request_type ["Delete"; "Create"; "Update"] = false ->
  raises (env w) (calls w) (Send SUCCESS (VDict [])) = None ->
  exists w',
    lambda_handler json_dumps event w = (Ok tt, w')
    /\ calls w' = (calls w ++ [Send SUCCESS (VDict [])])%list.
Proof.
  intros Htype Hother Hsend. unfold py_in_strs in Hother. cbn [existsb] in Hother.
  apply orb_false_iff in Hother as [Hdelete Hother].
  unfold lambda_handler, configure, Eff.try_except.
  unfold Eff.mbind at 1. unfold print at 1.
  unfold Eff.mbind at 1 2, Eff.lift at 1. rewrite Htype, Hdelete.
  unfold Eff.mbind at 1, Eff.lift at 1.
  unfold py_in_strs. cbn [existsb]. rewrite Hother.
  unfold Eff.ret, external. simpl env. simpl calls. rewrite Hsend.
  eexists. split; reflexivity.
Qed.

Lemma X22_other_request_types_succeed_witness :
  exists w',
    lambda_handler (fun _ => "{}") (VDict [("RequestType", VStr "Refresh")]) (initial always)
    = (Ok tt, w')
    /\ calls w' = (calls (initial always) ++ [Send SUCCESS (VDict [])])%list.
Proof.
  exact (X22_other_request_types_succeed (fun _ => "{}")
           (VDict [("RequestType", VStr "Refresh")]) (VStr "Refresh") (initial always)
           eq_refl eq_refl eq_refl).
Defined.

(** X23. A [Delete] request replaces the bucket's notification
    configuration with the empty one, whatever configuration the request
    carries and whether or not it carries one: the calls of the invocation
    are the empty configuration for the named bucket and then SUCCESS. *)
Theorem X23_delete_empties_the_configuration (json_dumps : value -> string)
    (event properties bucket_name : value) (w : world) :
  py_getitem event "RequestType" = Ok (VStr "Delete") ->
  py_getitem event "ResourceProperties" = Ok properties ->
  py_getitem properties "BucketName" = Ok bucket_name ->
  (forall history o, raises (env w) history o = None) ->
  exists w',
    lambda_handler json_dumps event w = (Ok tt, w')
    /\ calls w'
       = (calls w ++ [PutBucketNotificationConfiguration bucket_name (VDict []);
                      Send SUCCESS (VDict [])])%list.
Proof.
  intros Htype Hprops Hbucket Hquiet.
  unfold lambda_handler, configure, Eff.try_except.
  unfold Eff.mbind at 1. unfold print at 1.
  unfold Eff.mbind at 1 2, Eff.lift at 1. rewrite Htype.
  cbn [py_eq_str String.eqb Ascii.eqb Bool.eqb].
  unfold Eff.mbind at 1, Eff.lift at 1. rewrite Hprops.
  unfold Eff.mbind at 1, Eff.lift at 1. rewrite Hbucket.
  unfold Eff.mbind at 1. unfold external at 1. simpl env. rewrite Hquiet.
  unfold print, external. simpl env. rewrite Hquiet.
  eexists. split; [reflexivity|]. simpl calls. rewrite <- app_assoc. reflexivity.
Qed.

Lemma X23_delete_empties_the_configuration_witness :
  exists w',
    lambda_handler (fun _ => "{}") delete_request (initial always) = (Ok tt, w')
    /\ calls w'
       = (calls (initial always)
          ++ [PutBucketNotificationConfiguration (VStr "raw-recipes-data") (VDict []);
              Send SUCCESS (VDict [])])%list.
Proof.
  exact (X23_delete_empties_the_configuration (fun _ => "{}") delete_request
           (VDict [("BucketName", VStr "raw-recipes-data")]) (VStr "raw-recipes-data")
           (initial always) eq_refl eq_refl eq_refl ltac:(intros history o; reflexivity)).
Defined.

End NotificationProperties.

Section LoaderProperties.
Import Subscript Loader.

(** ** The loader: responses, connections and transactions *)

Lemma opened_app (l1 l2 : list op) : opened (l1 ++ l2) = (opened l1 + opened l2)%nat.
Proof. unfold opened. rewrite List.filter_app, length_app. reflexivity. Qed.

Lemma closed_app (l1 l2 : list op) : closed (l1 ++ l2) = (closed l1 + closed l2)%nat.
Proof. unfold closed. rewrite List.filter_app, length_app. reflexivity. Qed.

Lemma keeps_connections_tally (new : list op) :
  forallb keeps_connections new = true -> opened new = 0%nat /\ closed new = 0%nat.
Proof.
  induction new as [|o new IH]; [split; reflexivity|].
  cbn [forallb]. intros H. apply andb_true_iff in H as [Ho H].
  destruct (IH H) as [IHo IHc]. unfold opened, closed in *. cbn [List.filter].
  unfold keeps_connections in Ho. apply negb_true_iff, orb_false_iff in Ho as [-> ->].
  split; assumption.
Qed.

Section Adds.

Variable P : op -> bool.

Lemma adds_refl w : adds P w w.
Proof. split; [reflexivity|]. exists []. rewrite app_nil_r. split; reflexivity. Qed.

Lemma adds_trans w1 w2 w3 : adds P w1 w2 -> adds P w2 w3 -> adds P w1 w3.
Proof.
  intros [E1 (n1 & C1 & P1)] [E2 (n2 & C2 & P2)]. split; [congruence|].
  exists (n1 ++ n2)%list. rewrite C2, C1, <- app_assoc. split; [reflexivity|].
  rewrite forallb_app, P1, P2. reflexivity.
Qed.

Lemma adds_logger lvl message : steps (adds P) (logger lvl message).
Proof.
  intros w r w' H. inversion H; subst. split; [reflexivity|].
  exists []. cbn [calls]. rewrite app_nil_r. split; reflexivity.
Qed.

Lemma adds_external o : P o = true -> steps (adds P) (external o).
Proof.
  intros Ho w r w' H. unfold external in H.
  destruct (raises (env w) (calls w) o); inversion H; subst; [apply adds_refl|].
  split; [reflexivity|]. exists [o]. split; [reflexivity|].
  cbn [forallb]. rewrite Ho. reflexivity.
Qed.

End Adds.

Section LoaderRuns.

Variable environ : gmap string string.
Variable json_dumps : value -> string.
Variable AttributeError : exn_class.

(** The transaction pattern of the loader: the body, and on an
    exception a log line, a rollback and the exception again. *)
Lemma adds_guarded (P : op -> bool) (conn : connection) (label : string)
    (body : M unit) :
  P (Rollback conn) = true -> steps (adds P) body ->
  steps (adds P)
    (Eff.try_except body
       (fun e => logger ERROR (label ++ str_exn e) ;;;
                 external (Rollback conn) ;;; Eff.throw e)).
Proof.
  intros HP Hbody.
  apply steps_try_except; [apply adds_trans|exact Hbody|intros e].
  apply steps_bind; [apply adds_trans|apply adds_logger|intros _].
  apply steps_bind; [apply adds_trans|apply adds_external; exact HP|intros _].
  apply steps_throw, adds_refl.
Qed.

Lemma adds_create_table (P : op -> bool) (conn : connection) :
  (forall o, is_Connect o = false -> is_Close o = false -> P o = true) ->
  steps (adds P) (create_table_if_not_exists environ conn).
Proof.
  intros HP. unfold create_table_if_not_exists.
  apply adds_guarded; [apply HP; reflexivity|].
  repeat (apply steps_bind;
          [apply adds_trans|apply adds_external; apply HP; reflexivity|intros _]).
  apply adds_logger.
Qed.

Lemma adds_load_data (P : op -> bool) (conn : connection) (data schema table : value) :
  (forall o, is_Connect o = false -> is_Close o = false -> P o = true) ->
  steps (adds P)
    (load_data_to_postgres json_dumps AttributeError conn data schema table).
Proof.
  intros HP. unfold load_data_to_postgres.
  apply adds_guarded; [apply HP; reflexivity|].
  apply steps_bind; [apply adds_trans|apply adds_external; apply HP; reflexivity|intros _].
  apply steps_bind; [apply adds_trans|apply steps_lift, adds_refl|intros values].
  repeat (apply steps_bind;
          [apply adds_trans|apply adds_external; apply HP; reflexivity|intros _]).
  apply adds_logger.
Qed.

Lemma keeps_connections_other (o : op) :
  is_Connect o = false -> is_Close o = false -> keeps_connections o = true.
Proof. intros H1 H2. unfold keeps_connections. rewrite H1, H2. reflexivity. Qed.

Lemma adds_read_json (bucket key : value) :
  steps (adds keeps_connections) (read_json bucket key).
Proof.
  unfold read_json.
  apply steps_bind; [apply adds_trans|apply adds_external; reflexivity|intros _].
  intros w r w' H. inversion H; subst. apply adds_refl.
Qed.

(** Opening a connection adds the [Connect] call, or nothing when it
    fails. *)
Lemma get_connection_calls w r w' :
  get_connection environ w = (r, w') ->
  env w' = env w
  /\ exists new,
       calls w' = (calls w ++ new)%list /\ closed new = 0%nat
       /\ opened new = (if raised r then 0 else 1)%nat.
Proof.
  unfold get_connection, Eff.try_except, connect, external.
  destruct (raises (env w) (calls w) _) as [e|]; intros H.
  - unfold Eff.mbind, logger, Eff.throw in H. inversion H; subst.
    split; [reflexivity|]. exists []. rewrite app_nil_r. repeat split.
  - inversion H; subst. split; [reflexivity|]. eexists. split; [reflexivity|].
    split; reflexivity.
Qed.

(** The calls of one record: at most one connection, closed only when the
    record was loaded. *)
Lemma handle_record_calls (record : value) w r w' :
  handle_record environ json_dumps AttributeError record w = (r, w') ->
  env w' = env w
  /\ exists new,
       calls w' = (calls w ++ new)%list
       /\ (opened new <= 1)%nat
       /\ closed new = (if raised r then 0 else 1)%nat
       /\ (raised r = false -> opened new = 1%nat).
Proof.
  assert (Hexit : forall w0 (r0 : result unit),
    adds keeps_connections w w0 -> raised r0 = true ->
    env w0 = env w
    /\ exists new,
         calls w0 = (calls w ++ new)%list
         /\ (opened new <= 1)%nat
         /\ closed new = (if raised r0 then 0 else 1)%nat
         /\ (raised r0 = false -> opened new = 1%nat)).
  { intros w0 r0 [He (new & Hc & HP)] Hr. split; [exact He|]. exists new.
    destruct (keeps_connections_tally new HP) as [Ho Hcl].
    rewrite Hr, Ho, Hcl. repeat split; [exact Hc|lia|discriminate]. }
  unfold handle_record. intros H.
  repeat match type of H with
  | Eff.mbind (Eff.lift (Ok _)) _ _ = _ =>
      unfold Eff.mbind at 1, Eff.lift at 1 in H; cbv beta iota in H
  | Eff.mbind (Eff.lift ?x) _ _ = _ =>
      destruct x;
      [|unfold Eff.mbind at 1, Eff.lift at 1 in H; inversion H; subst;
        apply Hexit; [apply adds_refl|reflexivity]]
  end.
  apply eff_bind_inv in H as [(u1 & w1 & H1 & H)|(e & He & ->)].
  2:{ apply Hexit; [eapply adds_logger; exact He|reflexivity]. }
  apply (adds_logger keeps_connections) in H1.
  apply eff_bind_inv in H as [(data & w2 & H2 & H)|(e & He & ->)].
  2:{ apply Hexit; [|reflexivity].
      eapply adds_trans; [exact H1|eapply adds_read_json; exact He]. }
  apply adds_read_json in H2.
  pose proof (adds_trans _ _ _ _ H1 H2) as H12. clear H1 H2.
  apply eff_bind_inv in H as [(conn & w3 & H3 & H)|(e & He & ->)].
  2:{ destruct (get_connection_calls _ _ _ He) as (E3 & new3 & C3 & Cl3 & O3).
      cbn [raised] in O3. destruct H12 as [E12 (new & C12 & P12)].
      destruct (keeps_connections_tally new P12) as [Ho Hcl].
      split; [congruence|]. exists (new ++ new3)%list.
      rewrite C3, C12, <- app_assoc, opened_app, closed_app, Ho, Hcl, O3, Cl3.
      cbn [raised]. repeat split; [lia|discriminate]. }
  destruct (get_connection_calls _ _ _ H3) as (E3 & new3 & C3 & Cl3 & O3).
  cbn [raised] in O3. clear H3.
  assert (Hopen : forall w0 (r0 : result unit) tail,
    adds keeps_connections w3 w0 -> closed tail = (if raised r0 then 0 else 1)%nat ->
    opened tail = 0%nat ->
    forall w1, env w1 = env w0 -> calls w1 = (calls w0 ++ tail)%list ->
    env w1 = env w
    /\ exists new,
         calls w1 = (calls w ++ new)%list
         /\ (opened new <= 1)%nat
         /\ closed new = (if raised r0 then 0 else 1)%nat
         /\ (raised r0 = false -> opened new = 1%nat)).
  { intros w0 r0 tail [E0 (new0 & C0 & P0)] Htail Hotail w1' E1' C1'.
    destruct H12 as [E12 (new & C12 & P12)].
    destruct (keeps_connections_tally new P12) as [Ho Hcl].
    destruct (keeps_connections_tally new0 P0) as [Ho0 Hcl0].
    split; [congruence|]. exists (new ++ new3 ++ new0 ++ tail)%list.
    rewrite C1', C0, C3, C12, <- !app_assoc.
    rewrite !opened_app, !closed_app, Ho, Hcl, Ho0, Hcl0, O3, Cl3, Htail, Hotail.
    repeat split; lia. }
  apply eff_bind_inv in H as [(u4 & w4 & H4 & H)|(e & He & ->)].
  2:{ apply (adds_create_table keeps_connections conn keeps_connections_other) in He.
      apply (Hopen w' (Raise e) [] He); rewrite ?app_nil_r; reflexivity. }
  apply (adds_create_table keeps_connections conn keeps_connections_other) in H4.
  apply eff_bind_inv in H as [(u5 & w5 & H5 & H)|(e & He & ->)].
  2:{ apply (adds_load_data keeps_connections conn _ _ _ keeps_connections_other) in He.
      apply (Hopen w' (Raise e) []); rewrite ?app_nil_r; try reflexivity.
      eapply adds_trans; eassumption. }
  apply (adds_load_data keeps_connections conn _ _ _ keeps_connections_other) in H5.
  pose proof (adds_trans _ _ _ _ H4 H5) as H45. clear H4 H5.
  apply eff_bind_inv in H as [(u6 & w6 & H6 & H)|(e & He & ->)].
  - unfold external in H6. destruct (raises (env w5) (calls w5) (Close conn)); [discriminate H6|].
    inversion H6; subst w6. clear H6.
    unfold logger in H. inversion H; subst.
    apply (Hopen w5 (Ok tt) [Close conn] H45); reflexivity.
  - unfold external in He. destruct (raises (env w5) (calls w5) (Close conn)); [|discriminate He].
    inversion He; subst.
    apply (Hopen w' (Raise e) [] H45); rewrite ?app_nil_r; reflexivity.
Qed.

Lemma logger_inv lvl message w (r : result unit) w' :
  logger lvl message w = (r, w') -> r = Ok tt /\ env w' = env w /\ calls w' = calls w.
Proof. intros H. inversion H; subst. repeat split. Qed.


(** The handler of the two transactions: a rollback, and the exception
    again. *)
Lemma guarded_outcome (conn : connection) (label : string) (body : M unit) w r w' :
  Eff.try_except body
    (fun e => logger ERROR (label ++ str_exn e) ;;;
              external (Rollback conn) ;;; Eff.throw e) w = (r, w') ->
  (exists u, r = Ok u /\ body w = (Ok u, w'))
  \/ (exists e e0 w1,
        r = Raise e /\ body w = (Raise e0, w1) /\ env w' = env w1
        /\ ((e = e0 /\ calls w' = (calls w1 ++ [Rollback conn])%list)
            \/ (calls w' = calls w1
                /\ raises (env w1) (calls w1) (Rollback conn) = Some e))).
Proof.
  unfold Eff.try_except. destruct (body w) as [[u|e0] w1]; intros H.
  - left. inversion H; subst. exists u. split; reflexivity.
  - right. unfold Eff.mbind, logger, external, Eff.throw in H. cbn [env calls] in H.
    destruct (raises (env w1) (calls w1) (Rollback conn)) as [e2|] eqn:Hroll;
      inversion H; subst; cbn [env calls].
    + exists e2, e0, w1. repeat split. right. split; [reflexivity|exact Hroll].
    + exists e0, e0, w1. repeat split. left. split; reflexivity.
Qed.

(** A transaction that raises has committed nothing, and has rolled back
    unless the rollback raised. *)
Lemma guarded_raises (conn : connection) (label : string) (body : M unit) w e w' :
  (forall e0 w1, body w = (Raise e0, w1) -> adds commits_nothing w w1) ->
  Eff.try_except body
    (fun e => logger ERROR (label ++ str_exn e) ;;;
              external (Rollback conn) ;;; Eff.throw e) w = (Raise e, w') ->
  exists new,
    calls w' = (calls w ++ new)%list
    /\ forallb commits_nothing new = true
    /\ (last new = Some (Rollback conn)
        \/ raises (env w) (calls w') (Rollback conn) = Some e).
Proof.
  intros Hbody H.
  apply guarded_outcome in H as [(u & Hr & _)|(e1 & e0 & w1 & Hr & Hb & He & Hc)];
    [discriminate Hr|].
  inversion Hr; subst e1. destruct (Hbody _ _ Hb) as (E1 & new & C1 & P1).
  destruct Hc as [[-> Hc]|[Hc Hroll]].
  - exists (new ++ [Rollback conn])%list. rewrite Hc, C1, <- app_assoc.
    split; [reflexivity|]. split.
    + rewrite forallb_app, P1. reflexivity.
    + left. apply last_snoc.
  - exists new. rewrite Hc. split; [exact C1|]. split; [exact P1|].
    right. rewrite <- E1. exact Hroll.
Qed.

Lemma external_inv (o : op) w (r : result unit) w' :
  external o w = (r, w') ->
  env w' = env w
  /\ ((r = Ok tt /\ calls w' = (calls w ++ [o])%list)
      \/ (exists e, r = Raise e /\ w' = w)).
Proof.
  unfold external. destruct (raises (env w) (calls w) o) as [e|]; intros H;
    inversion H; subst.
  - split; [reflexivity|]. right. exists e. split; reflexivity.
  - split; [reflexivity|]. left. split; reflexivity.
Qed.

(** The calls of the body of [load_data_to_postgres]. *)
Lemma load_body_calls (conn : connection) (data schema table : value) w r w' :
  (external (Cursor conn) ;;;
   values <~ Eff.lift (prepare_values json_dumps AttributeError data) ;;
   external (ExecuteValues conn (INSERT_ON_CONFLICT_UPDATE schema table) values) ;;;
   external (Commit conn) ;;;
   logger INFO ("Successfully loaded " ++ pretty (List.length values)
                ++ " recipes to PostgreSQL")) w = (r, w') ->
  match r with
  | Ok _ =>
      exists values,
        prepare_values json_dumps AttributeError data = Ok values
        /\ calls w' = (calls w ++ insert_calls conn schema table values)%list
  | Raise _ => adds commits_nothing w w'
  end.
Proof.
  intros H.
  apply eff_bind_inv in H as [(u1 & w1 & H1 & H)|(e & He & ->)].
  2:{ eapply adds_external; [|exact He]. reflexivity. }
  apply external_inv in H1 as (E1 & [[_ C1]|(e & He & _)]); [|discriminate He].
  apply eff_bind_inv in H as [(values & w2 & H2 & H)|(e & He & ->)].
  2:{ inversion He; subst. split; [exact E1|]. exists [Cursor conn].
      split; [exact C1|reflexivity]. }
  unfold Eff.lift in H2. injection H2 as Hvalues Hw. subst w2.
  apply eff_bind_inv in H as [(u3 & w3 & H3 & H)|(e & He & ->)].
  2:{ apply external_inv in He as (E3 & [[He _]|(e' & _ & ->)]); [discriminate He|].
      split; [exact E1|]. exists [Cursor conn]. split; [exact C1|reflexivity]. }
  apply external_inv in H3 as (E3 & [[_ C3]|(e & He & _)]); [|discriminate He].
  apply eff_bind_inv in H as [(u4 & w4 & H4 & H)|(e & He & ->)].
  2:{ apply external_inv in He as (E4 & [[He _]|(e' & _ & ->)]); [discriminate He|].
      split; [congruence|]. eexists. rewrite C3, C1, <- app_assoc.
      split; reflexivity. }
  apply external_inv in H4 as (E4 & [[_ C4]|(e & He & _)]); [|discriminate He].
  apply logger_inv in H as (-> & E5 & C5).
  exists values. split; [exact Hvalues|].
  rewrite C5, C4, C3, C1, <- !app_assoc. reflexivity.
Qed.

(** The calls of the body of [create_table_if_not_exists]. *)
Lemma create_body_calls (conn : connection) w r w' :
  (external (Cursor conn) ;;;
   external (Execute conn (CREATE_SCHEMA_IF_NOT_EXISTS (RDS_SCHEMA environ))) ;;;
   external (Execute conn (CREATE_TABLE_IF_NOT_EXISTS (RDS_SCHEMA environ)
                             (RDS_TABLE environ))) ;;;
   external (Commit conn) ;;;
   logger INFO ("Table " ++ py_str (RDS_SCHEMA environ) ++ "."
                ++ py_str (RDS_TABLE environ) ++ " is ready")) w = (r, w') ->
  match r with
  | Ok _ => calls w' = (calls w ++ table_calls environ conn)%list
  | Raise _ => adds commits_nothing w w'
  end.
Proof.
  intros H.
  apply eff_bind_inv in H as [(u1 & w1 & H1 & H)|(e & He & ->)].
  2:{ eapply adds_external; [|exact He]. reflexivity. }
  apply external_inv in H1 as (E1 & [[_ C1]|(e & He & _)]); [|discriminate He].
  apply eff_bind_inv in H as [(u2 & w2 & H2 & H)|(e & He & ->)].
  2:{ apply external_inv in He as (E2 & [[He _]|(e' & _ & ->)]); [discriminate He|].
      split; [exact E1|]. exists [Cursor conn]. split; [exact C1|reflexivity]. }
  apply external_inv in H2 as (E2 & [[_ C2]|(e & He & _)]); [|discriminate He].
  apply eff_bind_inv in H as [(u3 & w3 & H3 & H)|(e & He & ->)].
  2:{ apply external_inv in He as (E3 & [[He _]|(e' & _ & ->)]); [discriminate He|].
      split; [congruence|]. eexists. rewrite C2, C1, <- app_assoc.
      split; reflexivity. }
  apply external_inv in H3 as (E3 & [[_ C3]|(e & He & _)]); [|discriminate He].
  apply eff_bind_inv in H as [(u4 & w4 & H4 & H)|(e & He & ->)].
  2:{ apply external_inv in He as (E4 & [[He _]|(e' & _ & ->)]); [discriminate He|].
      split; [congruence|]. eexists. rewrite C3, C2, C1, <- !app_assoc.
      split; reflexivity. }
  apply external_inv in H4 as (E4 & [[_ C4]|(e & He & _)]); [|discriminate He].
  apply logger_inv in H as (-> & E5 & C5).
  rewrite C5, C4, C3, C2, C1, <- !app_assoc. reflexivity.
Qed.

(** *** The values of the insert *)

Lemma row_values_dict (items : Pandas.row) :
  exists recipe_id name description difficulty prep_time cook_time servings
         ingredients instructions tags nutrition_info,
    row_values json_dumps AttributeError (VDict items)
    = Ok [recipe_id; name; description; difficulty; prep_time; cook_time; servings;
          VStr ingredients; VStr instructions; VStr tags; VStr nutrition_info;
          VStr "CURRENT_TIMESTAMP"].
Proof. unfold row_values, py_get. cbn [bind]. repeat eexists. Qed.

Lemma row_values_other (v : value) :
  is_dict v = false ->
  row_values json_dumps AttributeError v = Raise (no_get AttributeError v).
Proof. destruct v; intros H; try discriminate H; reflexivity. Qed.

Lemma mapM_row_values (recipes : list value) :
  match first_other recipes with
  | Some v =>
      mapM (row_values json_dumps AttributeError) recipes
      = Raise (no_get AttributeError v)
  | None =>
      exists values,
        mapM (row_values json_dumps AttributeError) recipes = Ok values
        /\ List.length values = List.length recipes
        /\ Forall (fun row => List.length row = 12%nat) values
  end.
Proof.
  unfold first_other. induction recipes as [|v recipes IH]; cbn [List.find mapM].
  - exists []. repeat split. constructor.
  - destruct (is_dict v) eqn:Hv; cbn [negb].
    + destruct v; try discriminate Hv.
      destruct (row_values_dict items)
        as (x1 & x2 & x3 & x4 & x5 & x6 & x7 & x8 & x9 & x10 & x11 & Hrow).
      rewrite Hrow. cbn [bind].
      destruct (List.find _ recipes) as [u|].
      * rewrite IH. reflexivity.
      * destruct IH as (values & -> & Hlen & Hrows). cbn [bind].
        eexists. split; [reflexivity|]. cbn [List.length]. split; [congruence|].
        constructor; [reflexivity|exact Hrows].
    + rewrite (row_values_other v Hv). reflexivity.
Qed.

(** *** Runs in which the calls return *)

Lemma runs_bind {A B} (m : M A) (k : A -> M B) w a n1 r n2 :
  runs m w (Ok a) n1 ->
  (forall w1, env w1 = env w -> calls w1 = (calls w ++ n1)%list -> runs (k a) w1 r n2) ->
  runs (Eff.mbind m k) w r (n1 ++ n2).
Proof.
  intros (w1 & Hm & E1 & C1) Hk. destruct (Hk w1 E1 C1) as (w2 & Hk2 & E2 & C2).
  exists w2. unfold Eff.mbind. rewrite Hm. split; [exact Hk2|]. split; [congruence|].
  rewrite C2, C1, <- app_assoc. reflexivity.
Qed.

Lemma runs_bind_raise {A B} (m : M A) (k : A -> M B) w e n :
  runs m w (Raise e) n -> runs (Eff.mbind m k) w (Raise e) n.
Proof.
  intros (w1 & Hm & E1 & C1). exists w1. unfold Eff.mbind. rewrite Hm.
  repeat split; assumption.
Qed.

Lemma runs_try_ok {A} (body : M A) (handler : exn -> M A) w a n :
  runs body w (Ok a) n -> runs (Eff.try_except body handler) w (Ok a) n.
Proof.
  intros (w1 & Hm & E1 & C1). exists w1. unfold Eff.try_except. rewrite Hm.
  repeat split; assumption.
Qed.

Lemma runs_try_raise {A} (body : M A) (handler : exn -> M A) w e n1 r n2 :
  runs body w (Raise e) n1 ->
  (forall w1, env w1 = env w -> calls w1 = (calls w ++ n1)%list ->
              runs (handler e) w1 r n2) ->
  runs (Eff.try_except body handler) w r (n1 ++ n2).
Proof.
  intros (w1 & Hm & E1 & C1) Hk. destruct (Hk w1 E1 C1) as (w2 & Hk2 & E2 & C2).
  exists w2. unfold Eff.try_except. rewrite Hm. split; [exact Hk2|]. split; [congruence|].
  rewrite C2, C1, <- app_assoc. reflexivity.
Qed.

Lemma runs_external (o : op) w :
  all_calls_return w -> runs (external o) w (Ok tt) [o].
Proof.
  intros Hq. unfold runs, external. rewrite Hq. eexists. split; [reflexivity|].
  split; reflexivity.
Qed.

Lemma runs_here {A} (r : result A) w w' :
  env w' = env w -> calls w' = calls w -> runs (fun _ => (r, w')) w r [].
Proof.
  intros E C. exists w'. rewrite app_nil_r. repeat split; assumption.
Qed.

Lemma runs_logger lvl message w : runs (logger lvl message) w (Ok tt) [].
Proof. apply runs_here; reflexivity. Qed.

Lemma runs_lift {A} (r : result A) w : runs (Eff.lift r) w r [].
Proof. apply (runs_here r w w); reflexivity. Qed.

Lemma runs_calls {A} (m : M A) w r n n' : runs m w r n -> n = n' -> runs m w r n'.
Proof. intros H <-. exact H. Qed.

Lemma all_calls_return_env w w1 :
  env w1 = env w -> all_calls_return w -> all_calls_return w1.
Proof. intros E Hq history o. rewrite E. apply Hq. Qed.

Lemma runs_get_connection w :
  all_calls_return w ->
  runs (get_connection environ) w (Ok (opened (calls w))) [connect_call environ].
Proof.
  intros Hq. apply runs_try_ok. unfold runs, connect, external. rewrite Hq.
  eexists. split; [reflexivity|]. split; reflexivity.
Qed.

Lemma runs_create_table (c : connection) w :
  all_calls_return w ->
  runs (create_table_if_not_exists environ c) w (Ok tt) (table_calls environ c).
Proof.
  intros Hq. apply runs_try_ok.
  eapply runs_calls.
  - repeat (eapply runs_bind;
            [apply runs_external; assumption
            |intros ? ?E ?C; eapply all_calls_return_env in Hq; [|eassumption]]).
    apply runs_logger.
  - reflexivity.
Qed.

Lemma runs_load_data (c : connection) (data schema table : value) values w :
  all_calls_return w ->
  prepare_values json_dumps AttributeError data = Ok values ->
  runs (load_data_to_postgres json_dumps AttributeError c data schema table) w (Ok tt)
    (insert_calls c schema table values).
Proof.
  intros Hq Hvalues. apply runs_try_ok. eapply runs_calls.
  - eapply runs_bind; [apply runs_external; assumption|intros w1 E1 C1].
    pose proof (all_calls_return_env _ _ E1 Hq) as Hq1.
    rewrite Hvalues.
    eapply runs_bind; [apply runs_lift|intros w2 E2 C2].
    pose proof (all_calls_return_env _ _ E2 Hq1) as Hq2.
    eapply runs_bind; [apply runs_external; assumption|intros w3 E3 C3].
    pose proof (all_calls_return_env _ _ E3 Hq2) as Hq3.
    eapply runs_bind; [apply runs_external; assumption|intros w4 E4 C4].
    apply runs_logger.
  - reflexivity.
Qed.

Lemma runs_load_data_raise (c : connection) (data schema table : value) e w :
  all_calls_return w ->
  prepare_values json_dumps AttributeError data = Raise e ->
  runs (load_data_to_postgres json_dumps AttributeError c data schema table) w (Raise e)
    [Cursor c; Rollback c].
Proof.
  intros Hq Hvalues. eapply runs_calls.
  - eapply runs_try_raise.
    + eapply runs_bind; [apply runs_external; assumption|intros w1 E1 C1].
      rewrite Hvalues. apply runs_bind_raise, runs_lift.
    + intros w1 E1 C1. pose proof (all_calls_return_env _ _ E1 Hq) as Hq1.
      eapply runs_bind; [apply runs_logger|intros w2 E2 C2].
      pose proof (all_calls_return_env _ _ E2 Hq1) as Hq2.
      eapply runs_bind; [apply runs_external; assumption|intros w3 E3 C3].
      apply (runs_here (Raise e) w3 w3); reflexivity.
  - reflexivity.
Qed.

(** The run of one record up to the load. *)
Lemma runs_handle_record (bucket key : string) (data : value) (r : result unit)
    (load : list op) w :
  all_calls_return w ->
  json_loads (env w) (VStr bucket) (VStr key) = Ok data ->
  (forall w1, env w1 = env w ->
     runs (load_data_to_postgres json_dumps AttributeError (opened (calls w)) data
             (RDS_SCHEMA environ) (RDS_TABLE environ)) w1 r load) ->
  runs (handle_record environ json_dumps AttributeError (s3_record bucket key)) w r
    (GetObject (VStr bucket) (VStr key) :: connect_call environ
     :: table_calls environ (opened (calls w)) ++ load
     ++ (if raised r then [] else [Close (opened (calls w))]))%list.
Proof.
  intros Hq Hdata Hload. unfold handle_record.
  change (py_getitem (s3_record bucket key) "s3")
    with (Ok (VDict [("bucket", VDict [("name", VStr bucket)]);
                     ("object", VDict [("key", VStr key)])])).
  unfold Eff.mbind at 1, Eff.lift at 1.
  change (bind (py_getitem (VDict [("bucket", VDict [("name", VStr bucket)]);
                                   ("object", VDict [("key", VStr key)])]) "bucket")
            (fun b => py_getitem b "name"))
    with (Ok (VStr bucket)).
  unfold Eff.mbind at 1, Eff.lift at 1.
  unfold Eff.mbind at 1, Eff.lift at 1.
  change (bind (py_getitem (VDict [("bucket", VDict [("name", VStr bucket)]);
                                   ("object", VDict [("key", VStr key)])]) "object")
            (fun o => py_getitem o "key"))
    with (Ok (VStr key)).
  unfold Eff.mbind at 1, Eff.lift at 1.
  assert (Hpre : forall (rest : value -> connection -> M unit) (r0 : result unit) n,
    (forall w1, env w1 = env w -> runs (rest data (opened (calls w))) w1 r0 n) ->
    runs (logger INFO ("Processing file " ++ py_str (VStr key) ++ " from bucket "
                       ++ py_str (VStr bucket)) ;;;
          data <~ read_json (VStr bucket) (VStr key) ;;
          conn <~ get_connection environ ;;
          create_table_if_not_exists environ conn ;;; rest data conn) w r0
      (GetObject (VStr bucket) (VStr key) :: connect_call environ
       :: table_calls environ (opened (calls w)) ++ n)%list).
  { intros rest r0 n Hrest. eapply runs_calls.
    - eapply runs_bind; [apply runs_logger|intros w1 E1 C1].
      pose proof (all_calls_return_env _ _ E1 Hq) as Hq1.
      eapply runs_bind.
      { unfold read_json.
        eapply runs_bind; [apply runs_external; exact Hq1|intros w2 E2 C2].
        exists w2. split; [cbv beta; rewrite E2, E1, Hdata; reflexivity|].
        split; [reflexivity|]. symmetry. apply app_nil_r. }
      intros w2 E2 C2. pose proof (all_calls_return_env _ _ E2 Hq1) as Hq2.
      eapply runs_bind; [apply runs_get_connection; exact Hq2|intros w3 E3 C3].
      pose proof (all_calls_return_env _ _ E3 Hq2) as Hq3.
      assert (Hc : opened (calls w2) = opened (calls w)).
      { rewrite C2, C1, !opened_app. cbn. lia. }
      rewrite Hc.
      eapply runs_bind; [apply runs_create_table; exact Hq3|intros w4 E4 C4].
      apply Hrest. congruence.
    - reflexivity. }
  apply (Hpre (fun data conn =>
                 load_data_to_postgres json_dumps AttributeError conn data
                   (RDS_SCHEMA environ) (RDS_TABLE environ) ;;;
                 external (Close conn) ;;;
                 logger INFO ("Successfully processed file " ++ py_str (VStr key)))).
  intros w1 E1. specialize (Hload w1 E1). destruct r as [[]|e]; cbn [raised].
  - eapply runs_bind; [exact Hload|intros w5 E5 C5].
    eapply runs_calls.
    + eapply runs_bind; [apply runs_external|intros w6 E6 C6; apply runs_logger].
      eapply all_calls_return_env; [|exact Hq]. congruence.
    + reflexivity.
  - rewrite app_nil_r. apply runs_bind_raise. exact Hload.
Qed.

Lemma opened_record_calls (c : connection) (bucket key : string) values :
  opened (record_calls environ c bucket key values) = 1%nat.
Proof. reflexivity. Qed.

(** The records of a batch whose objects can all be loaded. *)
Lemma runs_for_each (objects : list (string * string)) : forall w,
  all_calls_return w ->
  Forall (loadable json_dumps AttributeError (env w)) objects ->
  runs (Eff.for_each (handle_record environ json_dumps AttributeError)
          (map (fun object => s3_record (fst object) (snd object)) objects)) w (Ok tt)
    (concat (imap (fun i object =>
                     record_calls environ (opened (calls w) + i)%nat (fst object) (snd object)
                       (values_of json_dumps AttributeError (env w) object))
               objects)).
Proof.
  induction objects as [|[bucket key] objects IH]; intros w Hq Hall.
  - apply (runs_here (Ok tt) w w); reflexivity.
  - apply Forall_cons in Hall as [(data & Hdata & Hvalues) Hall].
    cbn [fst snd] in Hdata.
    destruct (prepare_values json_dumps AttributeError data) as [values|e] eqn:Hprep;
      [|discriminate Hvalues].
    cbn [map Eff.for_each imap concat fst snd].
    eapply runs_bind.
    + eapply runs_calls.
      * apply (runs_handle_record bucket key data (Ok tt)
                 (insert_calls (opened (calls w)) (RDS_SCHEMA environ) (RDS_TABLE environ)
                    values) w Hq Hdata).
        intros w1 E1. apply runs_load_data; [|exact Hprep].
        eapply all_calls_return_env; eassumption.
      * unfold record_calls, values_of. cbn [fst snd raised].
        rewrite Hdata, Hprep, Nat.add_0_r. reflexivity.
    + intros w1 E1 C1. eapply runs_calls.
      * apply IH; [eapply all_calls_return_env; eassumption|rewrite E1; exact Hall].
      * rewrite C1, opened_app, opened_record_calls, E1. f_equal.
        apply imap_ext. intros i object _. cbn [compose]. f_equal. lia.
Qed.


(** X25. One record of the event opens at most one connection. When the
    record is loaded it has opened exactly one connection and closed it;
    when handling it raises, no connection has been closed: a connection
    that was opened for the record stays open. *)
Theorem X25_failed_record_leaves_connection_open (record : value) (w : world)
    (r : result unit) (w' : world) :
  handle_record environ json_dumps AttributeError record w = (r, w') ->
  exists new,
    calls w' = (calls w ++ new)%list
    /\ (opened new <= 1)%nat
    /\ closed new = (if raised r then 0 else 1)%nat
    /\ (raised r = false -> opened new = 1%nat).
Proof. intros H. exact (proj2 (handle_record_calls _ _ _ _ H)). Qed.

(** X26. When [load_data_to_postgres] returns, its calls are a cursor, one
    insert of the prepared values and a commit. When it raises, none of
    its calls is a commit, and its last call is a rollback unless the
    rollback itself raised, in which case the exception raised is the one
    of the rollback. *)
Theorem X26_load_commits_or_rolls_back (conn : connection) (data schema table : value)
    (w : world) (r : result unit) (w' : world) :
  load_data_to_postgres json_dumps AttributeError conn data schema table w = (r, w') ->
  match r with
  | Ok _ =>
      exists values,
        prepare_values json_dumps AttributeError data = Ok values
        /\ calls w' = (calls w ++ insert_calls conn schema table values)%list
  | Raise e =>
      exists new,
        calls w' = (calls w ++ new)%list
        /\ forallb commits_nothing new = true
        /\ (last new = Some (Rollback conn)
            \/ raises (env w) (calls w') (Rollback conn) = Some e)
  end.
Proof.
  intros H. unfold load_data_to_postgres in H. destruct r as [u|e].
  - apply guarded_outcome in H as [(u' & _ & Hb)|(e1 & e0 & w1 & Hr & _)];
      [|discriminate Hr].
    exact (load_body_calls _ _ _ _ _ _ _ Hb).
  - eapply guarded_raises; [|exact H].
    intros e0 w1 Hb. exact (load_body_calls _ _ _ _ _ _ _ Hb).
Qed.

(** X27. When [create_table_if_not_exists] returns, its calls are a cursor,
    the two statements and a commit. When it raises, none of its calls is
    a commit, and its last call is a rollback unless the rollback itself
    raised, in which case the exception raised is the one of the
    rollback. *)
Theorem X27_create_table_commits_or_rolls_back (conn : connection)
    (w : world) (r : result unit) (w' : world) :
  create_table_if_not_exists environ conn w = (r, w') ->
  match r with
  | Ok _ => calls w' = (calls w ++ table_calls environ conn)%list
  | Raise e =>
      exists new,
        calls w' = (calls w ++ new)%list
        /\ forallb commits_nothing new = true
        /\ (last new = Some (Rollback conn)
            \/ raises (env w) (calls w') (Rollback conn) = Some e)
  end.
Proof.
  intros H. unfold create_table_if_not_exists in H. destruct r as [u|e].
  - apply guarded_outcome in H as [(u' & _ & Hb)|(e1 & e0 & w1 & Hr & _)];
      [|discriminate Hr].
    exact (create_body_calls _ _ _ _ Hb).
  - eapply guarded_raises; [|exact H].
    intros e0 w1 Hb. exact (create_body_calls _ _ _ _ Hb).
Qed.

(** X28. The values prepared for data that can be iterated: when every
    item is a dict there is one tuple of twelve fields per item, in order;
    otherwise preparing them raises the [AttributeError] of the first item
    that is no dict, whatever the other items are. *)
Theorem X28_prepared_values (data : value) (recipes : list value) :
  py_iter data = Ok recipes ->
  match first_other recipes with
  | Some v => prepare_values json_dumps AttributeError data
              = Raise (no_get AttributeError v)
  | None =>
      exists values,
        prepare_values json_dumps AttributeError data = Ok values
        /\ List.length values = List.length recipes
        /\ Forall (fun row => List.length row = 12%nat) values
  end.
Proof.
  intros Hiter. unfold prepare_values. rewrite Hiter. cbn [bind].
  apply mapM_row_values.
Qed.

(** X29. When every call returns and the recipes of the first record's
    object cannot be prepared, the loader answers 500 with the text of
    the exception. It has created the table, rolled the insert back and
    left the connection open, and it has not looked at the records after
    the first. *)
Theorem X29_bad_recipes_leave_connection_open (event : value) (bucket key : string)
    (rest : list value) (data : value) (e : exn) (w : world) :
  py_getitem event "Records" = Ok (VList (s3_record bucket key :: rest)) ->
  all_calls_return w ->
  json_loads (env w) (VStr bucket) (VStr key) = Ok data ->
  prepare_values json_dumps AttributeError data = Raise e ->
  exists w',
    lambda_handler environ json_dumps AttributeError event w
    = (Ok (500, error_body json_dumps e), w')
    /\ calls w'
       = (calls w ++ failed_record_calls environ (opened (calls w)) bucket key)%list.
Proof.
  intros Hrecords Hq Hdata Hprep.
  assert (H : runs (lambda_handler environ json_dumps AttributeError event) w
                (Ok (500, error_body json_dumps e))
                (failed_record_calls environ (opened (calls w)) bucket key)).
  { unfold lambda_handler. eapply runs_calls.
    - eapply runs_try_raise.
      + eapply runs_bind; [apply runs_logger|intros w1 E1 C1].
        rewrite Hrecords. cbn [bind py_iter].
        eapply runs_bind; [apply runs_lift|intros w2 E2 C2].
        apply runs_bind_raise. cbn [Eff.for_each]. apply runs_bind_raise.
        assert (Hq2 : all_calls_return w2).
        { eapply all_calls_return_env; [|exact Hq]. congruence. }
        assert (Hdata2 : json_loads (env w2) (VStr bucket) (VStr key) = Ok data)
          by (rewrite E2, E1; exact Hdata).
        eapply runs_calls.
        * apply (runs_handle_record bucket key data (Raise e)
                   [Cursor (opened (calls w2)); Rollback (opened (calls w2))]
                   w2 Hq2 Hdata2).
          intros w3 E3. apply runs_load_data_raise; [|exact Hprep].
          eapply all_calls_return_env; eassumption.
        * rewrite C2, C1, !app_nil_r. reflexivity.
      + intros w1 E1 C1.
        eapply runs_bind; [apply runs_logger|intros w2 E2 C2].
        apply (runs_here (Ok (500, error_body json_dumps e)) w2 w2); reflexivity.
    - unfold failed_record_calls. cbn [raised app]. rewrite !app_nil_r.
      reflexivity. }
  destruct H as (w' & Hrun & _ & Hcalls). exists w'. split; assumption.
Qed.

(** X30. When every call returns and the object of every record can be
    read and its recipes prepared, the loader answers 200, and its calls
    are, record after record in the order of the event: the read of the
    object, a new connection, the creation of the table with its commit,
    the insert of the object's values with its commit, and the close of
    that connection. *)
Theorem X30_calls_of_a_loaded_event (objects : list (string * string)) (w : world) :
  all_calls_return w ->
  Forall (loadable json_dumps AttributeError (env w)) objects ->
  exists w',
    lambda_handler environ json_dumps AttributeError (event_for objects) w
    = (Ok (200, loaded_body json_dumps), w')
    /\ calls w'
       = (calls w
          ++ concat (imap (fun i object =>
                             record_calls environ (opened (calls w) + i)%nat
                               (fst object) (snd object)
                               (values_of json_dumps AttributeError (env w) object))
                       objects))%list.
Proof.
  intros Hq Hall.
  assert (H : runs (lambda_handler environ json_dumps AttributeError (event_for objects)) w
                (Ok (200, loaded_body json_dumps))
                (concat (imap (fun i object =>
                                 record_calls environ (opened (calls w) + i)%nat
                                   (fst object) (snd object)
                                   (values_of json_dumps AttributeError (env w) object))
                           objects))).
  { unfold lambda_handler. apply runs_try_ok. eapply runs_calls.
    - eapply runs_bind; [apply runs_logger|intros w1 E1 C1].
      change (bind (py_getitem (event_for objects) "Records") py_iter)
        with (Ok (map (fun object => s3_record (fst object) (snd object)) objects)).
      eapply runs_bind; [apply runs_lift|intros w2 E2 C2].
      eapply runs_bind.
      + eapply runs_calls.
        * apply runs_for_each.
          -- eapply all_calls_return_env; [|exact Hq]. congruence.
          -- rewrite E2, E1. exact Hall.
        * rewrite C2, C1, !app_nil_r, E2, E1. reflexivity.
      + intros w3 E3 C3.
        apply (runs_here (Ok (200, loaded_body json_dumps)) w3 w3); reflexivity.
    - cbn [app]. rewrite app_nil_r. reflexivity. }
  destruct H as (w' & Hrun & _ & Hcalls). exists w'. split; assumption.
Qed.

End LoaderRuns.

Lemma X25_failed_record_leaves_connection_open_witness :
  exists new,
    calls (snd (handle_record ∅ (fun _ => "{}") TypeError
                  (s3_record "processed-recipes" "recipes.json")
                  (start refusing_inserts)))
    = (calls (start refusing_inserts) ++ new)%list
    /\ (opened new <= 1)%nat
    /\ closed new
       = (if raised (Raise (A:=unit) (Exn ValueError "null value in column name"))
          then 0 else 1)%nat
    /\ (raised (Raise (A:=unit) (Exn ValueError "null value in column name")) = false ->
        opened new = 1%nat).
Proof.
  apply (X25_failed_record_leaves_connection_open (∅ : gmap string string)
           (fun _ => "{}") TypeError (s3_record "processed-recipes" "recipes.json")
           (start refusing_inserts)
           (Raise (Exn ValueError "null value in column name"))).
  vm_compute. reflexivity.
Defined.

(** The calls of the sample record whose insert is refused. *)
Example calls_of_a_refused_insert :
  calls (snd (handle_record ∅ (fun _ => "{}") TypeError
                (s3_record "processed-recipes" "recipes.json")
                (start refusing_inserts)))
  = [GetObject (VStr "processed-recipes") (VStr "recipes.json");
     Connect (VStr "localhost") (VInt 5432) (VStr "postgres") (VStr "postgres")
       (VStr "postgres");
     Cursor 0%nat;
     Execute 0%nat (CREATE_SCHEMA_IF_NOT_EXISTS (VStr "public"));
     Execute 0%nat (CREATE_TABLE_IF_NOT_EXISTS (VStr "public") (VStr "recipes"));
     Commit 0%nat;
     Cursor 0%nat;
     Rollback 0%nat].
Proof. vm_compute. reflexivity. Qed.

Lemma X26_load_commits_or_rolls_back_witness :
  exists new,
    calls (snd (load_data_to_postgres (fun _ => "{}") TypeError 0%nat
                  (VList [stored_recipe]) (VStr "public") (VStr "recipes")
                  (start refusing_inserts)))
    = (calls (start refusing_inserts) ++ new)%list
    /\ forallb commits_nothing new = true
    /\ (last new = Some (Rollback 0%nat)
        \/ raises (env (start refusing_inserts))
             (calls (snd (load_data_to_postgres (fun _ => "{}") TypeError 0%nat
                            (VList [stored_recipe]) (VStr "public") (VStr "recipes")
                            (start refusing_inserts))))
             (Rollback 0%nat)
           = Some (Exn ValueError "null value in column name")).
Proof.
  apply (X26_load_commits_or_rolls_back (fun _ => "{}") TypeError 0%nat
           (VList [stored_recipe]) (VStr "public") (VStr "recipes")
           (start refusing_inserts)
           (Raise (Exn ValueError "null value in column name"))).
  vm_compute. reflexivity.
Defined.

Lemma X27_create_table_commits_or_rolls_back_witness :
  calls (snd (create_table_if_not_exists ∅ 0%nat (start accepting)))
  = (calls (start accepting) ++ table_calls ∅ 0%nat)%list.
Proof.
  apply (X27_create_table_commits_or_rolls_back (∅ : gmap string string) 0%nat
           (start accepting) (Ok tt)).
  vm_compute. reflexivity.
Defined.

Lemma X28_prepared_values_witness :
  prepare_values (fun _ => "{}") TypeError (VList [stored_recipe; VStr "soup"])
  = Raise (no_get TypeError (VStr "soup")).
Proof.
  exact (X28_prepared_values (fun _ => "{}") TypeError
           (VList [stored_recipe; VStr "soup"]) [stored_recipe; VStr "soup"] eq_refl).
Defined.

Lemma X29_bad_recipes_leave_connection_open_witness :
  exists w',
    lambda_handler ∅ (fun _ => "{}") TypeError
      (event_for [("processed-recipes", "recipes.json"); ("processed-recipes", "more.json")])
      (start unprepared)
    = (Ok (500, error_body (fun _ => "{}") (no_get TypeError (VStr "soup"))), w')
    /\ calls w'
       = (calls (start unprepared)
          ++ failed_record_calls ∅ (opened (calls (start unprepared)))
               "processed-recipes" "recipes.json")%list.
Proof.
  apply (X29_bad_recipes_leave_connection_open (∅ : gmap string string) (fun _ => "{}")
           TypeError
           (event_for [("processed-recipes", "recipes.json");
                       ("processed-recipes", "more.json")])
           "processed-recipes" "recipes.json"
           [s3_record "processed-recipes" "more.json"]
           (VList [stored_recipe; VStr "soup"])
           (no_get TypeError (VStr "soup")) (start unprepared)).
  - reflexivity.
  - intros history o. reflexivity.
  - reflexivity.
  - reflexivity.
Defined.

Lemma X30_calls_of_a_loaded_event_witness :
  exists w',
    lambda_handler ∅ (fun _ => "{}") TypeError
      (event_for [("processed-recipes", "recipes.json"); ("processed-recipes", "more.json")])
      (start accepting)
    = (Ok (200, loaded_body (fun _ => "{}")), w')
    /\ calls w'
       = (calls (start accepting)
          ++ concat (imap (fun i object =>
                             record_calls ∅ (opened (calls (start accepting)) + i)%nat
                               (fst object) (snd object)
                               (values_of (fun _ => "{}") TypeError
                                  (env (start accepting)) object))
                       [("processed-recipes", "recipes.json");
                        ("processed-recipes", "more.json")]))%list.
Proof.
  apply (X30_calls_of_a_loaded_event (∅ : gmap string string) (fun _ => "{}") TypeError
           [("processed-recipes", "recipes.json"); ("processed-recipes", "more.json")]
           (start accepting)).
  - intros history o. reflexivity.
  - repeat constructor; exists (VList [stored_recipe]); split; reflexivity.
Defined.

(** The tuple prepared for the sample recipe, which has none of [name],
    [description], [difficulty], [prep_time], [cook_time], [servings],
    [instructions] and [nutrition_info]. *)
Example values_of_a_stored_recipe :
  row_values (fun v => match v with
                       | VList [] => "[]"
                       | VDict [] => "{}"
                       | _ => "[...]"
                       end) TypeError stored_recipe
  = Ok [VStr "id-0"; VNone; VNone; VNone; VNone; VNone; VNone;
        VStr "[...]"; VStr "[]"; VStr "[...]"; VStr "{}"; VStr "CURRENT_TIMESTAMP"].
Proof. reflexivity. Qed.

End LoaderProperties.
